(** * Cart-to-order transition and order lifecycle of the e-commerce backend

    A shallow embedding of the Express/Mongoose handlers of
    [routes/cart.ts], the order routes (checkout, cancel, admin status),
    [routes/payments.ts] and of the [Cart], [Order] and [Product] schemas,
    followed by the properties of the cart aggregate, the checkout
    orchestrator and the order life cycle.

    Modelling conventions.
    - A JavaScript [number] is an exact rational ([Q]); [Math.round x] is
      [floor (x + 1/2)].  NaN, infinities and binary rounding are outside
      the model.
    - An [ObjectId] is a natural number; a [Date] is an integer number of
      milliseconds.  [new Date()] and [Date.now()] read the clock of the
      environment [Env] of the request.
    - A collection is a finite map from [_id] to document.  A document in
      memory is the pair of its [_id] and its fields.
    - A handler is a function from the store to a response and a store.
      [res.status(..).json(..); return] is [reply]; an exception is [throw],
      turned into the 500 response of the handler's [catch] block.  Writes
      made before an exception stay in the store: there is no transaction.
    - The routes reach the payment service ([services/stripe]) through
      its four entry points, which are fields of [Env]; the service itself
      is embedded over the calls it makes to the provider's library
      ([StripeSDK]), and [envOf] is the environment of the routes when the
      service runs on such a library.
    - [save()] validates the document against the constraints of its
      schema ([min], [required], [enum], the sale-price validator), then
      runs the pre-save hooks of the schema, then writes; a document that
      fails validation is not written and [save()] throws.  The [trim]
      setters of the order schema are applied where a handler assigns a
      string.
    - [findOne] returns the first matching document of a fixed enumeration
      of the collection.
    - Fields that no cart, order or payment handler reads or writes
      (product description, sku, images, timestamps, cart expiry, ...) are
      left out, with the constraints on them. *)

From Stdlib Require Import QArith Qround Lqa Lia.
From stdpp Require Import gmap strings list fin_maps.

Open Scope Q_scope.

(** ** JavaScript numbers and strings *)

Definition ObjectId := N.
Definition Date := Z.

Definition Qlt_bool (x y : Q) : bool := negb (Qle_bool y x).

(** [Math.round]: the nearest integer, ties towards plus infinity. *)
Definition Math_round (x : Q) : Q := inject_Z (Qfloor (x + 0.5)).

(** Truthiness of an optional number: [undefined] and [0] are falsy. *)
Definition truthy_num (x : option Q) : bool :=
  match x with
  | Some v => negb (Qeq_bool v 0)
  | None => false
  end.

(** Truthiness of an optional string: [undefined] and [""] are falsy. *)
Definition truthy_str (x : option string) : bool :=
  match x with
  | Some v => negb (String.eqb v "")
  | None => false
  end.

(** [a || b] on optional strings. *)
Definition or_null (x : option string) : option string :=
  if truthy_str x then x else None.

Definition is_space (a : Ascii.ascii) : bool :=
  let n := Ascii.nat_of_ascii a in
  ((9 <=? n)%nat && (n <=? 13)%nat) || (n =? 32)%nat.

Fixpoint trimStart (s : string) : string :=
  match s with
  | EmptyString => EmptyString
  | String a s' => if is_space a then trimStart s' else s
  end.

(** [String.prototype.trim], on ASCII white space. *)
Definition trim (s : string) : string :=
  String.rev (trimStart (String.rev (trimStart s))).

(** ** Data model *)

(** *** Product (models/Product.ts) *)

Record Price := {
  price_regular : Q;
  price_sale : option Q
}.

Record Inventory := {
  inv_quantity : Q;
  inv_lowStockThreshold : Q;
  inv_trackQuantity : bool
}.

Record Analytics := {
  an_views : Q;
  an_purchases : Q;
  an_revenue : Q
}.

Record Product := {
  prod_name : string;
  prod_price : Price;
  prod_inventory : Inventory;
  prod_analytics : Analytics;
  prod_isActive : bool
}.

(** *** Totals, shared shape of [Cart.totals] and [Order.totals] *)

Record Totals := {
  subtotal : Q;
  tax : Q;
  shipping : Q;
  total : Q
}.

Definition zeroTotals : Totals :=
  {| subtotal := 0; tax := 0; shipping := 0; total := 0 |}.

(** *** Cart (models/Cart.ts) *)

Record CartItem := {
  ci_product : ObjectId;
  ci_quantity : Q;
  ci_price : Q;
  ci_total : Q
}.

Record Cart := {
  cart_sessionId : option string;
  cart_user : option ObjectId;
  cart_items : list CartItem;
  cart_totals : Totals
}.

(** *** Order (models/Order.ts) *)

Record OrderItem := {
  oi_product : ObjectId;
  oi_name : string;
  oi_price : Q;
  oi_quantity : Q;
  oi_total : Q
}.

Record Address := {
  addr_firstName : option string;
  addr_lastName : option string;
  addr_address : option string;
  addr_city : option string;
  addr_state : option string;
  addr_zipCode : option string;
  addr_country : option string;
  addr_phone : option string
}.

Inductive PaymentStatus := PayPending | Paid | Failed | Refunded.

Inductive OrderStatus :=
  Pending | Confirmed | Processing | Shipped | Delivered | Cancelled.

(** [`ORD-${timestamp}-${random}`]. *)
Record OrderNumber := {
  on_timestamp : Z;
  on_random : string
}.

Record Order := {
  order_orderNumber : option OrderNumber;
  order_user : ObjectId;
  order_items : list OrderItem;
  order_totals : Totals;
  order_shippingAddress : Address;
  order_billingAddress : option Address;
  order_paymentMethod : string;
  order_paymentStatus : PaymentStatus;
  order_orderStatus : OrderStatus;
  order_notes : option string;
  order_trackingNumber : option string;
  order_estimatedDelivery : option Date;
  order_deliveredAt : option Date;
  order_paymentIntentId : option string;
  order_paidAt : option Date;
  order_refundedAt : option Date;
  order_refundReason : option string
}.

#[export] Instance PaymentStatus_eq_dec : EqDecision PaymentStatus.
Proof. solve_decision. Defined.

#[export] Instance OrderStatus_eq_dec : EqDecision OrderStatus.
Proof. solve_decision. Defined.

(** The strings of the two status enumerations. *)
Definition orderStatus_of_string (s : string) : option OrderStatus :=
  if String.eqb s "pending" then Some Pending
  else if String.eqb s "confirmed" then Some Confirmed
  else if String.eqb s "processing" then Some Processing
  else if String.eqb s "shipped" then Some Shipped
  else if String.eqb s "delivered" then Some Delivered
  else if String.eqb s "cancelled" then Some Cancelled
  else None.

Definition paymentStatus_of_string (s : string) : option PaymentStatus :=
  if String.eqb s "pending" then Some PayPending
  else if String.eqb s "paid" then Some Paid
  else if String.eqb s "failed" then Some Failed
  else if String.eqb s "refunded" then Some Refunded
  else None.

(** *** The store: the three collections *)

Record Store := {
  products : gmap ObjectId Product;
  carts : gmap ObjectId Cart;
  orders : gmap ObjectId Order
}.

Definition Doc (A : Type) : Type := ObjectId * A.

Definition set_products (f : gmap ObjectId Product -> gmap ObjectId Product)
    (s : Store) : Store :=
  {| products := f (products s); carts := carts s; orders := orders s |}.

Definition set_carts (f : gmap ObjectId Cart -> gmap ObjectId Cart)
    (s : Store) : Store :=
  {| products := products s; carts := f (carts s); orders := orders s |}.

Definition set_orders (f : gmap ObjectId Order -> gmap ObjectId Order)
    (s : Store) : Store :=
  {| products := products s; carts := carts s; orders := f (orders s) |}.

(** ** Schema validation and pre-save hooks *)

Definition min_ok (lo v : Q) : bool := Qle_bool lo v.

(** *** Cart schema *)

Definition validCartItem (it : CartItem) : bool :=
  min_ok 1 (ci_quantity it) && min_ok 0 (ci_price it) && min_ok 0 (ci_total it).

Definition validTotals (t : Totals) : bool :=
  min_ok 0 (subtotal t) && min_ok 0 (tax t) && min_ok 0 (shipping t)
  && min_ok 0 (total t).

Definition validCart (c : Cart) : bool :=
  forallb validCartItem (cart_items c) && validTotals (cart_totals c).

(** [cartSchema.pre('save')]: the totals are recomputed from the items. *)
Definition cartPreSave (c : Cart) : Cart :=
  let subtotal := fold_left (fun sum item => sum + ci_total item) (cart_items c) 0 in
  let tax := Math_round (subtotal * 0.1 * 100) / 100 in
  let shipping := if Qle_bool 100 subtotal then 0 else 10 in
  let total := subtotal + tax + shipping in
  {| cart_sessionId := cart_sessionId c;
     cart_user := cart_user c;
     cart_items := cart_items c;
     cart_totals := {| subtotal := subtotal; tax := tax;
                       shipping := shipping; total := total |} |}.

(** *** Order schema *)

Definition validOrderItem (it : OrderItem) : bool :=
  negb (String.eqb (oi_name it) "") && min_ok 0 (oi_price it)
  && min_ok 1 (oi_quantity it) && min_ok 0 (oi_total it).

(** The setters of [ShippingAddressSchema]: every field is trimmed and the
    country defaults to ['United States']. *)
Definition castAddress (a : Address) : Address :=
  {| addr_firstName := trim <$> addr_firstName a;
     addr_lastName := trim <$> addr_lastName a;
     addr_address := trim <$> addr_address a;
     addr_city := trim <$> addr_city a;
     addr_state := trim <$> addr_state a;
     addr_zipCode := trim <$> addr_zipCode a;
     addr_country := Some (default "United States" (trim <$> addr_country a));
     addr_phone := trim <$> addr_phone a |}.

Definition validAddress (a : Address) : bool :=
  truthy_str (addr_firstName a) && truthy_str (addr_lastName a)
  && truthy_str (addr_address a) && truthy_str (addr_city a)
  && truthy_str (addr_state a) && truthy_str (addr_zipCode a)
  && truthy_str (addr_country a).

Definition paymentMethods : list string :=
  ["credit_card"; "debit_card"; "paypal"; "stripe"; "cash_on_delivery"].

Definition validOrder (o : Order) : bool :=
  forallb validOrderItem (order_items o)
  && validTotals (order_totals o)
  && validAddress (order_shippingAddress o)
  && from_option validAddress true (order_billingAddress o)
  && existsb (String.eqb (order_paymentMethod o)) paymentMethods.

Definition with_orderNumber (n : option OrderNumber) (o : Order) : Order :=
  {| order_orderNumber := n;
     order_user := order_user o;
     order_items := order_items o;
     order_totals := order_totals o;
     order_shippingAddress := order_shippingAddress o;
     order_billingAddress := order_billingAddress o;
     order_paymentMethod := order_paymentMethod o;
     order_paymentStatus := order_paymentStatus o;
     order_orderStatus := order_orderStatus o;
     order_notes := order_notes o;
     order_trackingNumber := order_trackingNumber o;
     order_estimatedDelivery := order_estimatedDelivery o;
     order_deliveredAt := order_deliveredAt o;
     order_paymentIntentId := order_paymentIntentId o;
     order_paidAt := order_paidAt o;
     order_refundedAt := order_refundedAt o;
     order_refundReason := order_refundReason o |}.

Definition with_totals (t : Totals) (o : Order) : Order :=
  {| order_orderNumber := order_orderNumber o;
     order_user := order_user o;
     order_items := order_items o;
     order_totals := t;
     order_shippingAddress := order_shippingAddress o;
     order_billingAddress := order_billingAddress o;
     order_paymentMethod := order_paymentMethod o;
     order_paymentStatus := order_paymentStatus o;
     order_orderStatus := order_orderStatus o;
     order_notes := order_notes o;
     order_trackingNumber := order_trackingNumber o;
     order_estimatedDelivery := order_estimatedDelivery o;
     order_deliveredAt := order_deliveredAt o;
     order_paymentIntentId := order_paymentIntentId o;
     order_paidAt := order_paidAt o;
     order_refundedAt := order_refundedAt o;
     order_refundReason := order_refundReason o |}.

Definition with_paymentStatus (v : PaymentStatus) (o : Order) : Order :=
  {| order_orderNumber := order_orderNumber o;
     order_user := order_user o;
     order_items := order_items o;
     order_totals := order_totals o;
     order_shippingAddress := order_shippingAddress o;
     order_billingAddress := order_billingAddress o;
     order_paymentMethod := order_paymentMethod o;
     order_paymentStatus := v;
     order_orderStatus := order_orderStatus o;
     order_notes := order_notes o;
     order_trackingNumber := order_trackingNumber o;
     order_estimatedDelivery := order_estimatedDelivery o;
     order_deliveredAt := order_deliveredAt o;
     order_paymentIntentId := order_paymentIntentId o;
     order_paidAt := order_paidAt o;
     order_refundedAt := order_refundedAt o;
     order_refundReason := order_refundReason o |}.

Definition with_orderStatus (v : OrderStatus) (o : Order) : Order :=
  {| order_orderNumber := order_orderNumber o;
     order_user := order_user o;
     order_items := order_items o;
     order_totals := order_totals o;
     order_shippingAddress := order_shippingAddress o;
     order_billingAddress := order_billingAddress o;
     order_paymentMethod := order_paymentMethod o;
     order_paymentStatus := order_paymentStatus o;
     order_orderStatus := v;
     order_notes := order_notes o;
     order_trackingNumber := order_trackingNumber o;
     order_estimatedDelivery := order_estimatedDelivery o;
     order_deliveredAt := order_deliveredAt o;
     order_paymentIntentId := order_paymentIntentId o;
     order_paidAt := order_paidAt o;
     order_refundedAt := order_refundedAt o;
     order_refundReason := order_refundReason o |}.

Definition with_trackingNumber (v : option string) (o : Order) : Order :=
  {| order_orderNumber := order_orderNumber o;
     order_user := order_user o;
     order_items := order_items o;
     order_totals := order_totals o;
     order_shippingAddress := order_shippingAddress o;
     order_billingAddress := order_billingAddress o;
     order_paymentMethod := order_paymentMethod o;
     order_paymentStatus := order_paymentStatus o;
     order_orderStatus := order_orderStatus o;
     order_notes := order_notes o;
     order_trackingNumber := v;
     order_estimatedDelivery := order_estimatedDelivery o;
     order_deliveredAt := order_deliveredAt o;
     order_paymentIntentId := order_paymentIntentId o;
     order_paidAt := order_paidAt o;
     order_refundedAt := order_refundedAt o;
     order_refundReason := order_refundReason o |}.

Definition with_estimatedDelivery (v : option Date) (o : Order) : Order :=
  {| order_orderNumber := order_orderNumber o;
     order_user := order_user o;
     order_items := order_items o;
     order_totals := order_totals o;
     order_shippingAddress := order_shippingAddress o;
     order_billingAddress := order_billingAddress o;
     order_paymentMethod := order_paymentMethod o;
     order_paymentStatus := order_paymentStatus o;
     order_orderStatus := order_orderStatus o;
     order_notes := order_notes o;
     order_trackingNumber := order_trackingNumber o;
     order_estimatedDelivery := v;
     order_deliveredAt := order_deliveredAt o;
     order_paymentIntentId := order_paymentIntentId o;
     order_paidAt := order_paidAt o;
     order_refundedAt := order_refundedAt o;
     order_refundReason := order_refundReason o |}.

Definition with_deliveredAt (v : option Date) (o : Order) : Order :=
  {| order_orderNumber := order_orderNumber o;
     order_user := order_user o;
     order_items := order_items o;
     order_totals := order_totals o;
     order_shippingAddress := order_shippingAddress o;
     order_billingAddress := order_billingAddress o;
     order_paymentMethod := order_paymentMethod o;
     order_paymentStatus := order_paymentStatus o;
     order_orderStatus := order_orderStatus o;
     order_notes := order_notes o;
     order_trackingNumber := order_trackingNumber o;
     order_estimatedDelivery := order_estimatedDelivery o;
     order_deliveredAt := v;
     order_paymentIntentId := order_paymentIntentId o;
     order_paidAt := order_paidAt o;
     order_refundedAt := order_refundedAt o;
     order_refundReason := order_refundReason o |}.

Definition with_paymentIntentId (v : option string) (o : Order) : Order :=
  {| order_orderNumber := order_orderNumber o;
     order_user := order_user o;
     order_items := order_items o;
     order_totals := order_totals o;
     order_shippingAddress := order_shippingAddress o;
     order_billingAddress := order_billingAddress o;
     order_paymentMethod := order_paymentMethod o;
     order_paymentStatus := order_paymentStatus o;
     order_orderStatus := order_orderStatus o;
     order_notes := order_notes o;
     order_trackingNumber := order_trackingNumber o;
     order_estimatedDelivery := order_estimatedDelivery o;
     order_deliveredAt := order_deliveredAt o;
     order_paymentIntentId := v;
     order_paidAt := order_paidAt o;
     order_refundedAt := order_refundedAt o;
     order_refundReason := order_refundReason o |}.

Definition with_paidAt (v : option Date) (o : Order) : Order :=
  {| order_orderNumber := order_orderNumber o;
     order_user := order_user o;
     order_items := order_items o;
     order_totals := order_totals o;
     order_shippingAddress := order_shippingAddress o;
     order_billingAddress := order_billingAddress o;
     order_paymentMethod := order_paymentMethod o;
     order_paymentStatus := order_paymentStatus o;
     order_orderStatus := order_orderStatus o;
     order_notes := order_notes o;
     order_trackingNumber := order_trackingNumber o;
     order_estimatedDelivery := order_estimatedDelivery o;
     order_deliveredAt := order_deliveredAt o;
     order_paymentIntentId := order_paymentIntentId o;
     order_paidAt := v;
     order_refundedAt := order_refundedAt o;
     order_refundReason := order_refundReason o |}.

Definition with_refundedAt (v : option Date) (o : Order) : Order :=
  {| order_orderNumber := order_orderNumber o;
     order_user := order_user o;
     order_items := order_items o;
     order_totals := order_totals o;
     order_shippingAddress := order_shippingAddress o;
     order_billingAddress := order_billingAddress o;
     order_paymentMethod := order_paymentMethod o;
     order_paymentStatus := order_paymentStatus o;
     order_orderStatus := order_orderStatus o;
     order_notes := order_notes o;
     order_trackingNumber := order_trackingNumber o;
     order_estimatedDelivery := order_estimatedDelivery o;
     order_deliveredAt := order_deliveredAt o;
     order_paymentIntentId := order_paymentIntentId o;
     order_paidAt := order_paidAt o;
     order_refundedAt := v;
     order_refundReason := order_refundReason o |}.

Definition with_refundReason (v : option string) (o : Order) : Order :=
  {| order_orderNumber := order_orderNumber o;
     order_user := order_user o;
     order_items := order_items o;
     order_totals := order_totals o;
     order_shippingAddress := order_shippingAddress o;
     order_billingAddress := order_billingAddress o;
     order_paymentMethod := order_paymentMethod o;
     order_paymentStatus := order_paymentStatus o;
     order_orderStatus := order_orderStatus o;
     order_notes := order_notes o;
     order_trackingNumber := order_trackingNumber o;
     order_estimatedDelivery := order_estimatedDelivery o;
     order_deliveredAt := order_deliveredAt o;
     order_paymentIntentId := order_paymentIntentId o;
     order_paidAt := order_paidAt o;
     order_refundedAt := order_refundedAt o;
     order_refundReason := v |}.

(** First [OrderSchema.pre('save')]: a new order without a number gets
    one. *)
Definition orderNumberPreSave (isNew : bool) (timestamp : Z) (random : string)
    (o : Order) : Order :=
  if isNew && negb (bool_decide (is_Some (order_orderNumber o)))
  then with_orderNumber
         (Some {| on_timestamp := timestamp; on_random := random |}) o
  else o.

(** Second [OrderSchema.pre('save')]: the totals are recomputed from the
    items. *)
Definition orderTotalsPreSave (o : Order) : Order :=
  let subtotal := fold_left (fun sum item => sum + oi_total item) (order_items o) 0 in
  let tax := Math_round (subtotal * 0.10 * 100) / 100 in
  let shipping := if Qle_bool 100 subtotal then 0 else 10 in
  let total := subtotal + tax + shipping in
  with_totals {| subtotal := subtotal; tax := tax;
                 shipping := shipping; total := total |} o.

(** *** Product schema *)

Definition validSale (regular : Q) (sale : option Q) : bool :=
  match sale with
  | Some v => min_ok 0 v && (negb (truthy_num (Some v)) || Qlt_bool v regular)
  | None => true
  end.

Definition validProduct (p : Product) : bool :=
  negb (String.eqb (prod_name p) "")
  && (String.length (prod_name p) <=? 200)%nat
  && min_ok 0 (price_regular (prod_price p))
  && validSale (price_regular (prod_price p)) (price_sale (prod_price p))
  && min_ok 0 (inv_quantity (prod_inventory p))
  && min_ok 0 (inv_lowStockThreshold (prod_inventory p)).

(** ** Requests, responses and the environment *)

Record JWTPayload := {
  userId : ObjectId;
  email : string;
  role : string
}.

Inductive Message :=
  | Text (s : string)
  | ProductIdNotFound (product : ObjectId)
      (* `Product ${item.product} not found` *)
  | ProductNoLongerAvailable (name : string)
      (* `Product ${product.name} is no longer available` *)
  | InsufficientInventoryFor (name : string) (available : Q)
      (* `Insufficient inventory for ${product.name}. Available: ${..}` *)
  | Received.
      (* { received: true } *)

Inductive Error :=
  | ValidationFailed (model : string).

Inductive Data :=
  | NoData
  | EmptyCartData
  | CartData (cart : Doc Cart)
  | OrderData (order : Doc Order)
  | MissingData
  | ErrorData (e : Error)
  | ProviderError (e : string).

Record Response := {
  status : nat;
  success : bool;
  message : Message;
  data : Data
}.

Definition json (code : nat) (ok : bool) (msg : string) (d : Data) : Response :=
  {| status := code; success := ok; message := Text msg; data := d |}.

(** *** The payment provider (services/stripe) *)

Inductive StripeResult (A : Type) :=
  | StripeOk (d : A)
  | StripeFail (error : string).
Arguments StripeOk {A} d.
Arguments StripeFail {A} error.

Record IntentMetadata := {
  md_orderId : ObjectId;
  md_orderNumber : option OrderNumber;
  md_userId : ObjectId
}.

Record IntentData := {
  paymentIntentId : string;
  clientSecret : string
}.

Record ConfirmData := {
  confirm_status : string;
  confirm_amount : Q
}.

Record RefundData := {
  refund_amount : Q;
  refundId : string
}.

Record PaymentIntentObject := {
  pi_id : string;
  pi_metadata_orderId : option ObjectId
}.

Record StripeEvent := {
  ev_type : string;
  ev_object : PaymentIntentObject
}.

Record Env := {
  now : Date;
  random : string;
  createPaymentIntent : Q -> string -> IntentMetadata -> StripeResult IntentData;
  confirmPaymentIntent : string -> StripeResult ConfirmData;
  refundPayment : string -> option Q -> StripeResult RefundData;
  handleStripeWebhook : string -> string -> StripeResult StripeEvent
}.

(** ** Handlers as store transformers with early reply and exceptions *)

Inductive Outcome (A : Type) :=
  | Next (a : A)
  | Reply (r : Response)
  | Throw (e : Error).
Arguments Next {A} a.
Arguments Reply {A} r.
Arguments Throw {A} e.

Definition Handler (A : Type) : Type := Store -> Outcome A * Store.

Definition ret {A} (a : A) : Handler A := fun s => (Next a, s).

Definition bind {A B} (m : Handler A) (k : A -> Handler B) : Handler B :=
  fun s =>
    match m s with
    | (Next a, s') => k a s'
    | (Reply r, s') => (Reply r, s')
    | (Throw e, s') => (Throw e, s')
    end.

Notation "'do' x <~ m ;; k" := (bind m (fun x => k))
  (at level 10, x name, m at level 99, k at level 200).
Notation "'do' ' p <~ m ;; k" := (bind m (fun x => match x with p => k end))
  (at level 10, p pattern, m at level 99, k at level 200).
Notation "'exec' m ;; k" := (bind m (fun _ => k))
  (at level 10, m at level 99, k at level 200).

(** [res.status(code).json(..); return]. *)
Definition reply {A} (r : Response) : Handler A := fun s => (Reply r, s).

Definition throw {A} (e : Error) : Handler A := fun s => (Throw e, s).

(** [if (c) { body }] where [body] may reply. *)
Definition when (c : bool) (body : Handler unit) : Handler unit :=
  if c then body else ret tt.

(** [for (const x of xs) { body }]. *)
Fixpoint for_of {A} (xs : list A) (body : A -> Handler unit) : Handler unit :=
  match xs with
  | [] => ret tt
  | x :: xs' => exec body x ;; for_of xs' body
  end.

(** [try { body } catch (error) { res.status(500).json(..) }]. *)
Definition try_catch (body : Handler Response) (catchMessage : string)
    (s : Store) : Response * Store :=
  match body s with
  | (Next r, s') => (r, s')
  | (Reply r, s') => (r, s')
  | (Throw e, s') => (json 500 false catchMessage (ErrorData e), s')
  end.

(** ** The collections *)

(** *** Product *)

Definition Product_findById (id : ObjectId) : Handler (option (Doc Product)) :=
  fun s => (Next (pair id <$> products s !! id), s).

Definition Product_save (d : Doc Product) : Handler unit :=
  fun s =>
    if validProduct (snd d)
    then (Next tt, set_products <[fst d := snd d]> s)
    else (Throw (ValidationFailed "Product"), s).

(** *** Cart *)

Inductive CartQuery :=
  | ByUser (user : ObjectId)
  | BySession (sessionId : string).

Definition matchesCart (q : CartQuery) (c : Cart) : bool :=
  match q with
  | ByUser u => bool_decide (cart_user c = Some u)
  | BySession sid => bool_decide (cart_sessionId c = Some sid)
  end.

Definition findCart (q : CartQuery) (m : gmap ObjectId Cart) : option (Doc Cart) :=
  find (fun d => matchesCart q (snd d)) (map_to_list m).

Definition Cart_findOne (q : CartQuery) : Handler (option (Doc Cart)) :=
  fun s => (Next (findCart q (carts s)), s).

Definition Cart_findById (id : ObjectId) : Handler (option (Doc Cart)) :=
  fun s => (Next (pair id <$> carts s !! id), s).

Definition Cart_findOneAndDelete (q : CartQuery) : Handler unit :=
  fun s =>
    match findCart q (carts s) with
    | Some d => (Next tt, set_carts (delete (fst d)) s)
    | None => (Next tt, s)
    end.

(** [new Cart({..})]: the document gets an [_id] no stored cart has. *)
Definition Cart_new (c : Cart) : Handler (Doc Cart) :=
  fun s => (Next (fresh (dom (carts s)), c), s).

(** [cart.save()]: validation, then the pre-save hook, then the write.  The
    document in memory carries the recomputed totals afterwards. *)
Definition Cart_save (d : Doc Cart) : Handler (Doc Cart) :=
  fun s =>
    if validCart (snd d)
    then let c := cartPreSave (snd d) in
         (Next (fst d, c), set_carts <[fst d := c]> s)
    else (Throw (ValidationFailed "Cart"), s).

(** *** Order *)

Definition Order_findById (id : ObjectId) : Handler (option (Doc Order)) :=
  fun s => (Next (pair id <$> orders s !! id), s).

(** [Order.findOne({ _id: orderId, user: userId })]. *)
Definition Order_findOne (id user : ObjectId) : Handler (option (Doc Order)) :=
  fun s =>
    (Next (match orders s !! id with
           | Some o => if bool_decide (order_user o = user)
                       then Some (id, o) else None
           | None => None
           end), s).

(** [Order.findOne({ _id, $or: [{ user }, { user: { $exists: true } }] })]:
    every order has a user, so the second disjunct always holds. *)
Definition Order_findOne_refund (id user : ObjectId) : Handler (option (Doc Order)) :=
  fun s =>
    (Next (match orders s !! id with
           | Some o => if bool_decide (order_user o = user) || true
                       then Some (id, o) else None
           | None => None
           end), s).

Definition Order_new (o : Order) : Handler (Doc Order) :=
  fun s => (Next (fresh (dom (orders s)), o), s).

(** What [order.save()] stores: the document with its totals recomputed
    and, for a new order, its number. *)
Definition savedOrder (env : Env) (isNew : bool) (o : Order) : Order :=
  orderTotalsPreSave (orderNumberPreSave isNew (now env) (random env) o).
Arguments savedOrder : simpl never.

(** [order.save()]: validation, then the two pre-save hooks in the order of
    their registration, then the write. *)
Definition Order_save (env : Env) (d : Doc Order) : Handler (Doc Order) :=
  fun s =>
    if validOrder (snd d)
    then let isNew := bool_decide (orders s !! fst d = None) in
         let o := savedOrder env isNew (snd d) in
         (Next (fst d, o), set_orders <[fst d := o]> s)
    else (Throw (ValidationFailed "Order"), s).

(** ** Authentication middleware (middleware/auth.ts, routes/cart.ts) *)

Inductive Auth :=
  | NoToken                  (* no [Bearer] header *)
  | BadToken                 (* [verifyToken] returns [null] *)
  | Token (u : JWTPayload).

Definition optionalAuth (auth : Auth) : option JWTPayload :=
  match auth with
  | Token u => Some u
  | _ => None
  end.

Definition authenticateJWT (auth : Auth)
    (next : JWTPayload -> Store -> Response * Store) (s : Store)
    : Response * Store :=
  match auth with
  | NoToken => (json 401 false "No token provided" NoData, s)
  | BadToken => (json 401 false "Invalid or expired token" NoData, s)
  | Token u => next u s
  end.

(** ** Cart routes (routes/cart.ts) *)

(** [Array.prototype.findIndex]; [-1] is [None]. *)
Fixpoint findIndex {A} (p : A -> bool) (l : list A) : option nat :=
  match l with
  | [] => None
  | x :: l' => if p x then Some 0%nat else S <$> findIndex p l'
  end.

Definition with_items (items : list CartItem) (c : Cart) : Cart :=
  {| cart_sessionId := cart_sessionId c;
     cart_user := cart_user c;
     cart_items := items;
     cart_totals := cart_totals c |}.

Definition with_cart_totals (t : Totals) (c : Cart) : Cart :=
  {| cart_sessionId := cart_sessionId c;
     cart_user := cart_user c;
     cart_items := cart_items c;
     cart_totals := t |}.

(** The query of the cart routes: by user when logged in, else by
    session. *)
Definition cartQuery (userId : option ObjectId) (finalSessionId : option string)
    : CartQuery :=
  match userId with
  | Some u => ByUser u
  | None => BySession (default "" finalSessionId)
  end.

(** [product.price.sale || product.price.regular]. *)
Definition itemPriceOf (p : Product) : Q :=
  if truthy_num (price_sale (prod_price p))
  then default 0 (price_sale (prod_price p))
  else price_regular (prod_price p).

(** [product.inventory.trackQuantity && product.inventory.quantity < quantity]. *)
Definition insufficient (p : Product) (quantity : Q) : bool :=
  inv_trackQuantity (prod_inventory p)
  && Qlt_bool (inv_quantity (prod_inventory p)) quantity.

Record AddBody := {
  add_productId : option ObjectId;
  add_quantity : option Q;
  add_sessionId : option string
}.

(** The existing line of [POST /cart/add]:
    [items[i].quantity += quantity; items[i].total = items[i].quantity * itemPrice]. *)
Definition addToLine (quantity itemPrice : Q) (it : CartItem) : CartItem :=
  let q := ci_quantity it + quantity in
  {| ci_product := ci_product it;
     ci_quantity := q;
     ci_price := ci_price it;
     ci_total := q * itemPrice |}.

(** [POST /cart/add]. *)
Definition cart_add (auth : Auth) (body : AddBody) : Store -> Response * Store :=
  try_catch
    (let quantity := default 1 (add_quantity body) in
     match add_productId body with
     | None => reply (json 400 false "Product ID is required" NoData)
     | Some productId =>
       let userId := userId <$> optionalAuth auth in
       let finalSessionId := or_null (add_sessionId body) in
       if negb (bool_decide (is_Some userId))
          && negb (bool_decide (is_Some finalSessionId))
       then reply (json 400 false "Authentication or session ID required" NoData)
       else
       do product <~ Product_findById productId ;;
       match product with
       | None => reply (json 404 false "Product not found" NoData)
       | Some (_, product) =>
         if insufficient product quantity
         then reply (json 400 false "Insufficient inventory" NoData)
         else
         do found <~ Cart_findOne (cartQuery userId finalSessionId) ;;
         do cart <~ match found with
                    | Some cart => ret cart
                    | None => Cart_new {| cart_sessionId := finalSessionId;
                                          cart_user := userId;
                                          cart_items := [];
                                          cart_totals := zeroTotals |}
                    end ;;
         let existingItemIndex :=
           findIndex (fun item => N.eqb (ci_product item) productId)
                     (cart_items (snd cart)) in
         let itemPrice := itemPriceOf product in
         let items :=
           match existingItemIndex with
           | Some i => alter (addToLine quantity itemPrice) i (cart_items (snd cart))
           | None => cart_items (snd cart)
                     ++ [{| ci_product := productId;
                            ci_quantity := quantity;
                            ci_price := itemPrice;
                            ci_total := quantity * itemPrice |}]
           end in
         do cart <~ Cart_save (fst cart, with_items items (snd cart)) ;;
         ret (json 201 true "Item added to cart successfully" (CartData cart))
       end
     end)
    "Error adding item to cart".

Record UpdateBody := {
  upd_productId : option ObjectId;
  upd_quantity : option Q;
  upd_sessionId : option string
}.

(** The line of [PUT /cart/update]:
    [items[i].quantity = quantity; items[i].total = quantity * items[i].price]. *)
Definition setLineQuantity (quantity : Q) (it : CartItem) : CartItem :=
  {| ci_product := ci_product it;
     ci_quantity := quantity;
     ci_price := ci_price it;
     ci_total := quantity * ci_price it |}.

(** [PUT /cart/update]. *)
Definition cart_update (auth : Auth) (body : UpdateBody) : Store -> Response * Store :=
  try_catch
    (match upd_productId body, truthy_num (upd_quantity body) with
     | Some productId, true =>
       let quantity := default 0 (upd_quantity body) in
       if Qlt_bool quantity 1
       then reply (json 400 false "Quantity must be at least 1" NoData)
       else
       let userId := userId <$> optionalAuth auth in
       let finalSessionId := or_null (upd_sessionId body) in
       if negb (bool_decide (is_Some userId))
          && negb (bool_decide (is_Some finalSessionId))
       then reply (json 400 false "Authentication or session ID required" NoData)
       else
       do found <~ Cart_findOne (cartQuery userId finalSessionId) ;;
       match found with
       | None => reply (json 404 false "Cart not found" NoData)
       | Some cart =>
         let itemIndex :=
           findIndex (fun item => N.eqb (ci_product item) productId)
                     (cart_items (snd cart)) in
         match itemIndex with
         | None => reply (json 404 false "Item not found in cart" NoData)
         | Some itemIndex =>
           do product <~ Product_findById productId ;;
           match product with
           | None => reply (json 404 false "Product not found" NoData)
           | Some (_, product) =>
             if insufficient product quantity
             then reply (json 400 false "Insufficient inventory" NoData)
             else
             let items := alter (setLineQuantity quantity) itemIndex
                                (cart_items (snd cart)) in
             do cart <~ Cart_save (fst cart, with_items items (snd cart)) ;;
             ret (json 200 true "Cart updated successfully" (CartData cart))
           end
         end
       end
     | _, _ => reply (json 400 false "Product ID and quantity are required" NoData)
     end)
    "Error updating cart".

Record RemoveBody := {
  rem_productId : option ObjectId;
  rem_sessionId : option string
}.

(** [DELETE /cart/remove]. *)
Definition cart_remove (auth : Auth) (body : RemoveBody) : Store -> Response * Store :=
  try_catch
    (match rem_productId body with
     | None => reply (json 400 false "Product ID is required" NoData)
     | Some productId =>
       let userId := userId <$> optionalAuth auth in
       let finalSessionId := or_null (rem_sessionId body) in
       if negb (bool_decide (is_Some userId))
          && negb (bool_decide (is_Some finalSessionId))
       then reply (json 400 false "Authentication or session ID required" NoData)
       else
       do found <~ Cart_findOne (cartQuery userId finalSessionId) ;;
       match found with
       | None => reply (json 404 false "Cart not found" NoData)
       | Some cart =>
         let items := filter (fun item => ci_product item <> productId)
                             (cart_items (snd cart)) in
         do cart <~ Cart_save (fst cart, with_items items (snd cart)) ;;
         ret (json 200 true "Item removed from cart successfully" (CartData cart))
       end
     end)
    "Error removing item from cart".

(** [DELETE /cart/clear]. *)
Definition cart_clear (auth : Auth) (sessionId : option string)
    : Store -> Response * Store :=
  try_catch
    (let userId := userId <$> optionalAuth auth in
     let finalSessionId := or_null sessionId in
     if negb (bool_decide (is_Some userId))
        && negb (bool_decide (is_Some finalSessionId))
     then reply (json 400 false "Authentication or session ID required" NoData)
     else
     do found <~ Cart_findOne (cartQuery userId finalSessionId) ;;
     match found with
     | None => reply (json 404 false "Cart not found" NoData)
     | Some cart =>
       do cart <~ Cart_save
                    (fst cart, with_cart_totals zeroTotals (with_items [] (snd cart))) ;;
       ret (json 200 true "Cart cleared successfully" (CartData cart))
     end)
    "Error clearing cart".

(** One round of the loop of [POST /cart/merge]. *)
Definition mergeItem (items : list CartItem) (sessionItem : CartItem)
    : list CartItem :=
  match findIndex (fun item => N.eqb (ci_product item) (ci_product sessionItem))
                  items with
  | Some i =>
    alter (fun it =>
             let q := ci_quantity it + ci_quantity sessionItem in
             {| ci_product := ci_product it;
                ci_quantity := q;
                ci_price := ci_price it;
                ci_total := q * ci_price it |}) i items
  | None => items ++ [sessionItem]
  end.

(** [POST /cart/merge]. *)
Definition cart_merge (auth : Auth) (sessionId : option string)
    : Store -> Response * Store :=
  authenticateJWT auth (fun user =>
  try_catch
    (match or_null sessionId with
     | None => reply (json 200 true "No session cart to merge" NoData)
     | Some sessionId =>
       do sessionCart <~ Cart_findOne (BySession sessionId) ;;
       match sessionCart with
       | None => reply (json 200 true "No session cart found to merge" NoData)
       | Some sessionCart =>
         if bool_decide (cart_items (snd sessionCart) = [])
         then reply (json 200 true "No session cart found to merge" NoData)
         else
         do found <~ Cart_findOne (ByUser (userId user)) ;;
         do userCart <~ match found with
                        | None =>
                          Cart_new {| cart_sessionId := None;
                                      cart_user := Some (userId user);
                                      cart_items := cart_items (snd sessionCart);
                                      cart_totals := cart_totals (snd sessionCart) |}
                        | Some userCart =>
                          ret (fst userCart,
                               with_items
                                 (fold_left mergeItem (cart_items (snd sessionCart))
                                            (cart_items (snd userCart)))
                                 (snd userCart))
                        end ;;
         do userCart <~ Cart_save userCart ;;
         exec Cart_findOneAndDelete (BySession sessionId) ;;
         do mergedCart <~ Cart_findById (fst userCart) ;;
         ret (json 200 true "Carts merged successfully"
                   (from_option CartData MissingData mergedCart))
       end
     end)
    "Server error during cart merge").

(** ** Order routes (checkout, cancel, admin status) *)

Record CheckoutBody := {
  co_shippingAddress : option Address;
  co_billingAddress : option Address;
  co_paymentMethod : option string;
  co_notes : option string
}.

(** [for (const x of xs) { body }] threading a local variable [acc]. *)
Fixpoint for_fold {A B} (xs : list A) (acc : B) (body : B -> A -> Handler B)
    : Handler B :=
  match xs with
  | [] => ret acc
  | x :: xs' => do acc' <~ body acc x ;; for_fold xs' acc' body
  end.

(** First loop of checkout: every line is checked against the live
    product. *)
Definition verifyLine (item : CartItem) : Handler unit :=
  do product <~ Product_findById (ci_product item) ;;
  match product with
  | None =>
    reply {| status := 400; success := false;
             message := ProductIdNotFound (ci_product item); data := NoData |}
  | Some (_, product) =>
    if negb (prod_isActive product)
    then reply {| status := 400; success := false;
                  message := ProductNoLongerAvailable (prod_name product);
                  data := NoData |}
    else if insufficient product (ci_quantity item)
    then reply {| status := 400; success := false;
                  message := InsufficientInventoryFor
                               (prod_name product)
                               (inv_quantity (prod_inventory product));
                  data := NoData |}
    else ret tt
  end.

(** Second loop of checkout: the order lines copy the cart lines. *)
Definition snapshotLine (orderItems : list OrderItem) (item : CartItem)
    : Handler (list OrderItem) :=
  do product <~ Product_findById (ci_product item) ;;
  match product with
  | Some (id, product) =>
    ret (orderItems ++ [{| oi_product := id;
                           oi_name := prod_name product;
                           oi_price := ci_price item;
                           oi_quantity := ci_quantity item;
                           oi_total := ci_total item |}])
  | None => ret orderItems
  end.

(** [quantity -= q; purchases += q; revenue += t] on a product. *)
Definition sell (q t : Q) (p : Product) : Product :=
  {| prod_name := prod_name p;
     prod_price := prod_price p;
     prod_inventory :=
       {| inv_quantity := inv_quantity (prod_inventory p) - q;
          inv_lowStockThreshold := inv_lowStockThreshold (prod_inventory p);
          inv_trackQuantity := inv_trackQuantity (prod_inventory p) |};
     prod_analytics :=
       {| an_views := an_views (prod_analytics p);
          an_purchases := an_purchases (prod_analytics p) + q;
          an_revenue := an_revenue (prod_analytics p) + t |};
     prod_isActive := prod_isActive p |}.

(** [quantity += q; purchases -= q; revenue -= t] on a product. *)
Definition restock (q t : Q) (p : Product) : Product :=
  {| prod_name := prod_name p;
     prod_price := prod_price p;
     prod_inventory :=
       {| inv_quantity := inv_quantity (prod_inventory p) + q;
          inv_lowStockThreshold := inv_lowStockThreshold (prod_inventory p);
          inv_trackQuantity := inv_trackQuantity (prod_inventory p) |};
     prod_analytics :=
       {| an_views := an_views (prod_analytics p);
          an_purchases := an_purchases (prod_analytics p) - q;
          an_revenue := an_revenue (prod_analytics p) - t |};
     prod_isActive := prod_isActive p |}.

(** Third loop of checkout: the inventory of tracked products. *)
Definition sellLine (item : CartItem) : Handler unit :=
  do product <~ Product_findById (ci_product item) ;;
  match product with
  | Some (id, product) =>
    if inv_trackQuantity (prod_inventory product)
    then Product_save (id, sell (ci_quantity item) (ci_total item) product)
    else ret tt
  | None => ret tt
  end.

(** [POST /orders/checkout]. *)
Definition checkout (env : Env) (auth : Auth) (body : CheckoutBody)
    : Store -> Response * Store :=
  authenticateJWT auth (fun user =>
  try_catch
    (let userId := userId user in
     match co_shippingAddress body, or_null (co_paymentMethod body) with
     | Some shippingAddress, Some paymentMethod =>
       do cart <~ Cart_findOne (ByUser userId) ;;
       match cart with
       | None => reply (json 400 false "Cart is empty" NoData)
       | Some cart =>
         if bool_decide (cart_items (snd cart) = [])
         then reply (json 400 false "Cart is empty" NoData)
         else
         exec for_of (cart_items (snd cart)) verifyLine ;;
         do orderItems <~ for_fold (cart_items (snd cart)) [] snapshotLine ;;
         do order <~ Order_new
           {| order_orderNumber := None;
              order_user := userId;
              order_items := orderItems;
              order_totals := cart_totals (snd cart);
              order_shippingAddress := castAddress shippingAddress;
              order_billingAddress :=
                Some (castAddress (default shippingAddress (co_billingAddress body)));
              order_paymentMethod := paymentMethod;
              order_paymentStatus := PayPending;
              order_orderStatus := Pending;
              order_notes := trim <$> co_notes body;
              order_trackingNumber := None;
              order_estimatedDelivery := None;
              order_deliveredAt := None;
              order_paymentIntentId := None;
              order_paidAt := None;
              order_refundedAt := None;
              order_refundReason := None |} ;;
         do order <~ Order_save env order ;;
         exec for_of (cart_items (snd cart)) sellLine ;;
         exec Cart_findOneAndDelete (ByUser userId) ;;
         do populatedOrder <~ Order_findById (fst order) ;;
         ret (json 201 true "Order created successfully"
                   (from_option OrderData MissingData populatedOrder))
       end
     | _, _ =>
       reply (json 400 false "Shipping address and payment method are required"
                   NoData)
     end)
    "Error creating order").

(** The loop of cancel: the inventory of tracked products. *)
Definition restockLine (item : OrderItem) : Handler unit :=
  do product <~ Product_findById (oi_product item) ;;
  match product with
  | Some (id, product) =>
    if inv_trackQuantity (prod_inventory product)
    then Product_save (id, restock (oi_quantity item) (oi_total item) product)
    else ret tt
  | None => ret tt
  end.

(** [PATCH /orders/:id/cancel]. *)
Definition cancel (env : Env) (auth : Auth) (orderId : ObjectId)
    : Store -> Response * Store :=
  authenticateJWT auth (fun user =>
  try_catch
    (do order <~ Order_findOne orderId (userId user) ;;
     match order with
     | None => reply (json 404 false "Order not found" NoData)
     | Some order =>
       if negb (bool_decide (order_orderStatus (snd order) ∈ [Pending; Confirmed]))
       then reply (json 400 false "Order cannot be cancelled at this stage" NoData)
       else
       do order <~ Order_save env (fst order, with_orderStatus Cancelled (snd order)) ;;
       exec for_of (order_items (snd order)) restockLine ;;
       ret (json 200 true "Order cancelled successfully" (OrderData order))
     end)
    "Error cancelling order").

Record StatusBody := {
  st_orderStatus : option string;
  st_paymentStatus : option string;
  st_trackingNumber : option string;
  st_estimatedDelivery : option Date
}.

(** [if (v) order.field = v] for a field of an enumeration: an assigned
    string outside the enumeration fails the validation of [order.save()],
    which is the next effect of the handler. *)
Definition assignEnum {A} (parse : string -> option A) (v : option string)
    (set : A -> Order -> Order) (o : Order) : Handler Order :=
  if truthy_str v
  then match parse (default "" v) with
       | Some a => ret (set a o)
       | None => throw (ValidationFailed "Order")
       end
  else ret o.

(** [PATCH /orders/admin/:id/status]. *)
Definition admin_status (env : Env) (auth : Auth) (orderId : ObjectId)
    (body : StatusBody) : Store -> Response * Store :=
  authenticateJWT auth (fun user =>
  try_catch
    (if negb (String.eqb (role user) "admin")
     then reply (json 403 false "Access denied. Admin only." NoData)
     else
     do order <~ Order_findById orderId ;;
     match order with
     | None => reply (json 404 false "Order not found" NoData)
     | Some order =>
       do o <~ assignEnum orderStatus_of_string (st_orderStatus body)
                          with_orderStatus (snd order) ;;
       do o <~ assignEnum paymentStatus_of_string (st_paymentStatus body)
                          with_paymentStatus o ;;
       let o := if truthy_str (st_trackingNumber body)
                then with_trackingNumber (trim <$> st_trackingNumber body) o
                else o in
       let o := if bool_decide (is_Some (st_estimatedDelivery body))
                then with_estimatedDelivery (st_estimatedDelivery body) o
                else o in
       let o := if bool_decide (st_orderStatus body = Some "delivered")
                then with_deliveredAt (Some (now env)) o
                else o in
       do order <~ Order_save env (fst order, o) ;;
       ret (json 200 true "Order updated successfully" (OrderData order))
     end)
    "Error updating order").

(** ** Payment routes (routes/payments.ts) *)

(** [POST /payments/create-payment-intent]. *)
Definition create_payment_intent (env : Env) (auth : Auth)
    (orderId : option ObjectId) : Store -> Response * Store :=
  authenticateJWT auth (fun user =>
  try_catch
    (let userId := userId user in
     match orderId with
     | None => reply (json 400 false "Order ID is required" NoData)
     | Some orderId =>
       do order <~ Order_findOne orderId userId ;;
       match order with
       | None => reply (json 404 false "Order not found" NoData)
       | Some order =>
         if negb (bool_decide (order_paymentStatus (snd order) = PayPending))
         then reply (json 400 false "Order payment is not pending" NoData)
         else
         match createPaymentIntent env (total (order_totals (snd order))) "usd"
                 {| md_orderId := fst order;
                    md_orderNumber := order_orderNumber (snd order);
                    md_userId := userId |} with
         | StripeFail e =>
           reply (json 500 false "Failed to create payment intent" (ProviderError e))
         | StripeOk d =>
           do order <~ Order_save env
                         (fst order,
                          with_paymentIntentId (Some (trim (paymentIntentId d)))
                                               (snd order)) ;;
           ret (json 200 true "Payment intent created successfully" (OrderData order))
         end
       end
     end)
    "Error creating payment intent").

(** [POST /payments/confirm-payment]. *)
Definition confirm_payment (env : Env) (auth : Auth)
    (orderId : option ObjectId) (paymentIntentId : option string)
    : Store -> Response * Store :=
  authenticateJWT auth (fun user =>
  try_catch
    (let userId := userId user in
     match orderId, or_null paymentIntentId with
     | Some orderId, Some paymentIntentId =>
       do order <~ Order_findOne orderId userId ;;
       match order with
       | None => reply (json 404 false "Order not found" NoData)
       | Some order =>
         match confirmPaymentIntent env paymentIntentId with
         | StripeFail e =>
           reply (json 500 false "Failed to confirm payment" (ProviderError e))
         | StripeOk d =>
           let o :=
             if String.eqb (confirm_status d) "succeeded"
             then with_paidAt (Some (now env))
                    (with_orderStatus Confirmed (with_paymentStatus Paid (snd order)))
             else if String.eqb (confirm_status d) "requires_payment_method"
             then with_paymentStatus Failed (snd order)
             else snd order in
           do order <~ Order_save env (fst order, o) ;;
           ret (json 200 true "Payment confirmed successfully" (OrderData order))
         end
       end
     | _, _ =>
       reply (json 400 false "Order ID and Payment Intent ID are required" NoData)
     end)
    "Error confirming payment").

Record RefundBody := {
  rf_orderId : ObjectId;
  rf_amount : option Q;
  rf_reason : option string
}.

(** [POST /payments/refund]. *)
Definition refund (env : Env) (auth : Auth) (body : RefundBody)
    : Store -> Response * Store :=
  authenticateJWT auth (fun user =>
  try_catch
    (let userId := userId user in
     do order <~ Order_findOne_refund (rf_orderId body) userId ;;
     match order with
     | None => reply (json 404 false "Order not found" NoData)
     | Some order =>
       if negb (bool_decide (order_paymentStatus (snd order) = Paid))
       then reply (json 400 false "Order has not been paid" NoData)
       else
       match or_null (order_paymentIntentId (snd order)) with
       | None =>
         reply (json 400 false "No payment intent found for this order" NoData)
       | Some intentId =>
         match refundPayment env intentId (rf_amount body) with
         | StripeFail e =>
           reply (json 500 false "Failed to process refund" (ProviderError e))
         | StripeOk d =>
           let o := with_refundedAt (Some (now env))
                      (with_orderStatus Cancelled
                         (with_paymentStatus Refunded (snd order))) in
           let o := if truthy_str (rf_reason body)
                    then with_refundReason (trim <$> rf_reason body) o
                    else o in
           do order <~ Order_save env (fst order, o) ;;
           ret (json 200 true "Refund processed successfully" (OrderData order))
         end
       end
     end)
    "Error processing refund").

(** [case 'payment_intent.succeeded']. *)
Definition onPaymentSucceeded (env : Env) (paymentIntent : PaymentIntentObject)
    : Handler unit :=
  match pi_metadata_orderId paymentIntent with
  | Some orderId =>
    do order <~ Order_findById orderId ;;
    match order with
    | Some order =>
      do _ <~ Order_save env
                (fst order,
                 with_paidAt (Some (now env))
                   (with_orderStatus Confirmed
                      (with_paymentStatus Paid (snd order)))) ;;
      ret tt
    | None => ret tt
    end
  | None => ret tt
  end.

(** [case 'payment_intent.payment_failed']. *)
Definition onPaymentFailed (env : Env) (failedPayment : PaymentIntentObject)
    : Handler unit :=
  match pi_metadata_orderId failedPayment with
  | Some orderId =>
    do order <~ Order_findById orderId ;;
    match order with
    | Some order =>
      do _ <~ Order_save env (fst order, with_paymentStatus Failed (snd order)) ;;
      ret tt
    | None => ret tt
    end
  | None => ret tt
  end.

(** [POST /payments/webhook]: the raw body and the [stripe-signature]
    header. *)
Definition webhook (env : Env) (rawBody signature : string)
    : Store -> Response * Store :=
  try_catch
    (match handleStripeWebhook env rawBody signature with
     | StripeFail e =>
       reply (json 400 false "Webhook signature verification failed"
                   (ProviderError e))
     | StripeOk event =>
       exec (if String.eqb (ev_type event) "payment_intent.succeeded"
             then onPaymentSucceeded env (ev_object event)
             else if String.eqb (ev_type event) "payment_intent.payment_failed"
             then onPaymentFailed env (ev_object event)
             else ret tt) ;;
       ret {| status := 200; success := true; message := Received; data := NoData |}
     end)
    "Webhook processing error".

(** ** The server: one request, one step *)

Inductive Request :=
  | CartAdd (auth : Auth) (body : AddBody)
  | CartUpdate (auth : Auth) (body : UpdateBody)
  | CartRemove (auth : Auth) (body : RemoveBody)
  | CartClear (auth : Auth) (sessionId : option string)
  | CartMerge (auth : Auth) (sessionId : option string)
  | Checkout (auth : Auth) (body : CheckoutBody)
  | Cancel (auth : Auth) (orderId : ObjectId)
  | AdminStatus (auth : Auth) (orderId : ObjectId) (body : StatusBody)
  | CreatePaymentIntent (auth : Auth) (orderId : option ObjectId)
  | ConfirmPayment (auth : Auth) (orderId : option ObjectId)
      (paymentIntentId : option string)
  | Refund (auth : Auth) (body : RefundBody)
  | Webhook (rawBody signature : string).

Definition handle (env : Env) (req : Request) : Store -> Response * Store :=
  match req with
  | CartAdd auth body => cart_add auth body
  | CartUpdate auth body => cart_update auth body
  | CartRemove auth body => cart_remove auth body
  | CartClear auth sessionId => cart_clear auth sessionId
  | CartMerge auth sessionId => cart_merge auth sessionId
  | Checkout auth body => checkout env auth body
  | Cancel auth orderId => cancel env auth orderId
  | AdminStatus auth orderId body => admin_status env auth orderId body
  | CreatePaymentIntent auth orderId => create_payment_intent env auth orderId
  | ConfirmPayment auth orderId paymentIntentId =>
    confirm_payment env auth orderId paymentIntentId
  | Refund auth body => refund env auth body
  | Webhook rawBody signature => webhook env rawBody signature
  end.


(** ** Specification vocabulary *)

(** A handler is stable for a relation [R] on stores when every run of it,
    whatever its outcome, takes a store to an [R]-related one. *)
Definition stable (R : relation Store) {A} (h : Handler A) : Prop :=
  forall s out s', h s = (out, s') -> R s s'.

(** The formula of the specification: [round(x, 2)] is rounding to two
    decimals, [sumQ] the sum of the line totals. *)
Definition round2 (x : Q) : Q := Math_round (x * 100) / 100.

Definition sumQ (l : list Q) : Q := fold_right Qplus 0 l.

Record TotalsSpec (lineTotals : list Q) (t : Totals) : Prop := {
  subtotal_spec : subtotal t == sumQ lineTotals;
  tax_spec : tax t == round2 (subtotal t * 0.10);
  shipping_free : 100 <= subtotal t -> shipping t == 0;
  shipping_flat : subtotal t < 100 -> shipping t == 10;
  total_spec : total t == subtotal t + tax t + shipping t
}.

(** A store [s'] whose carts and orders are those of [s] or satisfy the
    formula. *)
Definition totals_written (s s' : Store) : Prop :=
  (forall id c, carts s' !! id = Some c ->
     carts s !! id = Some c
     \/ TotalsSpec (ci_total <$> cart_items c) (cart_totals c))
  /\ (forall id o, orders s' !! id = Some o ->
        orders s !! id = Some o
        \/ TotalsSpec (oi_total <$> order_items o) (order_totals o)).


(** What the two hooks compute, as one function of the line totals. *)
Definition totalsOf (lineTotals : list Q) : Totals :=
  let subtotal := fold_left Qplus lineTotals 0 in
  let tax := Math_round (subtotal * 0.1 * 100) / 100 in
  let shipping := if Qle_bool 100 subtotal then 0 else 10 in
  {| subtotal := subtotal; tax := tax; shipping := shipping;
     total := subtotal + tax + shipping |}.

(** The failures of the specification, as responses of the routes. *)
Definition InsufficientInventory (r : Response) : Prop :=
  status r = 400%nat
  /\ (message r = Text "Insufficient inventory"
      \/ exists name available, message r = InsufficientInventoryFor name available).

Definition EmptyCart (r : Response) : Prop :=
  status r = 400%nat /\ message r = Text "Cart is empty".


(** The identity of a cart request: a valid token or a session id. *)
Definition hasIdentity (auth : Auth) (sessionId : option string) : Prop :=
  is_Some (optionalAuth auth) \/ truthy_str sessionId = true.

(** A store [s'] that differs from [s] in its orders only. *)
Definition only_orders_written (s s' : Store) : Prop :=
  products s' = products s /\ carts s' = carts s.

(** The inventory loops of checkout and cancel, as functions on the
    products: a line is a product, a quantity and a line total. *)
Definition Line : Type := ObjectId * Q * Q.

Definition cartLine (item : CartItem) : Line :=
  (ci_product item, ci_quantity item, ci_total item).

Definition orderLine (item : OrderItem) : Line :=
  (oi_product item, oi_quantity item, oi_total item).

Definition adjustLine (f : Q -> Q -> Product -> Product)
    (P : gmap ObjectId Product) (line : Line) : gmap ObjectId Product :=
  let '(pid, q, t) := line in
  match P !! pid with
  | Some p => if inv_trackQuantity (prod_inventory p)
              then <[pid := f q t p]> P
              else P
  | None => P
  end.

Definition adjustProducts (f : Q -> Q -> Product -> Product)
    (lines : list Line) (P : gmap ObjectId Product) : gmap ObjectId Product :=
  fold_left (adjustLine f) lines P.

(** The order lines that checkout builds from the cart lines. *)
Definition orderItemsOf (P : gmap ObjectId Product) (items : list CartItem)
    : list OrderItem :=
  omap (fun item =>
          (fun p => {| oi_product := ci_product item;
                       oi_name := prod_name p;
                       oi_price := ci_price item;
                       oi_quantity := ci_quantity item;
                       oi_total := ci_total item |})
          <$> P !! ci_product item) items.

(** An order line that copies a cart line. *)
Definition sameLine (item : CartItem) (oi : OrderItem) : Prop :=
  oi_product oi = ci_product item
  /\ oi_price oi = ci_price item
  /\ oi_quantity oi = ci_quantity item
  /\ oi_total oi = ci_total item.

(** A product that checkout accepts for a line of the cart. *)
Definition available (P : gmap ObjectId Product) (item : CartItem) : Prop :=
  exists p, P !! ci_product item = Some p
            /\ prod_isActive p = true
            /\ insufficient p (ci_quantity item) = false.

(** The effect of the lines of product [pid] on that product. *)
Definition applyLines (f : Q -> Q -> Product -> Product) (pid : ObjectId)
    (lines : list Line) (p : Product) : Product :=
  fold_left (fun p (line : Line) =>
               let '(pid', q, t) := line in
               if decide (pid' = pid) then f q t p else p) lines p.

(** Quantity and line total of the lines of product [pid], summed. *)
Definition quantityOf (pid : ObjectId) (lines : list Line) : Q :=
  fold_right (fun (line : Line) acc =>
                let '(pid', q, _) := line in
                if decide (pid' = pid) then q + acc else acc) 0 lines.

Definition revenueOf (pid : ObjectId) (lines : list Line) : Q :=
  fold_right (fun (line : Line) acc =>
                let '(pid', _, t) := line in
                if decide (pid' = pid) then t + acc else acc) 0 lines.

(** [p'] is [p] with its stock moved by [dq], its purchases by [dp] and
    its revenue by [dr]; numbers are compared as rationals. *)
Definition shifted (dq dp dr : Q) (p p' : Product) : Prop :=
  prod_name p' = prod_name p
  /\ prod_price p' = prod_price p
  /\ prod_isActive p' = prod_isActive p
  /\ inv_lowStockThreshold (prod_inventory p')
     = inv_lowStockThreshold (prod_inventory p)
  /\ inv_trackQuantity (prod_inventory p') = inv_trackQuantity (prod_inventory p)
  /\ an_views (prod_analytics p') = an_views (prod_analytics p)
  /\ inv_quantity (prod_inventory p') == inv_quantity (prod_inventory p) + dq
  /\ an_purchases (prod_analytics p') == an_purchases (prod_analytics p) + dp
  /\ an_revenue (prod_analytics p') == an_revenue (prod_analytics p) + dr.

(** The same product: equal fields, numbers compared as rationals. *)
Definition sameProduct (p p' : Product) : Prop := shifted 0 0 0 p p'.

(** A store whose documents pass the validation of their schema, as every
    document written by [save()] did when it was written. *)
Definition validStore (s : Store) : Prop :=
  (forall id p, products s !! id = Some p -> validProduct p = true)
  /\ (forall id c, carts s !! id = Some c -> validCart c = true)
  /\ (forall id o, orders s !! id = Some o -> validOrder o = true).

Definition keeps_valid (s s' : Store) : Prop := validStore s -> validStore s'.

(** No stored cart has two lines on the same product. *)
Definition distinctLines (s : Store) : Prop :=
  forall id c, carts s !! id = Some c -> NoDup (ci_product <$> cart_items c).

(** A store [s'] whose carts are carts of [s]. *)
Definition carts_shrink (s s' : Store) : Prop :=
  forall id c, carts s' !! id = Some c -> carts s !! id = Some c.

(** ** Sample data *)

Definition mkProduct (name : string) (regular : Q) (sale : option Q)
    (quantity : Q) (trackQuantity : bool) : Product :=
  {| prod_name := name;
     prod_price := {| price_regular := regular; price_sale := sale |};
     prod_inventory := {| inv_quantity := quantity;
                          inv_lowStockThreshold := 10;
                          inv_trackQuantity := trackQuantity |};
     prod_analytics := {| an_views := 0; an_purchases := 0; an_revenue := 0 |};
     prod_isActive := true |}.

(** A pen with five units in stock and a download that is not counted. *)
Definition pen : Product := mkProduct "pen" 20 None 5 true.
Definition ebook : Product := mkProduct "ebook" 60 None 0 false.

Definition catalog : Store :=
  {| products := <[1%N := pen]> (<[2%N := ebook]> ∅);
     carts := ∅;
     orders := ∅ |}.

Definition alice : JWTPayload :=
  {| userId := 7%N; email := "alice@example.org"; role := "user" |}.

Definition home : Address :=
  {| addr_firstName := Some "Alice";
     addr_lastName := Some "Martin";
     addr_address := Some "1 Main Street";
     addr_city := Some "Springfield";
     addr_state := Some "IL";
     addr_zipCode := Some "62701";
     addr_country := None;
     addr_phone := None |}.

(** A provider that accepts everything, and a clock reading [t]. *)
Definition envAt (t : Date) : Env :=
  {| now := t;
     random := "K3ZQ";
     createPaymentIntent := fun _ _ _ =>
       StripeOk {| paymentIntentId := "pi_1"; clientSecret := "secret" |};
     confirmPaymentIntent := fun _ =>
       StripeOk {| confirm_status := "succeeded"; confirm_amount := 0 |};
     refundPayment := fun _ _ =>
       StripeOk {| refund_amount := 0; refundId := "re_1" |};
     handleStripeWebhook := fun _ _ =>
       StripeOk {| ev_type := "payment_intent.succeeded";
                   ev_object := {| pi_id := "pi_1";
                                   pi_metadata_orderId := Some 0%N |} |} |}.

Definition addReq (product : ObjectId) (quantity : Q) : AddBody :=
  {| add_productId := Some product;
     add_quantity := Some quantity;
     add_sessionId := None |}.

Definition checkoutReq : CheckoutBody :=
  {| co_shippingAddress := Some home;
     co_billingAddress := None;
     co_paymentMethod := Some "stripe";
     co_notes := None |}.

(** Alice has put two pens in her cart. *)
Definition withPens : Store :=
  snd (cart_add (Token alice) (addReq 1%N 2) catalog).

(** Alice has put two pens and two downloads in her cart. *)
Definition withPensAndEbooks : Store :=
  snd (cart_add (Token alice) (addReq 2%N 2) withPens).

(** The price of the pen is raised to 30 after Alice has put two pens, at
    20 each, in her cart. *)
Definition penAt30 : Store :=
  set_products <[1%N := mkProduct "pen" 30 None 5 true]> withPens.

Definition updateReq (product : ObjectId) (quantity : Q) : UpdateBody :=
  {| upd_productId := Some product;
     upd_quantity := Some quantity;
     upd_sessionId := None |}.

(** Alice checks out her two pens at time 1000; the order is number 0. *)
Definition ordered : Store :=
  snd (checkout (envAt 1000%Z) (Token alice) checkoutReq withPens).

(** She pays: a payment intent is created and then confirmed. *)
Definition paid : Store :=
  snd (confirm_payment (envAt 1200%Z) (Token alice) (Some 0%N) (Some "pi_1")
         (snd (create_payment_intent (envAt 1100%Z) (Token alice) (Some 0%N)
                 ordered))).

Definition refundReq : RefundBody :=
  {| rf_orderId := 0%N; rf_amount := None; rf_reason := Some "damaged" |}.

(** The same webhook event delivered at time 1500 and again at 1600. *)
Definition paidOnce : Store :=
  snd (webhook (envAt 1500%Z) "evt_1" "sig_1" ordered).


(** A checkout request without shipping address and payment method. *)
Definition bareCheckoutReq : CheckoutBody :=
  {| co_shippingAddress := None;
     co_billingAddress := None;
     co_paymentMethod := None;
     co_notes := None |}.

(** ** Classes of requests *)

(** The cart routes. *)
Definition isCartRequest (req : Request) : bool :=
  match req with
  | CartAdd _ _ | CartUpdate _ _ | CartRemove _ _ | CartClear _ _
  | CartMerge _ _ => true
  | _ => false
  end.

(** The admin status route and the payment routes other than refund. *)
Definition isPaymentRequest (req : Request) : bool :=
  match req with
  | AdminStatus _ _ _ | CreatePaymentIntent _ _ | ConfirmPayment _ _ _
  | Webhook _ _ => true
  | _ => false
  end.

(** The credentials of a request to a route behind [authenticateJWT]. *)
Definition tokenOf (req : Request) : option Auth :=
  match req with
  | CartMerge auth _ | Checkout auth _ | Cancel auth _ | AdminStatus auth _ _
  | CreatePaymentIntent auth _ | ConfirmPayment auth _ _ | Refund auth _ =>
    Some auth
  | _ => None
  end.

(** A store [s'] that differs from [s] in its carts only. *)
Definition only_carts_written (s s' : Store) : Prop :=
  products s' = products s /\ orders s' = orders s.

(** A guest of session "guest" has put one pen in a cart, beside the cart
    of Alice. *)
Definition guestAddReq (product : ObjectId) (quantity : Q) : AddBody :=
  {| add_productId := Some product;
     add_quantity := Some quantity;
     add_sessionId := Some "guest" |}.

Definition withGuestCart : Store :=
  snd (cart_add NoToken (guestAddReq 1%N 1) withPens).

(** A checkout request with a payment method outside the enumeration. *)
Definition bitcoinCheckoutReq : CheckoutBody :=
  {| co_shippingAddress := Some home;
     co_billingAddress := None;
     co_paymentMethod := Some "bitcoin";
     co_notes := None |}.

(** ** The life of an order *)

(** The fields of an order that are written by the checkout only. *)
Definition sameOrderIdentity (o o' : Order) : Prop :=
  order_orderNumber o' = order_orderNumber o
  /\ order_user o' = order_user o
  /\ order_items o' = order_items o
  /\ order_shippingAddress o' = order_shippingAddress o
  /\ order_billingAddress o' = order_billingAddress o
  /\ order_paymentMethod o' = order_paymentMethod o
  /\ order_notes o' = order_notes o.

(** A store [s'] whose orders are those of [s], but for one stored order
    written again with the same identity. *)
Definition order_rewritten (s s' : Store) : Prop :=
  orders s' = orders s
  \/ exists id o o1,
       orders s !! id = Some o /\ sameOrderIdentity o o1
       /\ orders s' = <[id := o1]> (orders s).

(** A store [s'] that has every order of [s], with the same identity. *)
Definition orders_kept (s s' : Store) : Prop :=
  forall id o, orders s !! id = Some o ->
  exists o', orders s' !! id = Some o' /\ sameOrderIdentity o o'.

(** Another customer, and an administrator. *)
Definition bob : JWTPayload :=
  {| userId := 8%N; email := "bob@example.org"; role := "user" |}.

Definition admin : JWTPayload :=
  {| userId := 1%N; email := "admin@example.org"; role := "admin" |}.

(** A status update that sets the order status only. *)
Definition statusReq (name : string) : StatusBody :=
  {| st_orderStatus := Some name;
     st_paymentStatus := None;
     st_trackingNumber := None;
     st_estimatedDelivery := None |}.

(** Alice has cancelled her order at time 2000. *)
Definition cancelled : Store :=
  snd (cancel (envAt 2000%Z) (Token alice) 0%N ordered).

(** A provider whose webhook event is a failed payment of order 0, and
    for which every intent has succeeded. *)
Definition envFailedAt (t : Date) : Env :=
  {| now := t;
     random := "K3ZQ";
     createPaymentIntent := fun _ _ _ => StripeFail "card_declined";
     confirmPaymentIntent := fun _ =>
       StripeOk {| confirm_status := "succeeded"; confirm_amount := 0 |};
     refundPayment := fun _ _ => StripeFail "no such charge";
     handleStripeWebhook := fun _ _ =>
       StripeOk {| ev_type := "payment_intent.payment_failed";
                   ev_object := {| pi_id := "pi_1";
                                   pi_metadata_orderId := Some 0%N |} |} |}.

(** Alice, logged in, has put two pens in a cart while sending the
    session identifier of her browser. *)
Definition ownSessionAddReq (product : ObjectId) (quantity : Q) : AddBody :=
  {| add_productId := Some product;
     add_quantity := Some quantity;
     add_sessionId := Some "browser" |}.

Definition withOwnSessionCart : Store :=
  snd (cart_add (Token alice) (ownSessionAddReq 1%N 2) catalog).

(** ** The payment service (services/stripe) *)

(** What the service reads of the objects of the provider's library. *)
Record StripeIntent := {
  intent_id : string;
  intent_client_secret : string;
  intent_status : string;
  intent_amount : Q
}.

Record StripeRefund := {
  re_id : string;
  re_amount : Q
}.

(** The calls of the provider's library that the service makes; a call
    that throws is a [StripeFail] with the message of the error. *)
Record StripeSDK := {
  paymentIntents_create :
    Q -> string -> IntentMetadata -> StripeResult StripeIntent;
  paymentIntents_retrieve : string -> StripeResult StripeIntent;
  refunds_create : string -> option Q -> StripeResult StripeRefund;
  webhooks_constructEvent : string -> string -> StripeResult StripeEvent
}.

(** [try { const x = await call; return { success: true, data: f(x) } }
     catch (error) { return { success: false, error: error.message } }]. *)
Definition stripeTry {A B} (call : StripeResult A) (f : A -> B)
    : StripeResult B :=
  match call with
  | StripeOk x => StripeOk (f x)
  | StripeFail e => StripeFail e
  end.

Definition stripe_createPaymentIntent (sdk : StripeSDK) (amount : Q)
    (currency : string) (metadata : IntentMetadata) : StripeResult IntentData :=
  stripeTry (paymentIntents_create sdk (Math_round (amount * 100)) currency
               metadata)
    (fun paymentIntent =>
       {| paymentIntentId := intent_id paymentIntent;
          clientSecret := intent_client_secret paymentIntent |}).

Definition stripe_confirmPaymentIntent (sdk : StripeSDK)
    (paymentIntentId : string) : StripeResult ConfirmData :=
  stripeTry (paymentIntents_retrieve sdk paymentIntentId)
    (fun paymentIntent =>
       {| confirm_status := intent_status paymentIntent;
          confirm_amount := intent_amount paymentIntent / 100 |}).

Definition stripe_refundPayment (sdk : StripeSDK) (paymentIntentId : string)
    (amount : option Q) : StripeResult RefundData :=
  stripeTry (refunds_create sdk paymentIntentId
               (if truthy_num amount
                then Some (Math_round (default 0 amount * 100))
                else None))
    (fun refund =>
       {| refund_amount := re_amount refund / 100;
          refundId := re_id refund |}).

Definition stripe_handleStripeWebhook (sdk : StripeSDK)
    (body signature : string) : StripeResult StripeEvent :=
  stripeTry (webhooks_constructEvent sdk body signature) (fun event => event).

(** The environment of the routes when the service runs on [sdk]. *)
Definition envOf (sdk : StripeSDK) (t : Date) (rnd : string) : Env :=
  {| now := t;
     random := rnd;
     createPaymentIntent := stripe_createPaymentIntent sdk;
     confirmPaymentIntent := stripe_confirmPaymentIntent sdk;
     refundPayment := stripe_refundPayment sdk;
     handleStripeWebhook := stripe_handleStripeWebhook sdk |}.



(** One pen is left in stock while Alice has two pens in her cart. *)
Definition onePenLeft : Store :=
  set_products <[1%N := mkProduct "pen" 20 None 1 true]> withPens.

(** * Properties *)

(** ** Reasoning about handlers *)

(** The outcome of a handler body and the response of the route. *)
Lemma try_catch_inv (body : Handler Response) (m : string) (s s' : Store)
    (r : Response) :
  try_catch body m s = (r, s') ->
  body s = (Next r, s') \/ body s = (Reply r, s')
  \/ exists e, body s = (Throw e, s') /\ r = json 500 false m (ErrorData e).
Proof.
  unfold try_catch. destruct (body s) as [[a | r0 | e] s0]; intros [= <- <-]; eauto.
Qed.

Lemma bind_inv {A B} (m : Handler A) (k : A -> Handler B) (s s' : Store)
    (out : Outcome B) :
  bind m k s = (out, s') ->
  (exists a s1, m s = (Next a, s1) /\ k a s1 = (out, s'))
  \/ (exists r, m s = (Reply r, s') /\ out = Reply r)
  \/ (exists e, m s = (Throw e, s') /\ out = Throw e).
Proof.
  unfold bind. destruct (m s) as [[a | r | e] s1]; intros H.
  - left. eauto.
  - right. left. injection H as <- <-. eauto.
  - right. right. injection H as <- <-. eauto.
Qed.

Section Stable.
Context (R : relation Store) `{!PreOrder R}.

Lemma stable_ret {A} (a : A) : stable R (ret a).
Proof. intros s out s' [= <- <-]. reflexivity. Qed.

Lemma stable_reply {A} (r : Response) : stable R (@reply A r).
Proof. intros s out s' [= <- <-]. reflexivity. Qed.

Lemma stable_throw {A} (e : Error) : stable R (@throw A e).
Proof. intros s out s' [= <- <-]. reflexivity. Qed.

Lemma stable_bind {A B} (m : Handler A) (k : A -> Handler B) :
  stable R m -> (forall a, stable R (k a)) -> stable R (bind m k).
Proof.
  intros Hm Hk s out s' H.
  apply bind_inv in H as [(a & s1 & H1 & H2) | [(r & H1 & _) | (e & H1 & _)]].
  - transitivity s1; [exact (Hm _ _ _ H1) | exact (Hk _ _ _ _ H2)].
  - exact (Hm _ _ _ H1).
  - exact (Hm _ _ _ H1).
Qed.

Lemma stable_for_of {A} (xs : list A) (body : A -> Handler unit) :
  (forall x, stable R (body x)) -> stable R (for_of xs body).
Proof.
  intros Hb. induction xs as [| x xs IH]; simpl.
  - apply stable_ret.
  - apply stable_bind; auto.
Qed.

Lemma stable_for_fold {A B} (xs : list A) (acc : B) (body : B -> A -> Handler B) :
  (forall b x, stable R (body b x)) -> stable R (for_fold xs acc body).
Proof.
  intros Hb. revert acc. induction xs as [| x xs IH]; intros acc; simpl.
  - apply stable_ret.
  - apply stable_bind; auto.
Qed.

Lemma stable_try_catch (body : Handler Response) (m : string) :
  stable R body ->
  forall s r s', try_catch body m s = (r, s') -> R s s'.
Proof.
  intros Hb s r s' H.
  apply try_catch_inv in H as [H | [H | (e & H & _)]]; exact (Hb _ _ _ H).
Qed.

Lemma stable_authenticateJWT (auth : Auth)
    (next : JWTPayload -> Store -> Response * Store) :
  (forall u s r s', next u s = (r, s') -> R s s') ->
  forall s r s', authenticateJWT auth next s = (r, s') -> R s s'.
Proof.
  intros Hn s r s'. destruct auth; simpl; [intros [= <- <-]; reflexivity ..|].
  apply Hn.
Qed.

(** Reads leave the store as it is. *)
Lemma stable_Product_findById id : stable R (Product_findById id).
Proof. intros s out s' [= <- <-]. reflexivity. Qed.

Lemma stable_Cart_findOne q : stable R (Cart_findOne q).
Proof. intros s out s' [= <- <-]. reflexivity. Qed.

Lemma stable_Cart_findById id : stable R (Cart_findById id).
Proof. intros s out s' [= <- <-]. reflexivity. Qed.

Lemma stable_Cart_new c : stable R (Cart_new c).
Proof. intros s out s' [= <- <-]. reflexivity. Qed.

Lemma stable_Order_findById id : stable R (Order_findById id).
Proof. intros s out s' [= <- <-]. reflexivity. Qed.

Lemma stable_Order_findOne id u : stable R (Order_findOne id u).
Proof. intros s out s' [= <- <-]. reflexivity. Qed.

Lemma stable_Order_findOne_refund id u : stable R (Order_findOne_refund id u).
Proof. intros s out s' [= <- <-]. reflexivity. Qed.

Lemma stable_Order_new o : stable R (Order_new o).
Proof. intros s out s' [= <- <-]. reflexivity. Qed.

Lemma stable_assignEnum {A} (parse : string -> option A) v set o :
  stable R (assignEnum parse v set o).
Proof.
  unfold assignEnum. destruct (truthy_str v); [| apply stable_ret].
  destruct (parse _); [apply stable_ret | apply stable_throw].
Qed.
End Stable.

(** The writes of the collections, one lemma per write, for a relation
    that has to be shown to admit them. *)
Section StableWrites.
Context (R : relation Store) `{!PreOrder R}.

Lemma stable_Product_save d :
  (validProduct (snd d) = true ->
   forall s, R s (set_products <[fst d := snd d]> s)) ->
  stable R (Product_save d).
Proof.
  intros HR s out s'. unfold Product_save.
  destruct (validProduct (snd d)); intros [= <- <-]; [by apply HR | reflexivity].
Qed.

Lemma stable_Cart_save d :
  (validCart (snd d) = true ->
   forall s, R s (set_carts <[fst d := cartPreSave (snd d)]> s)) ->
  stable R (Cart_save d).
Proof.
  intros HR s out s'. unfold Cart_save.
  destruct (validCart (snd d)); intros [= <- <-]; [by apply HR | reflexivity].
Qed.

Lemma stable_Cart_findOneAndDelete q :
  (forall s id, R s (set_carts (delete id) s)) ->
  stable R (Cart_findOneAndDelete q).
Proof.
  intros HR s out s'. unfold Cart_findOneAndDelete.
  destruct (findCart q (carts s)); intros [= <- <-]; [apply HR | reflexivity].
Qed.

Lemma stable_Order_save env d :
  (validOrder (snd d) = true ->
   forall s isNew,
     R s (set_orders <[fst d := savedOrder env isNew (snd d)]> s)) ->
  stable R (Order_save env d).
Proof.
  intros HR s out s'. unfold Order_save.
  destruct (validOrder (snd d)); intros [= <- <-]; [by apply HR | reflexivity].
Qed.
End StableWrites.

(** One step of the traversal of a handler body. *)
Ltac preorder_goal :=
  lazymatch goal with |- PreOrder _ => exact _ end.

Tactic Notation "stable_apply" uconstr(L) := apply L; try preorder_goal.

Ltac stable_step :=
  first
    [ stable_apply stable_ret | stable_apply stable_reply
    | stable_apply stable_throw
    | stable_apply stable_Product_findById | stable_apply stable_Cart_findOne
    | stable_apply stable_Cart_findById | stable_apply stable_Cart_new
    | stable_apply stable_Order_findById | stable_apply stable_Order_findOne
    | stable_apply stable_Order_findOne_refund | stable_apply stable_Order_new
    | stable_apply stable_assignEnum
    | stable_apply stable_bind; [| intros ?]
    | stable_apply stable_for_of; intros ?
    | stable_apply stable_for_fold; intros ? ?
    | progress cbv zeta
    | progress unfold verifyLine, snapshotLine, sellLine, restockLine,
        onPaymentSucceeded, onPaymentFailed
    | case_match ].

(** Every route is stable for a preorder that admits the four writes of
    validated documents. *)
Section Routes.
Context (R : relation Store) `{!PreOrder R}.
Hypothesis R_product : forall s id p,
  validProduct p = true -> R s (set_products <[id := p]> s).
Hypothesis R_cart : forall s id c,
  validCart c = true -> R s (set_carts <[id := cartPreSave c]> s).
Hypothesis R_cart_delete : forall s id, R s (set_carts (delete id) s).
Hypothesis R_order : forall s id o,
  validOrder o = true -> R s (set_orders <[id := orderTotalsPreSave o]> s).

Lemma R_order_new env isNew s id o :
  validOrder o = true ->
  R s (set_orders <[id := savedOrder env isNew o]> s).
Proof.
  intros Hv. apply R_order. unfold orderNumberPreSave.
  destruct (_ && _); exact Hv.
Qed.

Ltac routes_tac :=
  repeat first
    [ stable_step
    | stable_apply stable_Product_save; simpl; intros ? ?; by apply R_product
    | stable_apply stable_Cart_save; simpl; intros ? ?; by apply R_cart
    | stable_apply stable_Cart_findOneAndDelete; by apply R_cart_delete
    | stable_apply stable_Order_save; simpl; intros ? ? ?; by apply R_order_new ].

Lemma handle_stable env req s r s' :
  handle env req s = (r, s') -> R s s'.
Proof.
  destruct req; simpl.
  - unfold cart_add. stable_apply stable_try_catch. routes_tac.
  - unfold cart_update. stable_apply stable_try_catch. routes_tac.
  - unfold cart_remove. stable_apply stable_try_catch. routes_tac.
  - unfold cart_clear. stable_apply stable_try_catch. routes_tac.
  - unfold cart_merge. stable_apply stable_authenticateJWT. intros u.
    stable_apply stable_try_catch. routes_tac.
  - unfold checkout. stable_apply stable_authenticateJWT. intros u.
    stable_apply stable_try_catch. routes_tac.
  - unfold cancel. stable_apply stable_authenticateJWT. intros u.
    stable_apply stable_try_catch. routes_tac.
  - unfold admin_status. stable_apply stable_authenticateJWT. intros u.
    stable_apply stable_try_catch. routes_tac.
  - unfold create_payment_intent. stable_apply stable_authenticateJWT.
    intros u. stable_apply stable_try_catch. routes_tac.
  - unfold confirm_payment. stable_apply stable_authenticateJWT. intros u.
    stable_apply stable_try_catch. routes_tac.
  - unfold refund. stable_apply stable_authenticateJWT. intros u.
    stable_apply stable_try_catch. routes_tac.
  - unfold webhook. stable_apply stable_try_catch. routes_tac.
Qed.
End Routes.

(** ** Totals of carts and orders *)


Lemma fold_left_fmap {A} (f : A -> Q) (l : list A) (a : Q) :
  fold_left (fun sum x => sum + f x) l a = fold_left Qplus (f <$> l) a.
Proof. revert a. induction l as [| x l IH]; intros a; simpl; auto. Qed.

Lemma Math_round_ext (x y : Q) : x == y -> Math_round x = Math_round y.
Proof.
  intros H. unfold Math_round. f_equal. apply Qfloor_comp. rewrite H. reflexivity.
Qed.

Lemma Qle_bool_false (x y : Q) : Qle_bool x y = false <-> y < x.
Proof.
  split; intros H.
  - apply Qnot_le_lt. intros Hle. apply Qle_bool_iff in Hle. congruence.
  - destruct (Qle_bool x y) eqn:E; [| reflexivity].
    apply Qle_bool_iff in E. exfalso. apply (Qlt_not_le _ _ H E).
Qed.

Lemma cartPreSave_totalsOf (c : Cart) :
  cart_totals (cartPreSave c) = totalsOf (ci_total <$> cart_items c).
Proof.
  unfold cartPreSave, totalsOf; simpl.
  rewrite fold_left_fmap. reflexivity.
Qed.

Lemma orderTotalsPreSave_totalsOf (o : Order) :
  order_totals (orderTotalsPreSave o) = totalsOf (oi_total <$> order_items o).
Proof.
  unfold orderTotalsPreSave, totalsOf; simpl.
  rewrite fold_left_fmap.
  set (sub := fold_left Qplus (oi_total <$> order_items o) 0).
  assert (E : Math_round (sub * 0.10 * 100) = Math_round (sub * 0.1 * 100)).
  { apply Math_round_ext. ring. }
  rewrite E. reflexivity.
Qed.



Lemma orderTotalsPreSave_items (o : Order) :
  order_items (orderTotalsPreSave o) = order_items o.
Proof. reflexivity. Qed.

Lemma orderNumberPreSave_items isNew t r (o : Order) :
  order_items (orderNumberPreSave isNew t r o) = order_items o.
Proof. unfold orderNumberPreSave. destruct (_ && _); reflexivity. Qed.


(** Rounding to two decimals: a whole number of cents, nearest to the
    argument. *)
Lemma round2_nearest_cent (x : Q) :
  (exists cents : Z, round2 x == inject_Z cents / 100)
  /\ round2 x - x <= 1 / 200 /\ x - round2 x < 1 / 200.
Proof.
  unfold round2, Math_round.
  pose proof (Qfloor_le (x * 100 + 0.5)) as Hlo.
  pose proof (Qlt_floor (x * 100 + 0.5)) as Hhi.
  rewrite inject_Z_plus in Hhi.
  set (z := inject_Z (Qfloor (x * 100 + 0.5))) in *.
  split; [exists (Qfloor (x * 100 + 0.5)); reflexivity |].
  change (inject_Z 1) with 1 in Hhi.
  assert (E : z / 100 == z * (1 # 100)) by (unfold Qdiv; reflexivity).
  assert (E1 : 1 / 200 == 1 # 200) by reflexivity.
  assert (E2 : 0.5 == 1 # 2) by reflexivity.
  rewrite E, E1. rewrite E2 in Hlo, Hhi. split; lra.
Qed.

#[export] Instance totals_written_preorder : PreOrder totals_written.
Proof.
  split.
  - intros s. split; auto.
  - intros s1 s2 s3 [Hc12 Ho12] [Hc23 Ho23]. split.
    + intros id c H. destruct (Hc23 _ _ H) as [H2 | H2]; auto.
    + intros id o H. destruct (Ho23 _ _ H) as [H2 | H2]; auto.
Qed.





(** ** Every persisted cart and order carries the totals of its lines *)







(** The two examples of the specification: one line of two items at 60,
    and one line of two items at 20. *)
Example totals_two_at_60 :
  totalsOf [2 * 60]
  = {| subtotal := 120; tax := 12.00; shipping := 0; total := 132.00 |}.
Proof. reflexivity. Qed.

Example totals_two_at_20 :
  cart_totals <$> carts withPens !! 0%N
  = Some {| subtotal := 40; tax := 4.00; shipping := 10; total := 54.00 |}.
Proof. vm_compute. reflexivity. Qed.

(** A cleared cart is saved with the shipping of an empty subtotal. *)
Example totals_after_clear :
  cart_totals <$> carts (snd (cart_clear (Token alice) None withPens)) !! 0%N
  = Some {| subtotal := 0; tax := 0.00; shipping := 10; total := 10.00 |}.
Proof. vm_compute. reflexivity. Qed.

(** ** Cart lines *)

Lemma findIndex_Some {A} (p : A -> bool) (l : list A) (i : nat) :
  findIndex p l = Some i ->
  exists x, l !! i = Some x /\ p x = true
            /\ forall j y, l !! j = Some y -> (j < i)%nat -> p y = false.
Proof.
  revert i. induction l as [| a l IH]; intros i; simpl; [discriminate |].
  destruct (p a) eqn:Hp.
  - intros [= <-]. exists a. repeat split; auto. intros j y _ Hj. lia.
  - destruct (findIndex p l) as [k |] eqn:E; simpl; [| discriminate].
    intros [= <-]. destruct (IH k eq_refl) as (x & Hx & Hpx & Hmin).
    exists x. repeat split; auto.
    intros [| j] y Hy Hj; simpl in Hy.
    + congruence.
    + apply (Hmin j y Hy). lia.
Qed.

Lemma findIndex_None {A} (p : A -> bool) (l : list A) :
  findIndex p l = None -> forall x, x ∈ l -> p x = false.
Proof.
  induction l as [| a l IH]; simpl; intros H x Hx.
  - by apply elem_of_nil in Hx.
  - destruct (p a) eqn:Hp; [discriminate |].
    destruct (findIndex p l); [discriminate |].
    apply elem_of_cons in Hx as [-> | Hx]; auto.
Qed.

Lemma identity_check (auth : Auth) (sessionId : option string) :
  hasIdentity auth sessionId ->
  negb (bool_decide (is_Some (userId <$> optionalAuth auth)))
  && negb (bool_decide (is_Some (or_null sessionId))) = false.
Proof.
  intros [[u Hu] | Hs].
  - rewrite Hu. reflexivity.
  - unfold or_null. rewrite Hs. destruct sessionId; [| discriminate].
    rewrite andb_comm. reflexivity.
Qed.

Ltac run_handler H :=
  unfold authenticateJWT, try_catch, bind, ret, reply, throw, Product_findById,
    Product_save, Cart_findOne, Cart_findById, Cart_new, Cart_save,
    Cart_findOneAndDelete, Order_findById, Order_findOne, Order_findOne_refund,
    Order_new, Order_save in H;
  simpl in H;
  repeat (case_match; simplify_eq/=).

Lemma alter_insert {A} (f : A -> A) (l : list A) (i : nat) (x : A) :
  l !! i = Some x -> alter f i l = <[i := f x]> l.
Proof.
  revert i. induction l as [| a l IH]; intros [| i]; simpl; try discriminate.
  - intros [= ->]. reflexivity.
  - intros H. f_equal. by apply IH.
Qed.

(** C6. An add-to-cart request that names an identity and an existing
    product fails with [InsufficientInventory], leaving the store as it
    is, when the product tracks its quantity and the requested quantity
    exceeds the stock; when the product does not track its quantity the
    request never fails with [InsufficientInventory], whatever the
    requested quantity. *)
Theorem add_checks_tracked_inventory (auth : Auth) (body : AddBody) (s : Store)
    (productId : ObjectId) (product : Product) :
  add_productId body = Some productId ->
  hasIdentity auth (add_sessionId body) ->
  products s !! productId = Some product ->
  (inv_trackQuantity (prod_inventory product) = true ->
   inv_quantity (prod_inventory product) < default 1 (add_quantity body) ->
   InsufficientInventory (fst (cart_add auth body s))
   /\ snd (cart_add auth body s) = s)
  /\ (inv_trackQuantity (prod_inventory product) = false ->
      ~ InsufficientInventory (fst (cart_add auth body s))).
Proof.
  intros Hid Hwho Hp. apply identity_check in Hwho. split.
  - intros Htrack Hlt.
    assert (Hins : insufficient product (default 1 (add_quantity body)) = true).
    { unfold insufficient, Qlt_bool. rewrite Htrack. simpl.
      apply negb_true_iff, Qle_bool_false, Hlt. }
    unfold cart_add, try_catch, bind, Product_findById, reply.
    rewrite Hid, Hwho, Hp. simpl. rewrite Hins. simpl.
    split; [| reflexivity]. split; [reflexivity | by left].
  - intros Htrack.
    assert (Hins : insufficient product (default 1 (add_quantity body)) = false).
    { unfold insufficient. rewrite Htrack. reflexivity. }
    destruct (cart_add auth body s) as [r s'] eqn:E. simpl.
    unfold cart_add in E. run_handler E;
      intros [_ [Hm | (? & ? & Hm)]]; simpl in Hm; try discriminate.
    rewrite Hp in *. simplify_eq/=. congruence.
Qed.

Lemma add_checks_tracked_inventory_witness :
  InsufficientInventory (fst (cart_add (Token alice) (addReq 1%N 6) catalog))
  /\ ~ InsufficientInventory
         (fst (cart_add (Token alice) (addReq 2%N 1000) catalog)).
Proof.
  split.
  - apply (add_checks_tracked_inventory (Token alice) (addReq 1%N 6) catalog
             1%N pen); try reflexivity.
    left. exists alice. reflexivity.
  - apply (add_checks_tracked_inventory (Token alice) (addReq 2%N 1000) catalog
             2%N ebook); try reflexivity.
    left. exists alice. reflexivity.
Defined.

(** What [POST /cart/add] does to a line that is already in the cart: the
    quantities are summed in place, the stored unit price stays, and the
    line total is the new quantity times the price of the product in the
    catalog at the time of the request. *)
Lemma add_existing_line (auth : Auth) (body : AddBody) (s s' : Store)
    (r : Response) (productId : ObjectId) (product : Product)
    (cid : ObjectId) (cart : Cart) (i : nat) :
  cart_add auth body s = (r, s') ->
  status r = 201%nat ->
  add_productId body = Some productId ->
  products s !! productId = Some product ->
  findCart (cartQuery (userId <$> optionalAuth auth) (or_null (add_sessionId body)))
           (carts s) = Some (cid, cart) ->
  findIndex (fun item => N.eqb (ci_product item) productId) (cart_items cart)
  = Some i ->
  exists it cart',
    cart_items cart !! i = Some it
    /\ ci_product it = productId
    /\ carts s' !! cid = Some cart'
    /\ cart_items cart'
       = <[i := {| ci_product := ci_product it;
                   ci_quantity := ci_quantity it + default 1 (add_quantity body);
                   ci_price := ci_price it;
                   ci_total := (ci_quantity it + default 1 (add_quantity body))
                               * itemPriceOf product |}]> (cart_items cart)
    /\ length (cart_items cart') = length (cart_items cart).
Proof.
  intros H Hr Hid Hp Hc Hi.
  destruct (findIndex_Some _ _ _ Hi) as (it & Hit & Heq & _).
  apply N.eqb_eq in Heq.
  unfold cart_add in H. rewrite Hid in H. run_handler H.
  rewrite Hp in *. simplify_eq/=.
  exists it. eexists. split; [assumption |]. split; [reflexivity |].
  split; [apply lookup_insert_eq |]. simpl.
  erewrite alter_insert by eassumption. split; [reflexivity |].
  apply length_insert.
Qed.

(** C5, at the failing input.  Alice has two pens in her cart, taken at 20
    each; the catalog price of the pen is then raised to 30; she adds one
    more pen.  The cart still has one line and the quantities are summed,
    but the line total is three times the new catalog price while the
    stored unit price is still 20: the total is 90, not 3 * 20 = 60. *)
Theorem add_existing_line_uses_catalog_price :
  cart_items <$> carts (snd (cart_add (Token alice) (addReq 1%N 1) penAt30)) !! 0%N
  = Some [{| ci_product := 1%N; ci_quantity := 2 + 1;
             ci_price := 20; ci_total := (2 + 1) * 30 |}]
  /\ ~ (2 + 1) * 30 == (2 + 1) * 20.
Proof. split; [vm_compute; reflexivity | discriminate]. Qed.

(** The sibling routes compute the total of an existing line from the
    stored unit price: [PUT /cart/update] and [POST /cart/merge]. *)
Lemma siblings_use_stored_price (q : Q) (it other : CartItem) :
  ci_total (setLineQuantity q it) = q * ci_price it
  /\ (ci_product it = ci_product other ->
      mergeItem [it] other
      = [{| ci_product := ci_product it;
            ci_quantity := ci_quantity it + ci_quantity other;
            ci_price := ci_price it;
            ci_total := (ci_quantity it + ci_quantity other) * ci_price it |}]).
Proof.
  split; [reflexivity |]. intros H. unfold mergeItem. simpl.
  rewrite (proj2 (N.eqb_eq _ _) H). reflexivity.
Qed.

(** C10. A successful update leaves the stored unit price of the line as
    it is and stores as line total the new quantity times that stored
    price; no other line changes.  The price of the product in the catalog
    does not enter the result. *)
Theorem update_keeps_snapshot_price (auth : Auth) (body : UpdateBody)
    (s s' : Store) (r : Response) :
  cart_update auth body s = (r, s') ->
  status r = 200%nat ->
  exists cid cart cart' i it quantity,
    findCart (cartQuery (userId <$> optionalAuth auth)
                        (or_null (upd_sessionId body))) (carts s)
    = Some (cid, cart)
    /\ upd_quantity body = Some quantity
    /\ cart_items cart !! i = Some it
    /\ upd_productId body = Some (ci_product it)
    /\ carts s' !! cid = Some cart'
    /\ cart_items cart'
       = <[i := {| ci_product := ci_product it;
                   ci_quantity := quantity;
                   ci_price := ci_price it;
                   ci_total := quantity * ci_price it |}]> (cart_items cart).
Proof.
  intros H Hr. unfold cart_update in H. run_handler H.
  match goal with
  | Hi : findIndex _ _ = Some ?n |- _ =>
    destruct (findIndex_Some _ _ _ Hi) as (it & Hit & Heq & _)
  end.
  apply N.eqb_eq in Heq. subst.
  destruct d as [cid cart]. simpl in *.
  destruct (upd_quantity body) as [quantity |] eqn:Hq; [| discriminate].
  exists cid, cart,
    (cartPreSave (with_items (alter (setLineQuantity quantity) n (cart_items cart))
                             cart)),
    n, it, quantity.
  repeat split; auto.
  - apply lookup_insert_eq.
  - simpl. apply (alter_insert (setLineQuantity quantity)). exact Hit.
Qed.

Lemma update_keeps_snapshot_price_witness :
  status (fst (cart_update (Token alice) (updateReq 1%N 3) penAt30)) = 200%nat
  /\ exists cart',
       carts (snd (cart_update (Token alice) (updateReq 1%N 3) penAt30)) !! 0%N
       = Some cart'
       /\ cart_items cart'
          = [{| ci_product := 1%N; ci_quantity := 3;
                ci_price := 20; ci_total := 3 * 20 |}].
Proof.
  assert (Hr : status (fst (cart_update (Token alice) (updateReq 1%N 3) penAt30))
               = 200%nat) by (vm_compute; reflexivity).
  split; [exact Hr |].
  destruct (update_keeps_snapshot_price (Token alice) (updateReq 1%N 3) penAt30
              _ _ (surjective_pairing _) Hr)
    as (cid & cart & cart' & i & it & quantity & Hc & Hq & Hit & Hp & Hs & Hitems).
  vm_compute in Hc. injection Hc as <- <-.
  injection Hq as <-. simpl in Hit, Hp.
  destruct i as [| i]; [| destruct i; discriminate].
  injection Hit as <-. simpl in Hitems.
  exists cart'. split; [exact Hs | exact Hitems].
Defined.

(** ** Order life cycle: refund *)

Lemma savedOrder_fields (env : Env) (isNew : bool) (o : Order) :
  order_user (savedOrder env isNew o) = order_user o
  /\ order_items (savedOrder env isNew o) = order_items o
  /\ order_paymentStatus (savedOrder env isNew o) = order_paymentStatus o
  /\ order_orderStatus (savedOrder env isNew o) = order_orderStatus o
  /\ order_paidAt (savedOrder env isNew o) = order_paidAt o
  /\ order_refundedAt (savedOrder env isNew o) = order_refundedAt o
  /\ order_refundReason (savedOrder env isNew o) = order_refundReason o
  /\ order_paymentIntentId (savedOrder env isNew o) = order_paymentIntentId o.
Proof.
  unfold savedOrder, orderNumberPreSave. destruct (_ && _); simpl; auto 10.
Qed.

Lemma truthy_str_Some (v : string) : truthy_str (Some v) = true <-> v <> "".
Proof.
  simpl. rewrite negb_true_iff. split.
  - intros H ->. discriminate.
  - intros H. apply String.eqb_neq. exact H.
Qed.

#[export] Instance only_orders_written_preorder : PreOrder only_orders_written.
Proof.
  split.
  - intros s. split; reflexivity.
  - intros s1 s2 s3 [Hp Hc] [Hp' Hc']. split; congruence.
Qed.

Ltac only_orders_tac :=
  repeat first
    [ stable_step
    | stable_apply stable_Order_save; intros; split; reflexivity ].

Lemma refund_only_orders (env : Env) (auth : Auth) (body : RefundBody)
    (s s' : Store) (r : Response) :
  refund env auth body s = (r, s') -> only_orders_written s s'.
Proof.
  unfold refund. stable_apply stable_authenticateJWT. intros u.
  stable_apply stable_try_catch. only_orders_tac.
Qed.

Lemma webhook_only_orders (env : Env) (rawBody signature : string)
    (s s' : Store) (r : Response) :
  webhook env rawBody signature s = (r, s') -> only_orders_written s s'.
Proof.
  unfold webhook. stable_apply stable_try_catch. only_orders_tac.
Qed.

Lemma refund_not_paid (env : Env) (u : JWTPayload) (body : RefundBody)
    (s : Store) (o : Order) :
  orders s !! rf_orderId body = Some o ->
  order_paymentStatus o <> Paid ->
  refund env (Token u) body s
  = (json 400 false "Order has not been paid" NoData, s).
Proof.
  intros Ho Hnp. unfold refund, authenticateJWT, try_catch, bind,
    Order_findOne_refund, reply.
  rewrite Ho, orb_true_r. simpl.
  rewrite bool_decide_eq_false_2 by exact Hnp. reflexivity.
Qed.

Lemma refund_success (env : Env) (u : JWTPayload) (body : RefundBody)
    (s s' : Store) (r : Response) (o : Order) :
  orders s !! rf_orderId body = Some o ->
  refund env (Token u) body s = (r, s') ->
  status r = 200%nat ->
  order_paymentStatus o = Paid
  /\ exists o', orders s' !! rf_orderId body = Some o'
       /\ order_paymentStatus o' = Refunded
       /\ order_orderStatus o' = Cancelled
       /\ order_refundedAt o' = Some (now env)
       /\ (forall reason, rf_reason body = Some reason -> reason <> "" ->
             order_refundReason o' = Some (trim reason)).
Proof.
  intros Ho E Hr. unfold refund in E. run_handler E.
  - match goal with H : negb (bool_decide _) = false |- _ =>
      apply negb_false_iff, bool_decide_eq_true in H; split; [exact H |] end.
    eexists. split; [apply lookup_insert_eq |].
    destruct (savedOrder_fields env
                (bool_decide (orders s !! rf_orderId body = None))
                (with_refundReason (trim <$> rf_reason body)
                   (with_refundedAt (Some (now env))
                      (with_orderStatus Cancelled
                         (with_paymentStatus Refunded o)))))
      as (_ & _ & -> & -> & _ & -> & -> & _).
    simpl. repeat split. intros reason -> _. reflexivity.
  - match goal with H : negb (bool_decide _) = false |- _ =>
      apply negb_false_iff, bool_decide_eq_true in H; split; [exact H |] end.
    eexists. split; [apply lookup_insert_eq |].
    destruct (savedOrder_fields env
                (bool_decide (orders s !! rf_orderId body = None))
                (with_refundedAt (Some (now env))
                   (with_orderStatus Cancelled
                      (with_paymentStatus Refunded o))))
      as (_ & _ & -> & -> & _ & -> & -> & _).
    simpl. repeat split. intros reason Hreason Hne.
    match goal with H : truthy_str (rf_reason body) = false |- _ =>
      rewrite Hreason in H end.
    apply truthy_str_Some in Hne. congruence.
Qed.



(** C9. A refund writes no product and no cart, whatever its outcome; when
    it succeeds the order is [cancelled].  On the sample order, cancelling
    puts the two pens back in stock while refunding leaves the stock at
    three: both paths end in [cancelled], one with and one without the
    inventory restored. *)
Theorem refund_cancels_without_restocking (env : Env) (u : JWTPayload)
    (body : RefundBody) (s : Store) :
  products (snd (refund env (Token u) body s)) = products s
  /\ carts (snd (refund env (Token u) body s)) = carts s
  /\ (forall o, orders s !! rf_orderId body = Some o ->
      status (fst (refund env (Token u) body s)) = 200%nat ->
      exists o', orders (snd (refund env (Token u) body s)) !! rf_orderId body
                 = Some o'
                 /\ order_orderStatus o' = Cancelled)
  /\ (let cancelled := snd (cancel (envAt 2000%Z) (Token alice) 0%N ordered) in
      let refunded := snd (refund (envAt 2000%Z) (Token alice) refundReq paid) in
      order_orderStatus <$> orders cancelled !! 0%N = Some Cancelled
      /\ order_orderStatus <$> orders refunded !! 0%N = Some Cancelled
      /\ inv_quantity <$> (prod_inventory <$> products ordered !! 1%N) = Some (5 - 2)
      /\ inv_quantity <$> (prod_inventory <$> products cancelled !! 1%N)
         = Some (5 - 2 + 2)
      /\ products refunded = products paid
      /\ products paid = products ordered).
Proof.
  destruct (refund env (Token u) body s) as [r s'] eqn:E. simpl fst. simpl snd.
  destruct (refund_only_orders _ _ _ _ _ _ E) as [Hp Hc].
  split; [exact Hp |]. split; [exact Hc |]. split.
  - intros o Ho Hr.
    destruct (refund_success env u body s s' r o Ho E Hr)
      as (_ & o' & Ho' & _ & Hs & _).
    exists o'. split; assumption.
  - cbv zeta. repeat split; vm_compute; reflexivity.
Qed.

Lemma refund_cancels_without_restocking_witness :
  exists o',
    orders (snd (refund (envAt 2000%Z) (Token alice) refundReq paid)) !! 0%N
    = Some o'
    /\ order_orderStatus o' = Cancelled.
Proof.
  destruct (orders paid !! 0%N) as [o |] eqn:Ho;
    [| vm_compute in Ho; discriminate].
  destruct (refund_cancels_without_restocking (envAt 2000%Z) alice refundReq paid)
    as (_ & _ & H & _).
  apply (H o Ho). vm_compute. reflexivity.
Defined.

(** ** Stored documents stay valid *)

Lemma fold_left_Qplus_nonneg (l : list Q) (a : Q) :
  0 <= a -> Forall (fun x => 0 <= x) l -> 0 <= fold_left Qplus l a.
Proof.
  revert a. induction l as [| x l IH]; intros a Ha Hl; simpl; [exact Ha |].
  inversion Hl; subst. apply IH; [| assumption].
  rewrite <- (Qplus_0_r 0). apply Qplus_le_compat; assumption.
Qed.

Lemma Math_round_nonneg (x : Q) : 0 <= x -> 0 <= Math_round x.
Proof.
  intros Hx. unfold Math_round.
  change 0 with (inject_Z 0). rewrite <- Zle_Qle.
  change 0%Z with (Qfloor 0). apply Qfloor_resp_le.
  assert (E : 0.5 == 1 # 2) by reflexivity. rewrite E. lra.
Qed.

Lemma validTotals_totalsOf (l : list Q) :
  Forall (fun x => 0 <= x) l -> validTotals (totalsOf l) = true.
Proof.
  intros Hl.
  assert (Hsub : 0 <= fold_left Qplus l 0)
    by (apply fold_left_Qplus_nonneg; [apply Qle_refl | exact Hl]).
  assert (Htax : 0 <= Math_round (fold_left Qplus l 0 * 0.1 * 100) / 100).
  { apply Qle_shift_div_l; [reflexivity |]. rewrite Qmult_0_l.
    apply Math_round_nonneg.
    set (x := fold_left Qplus l 0) in *. lra. }
  assert (Hship : 0 <= (if Qle_bool 100 (fold_left Qplus l 0) then 0 else 10))
    by (destruct (Qle_bool _ _); discriminate).
  unfold validTotals, min_ok, totalsOf. simpl.
  rewrite !andb_true_iff, !Qle_bool_iff. repeat split; try assumption.
  set (x := fold_left Qplus l 0) in *.
  set (t := Math_round (x * 0.1 * 100) / 100) in *.
  set (sh := if Qle_bool 100 x then 0 else 10) in *. lra.
Qed.

Lemma validOrder_items (o : Order) :
  validOrder o = true -> Forall (fun x => 0 <= x) (oi_total <$> order_items o).
Proof.
  unfold validOrder. rewrite !andb_true_iff. intros [[[[Hi _] _] _] _].
  rewrite forallb_forall in Hi. apply Forall_fmap, Forall_forall.
  intros it Hit. apply list_elem_of_In, Hi in Hit.
  unfold validOrderItem, min_ok in Hit. rewrite !andb_true_iff in Hit.
  simpl. apply Qle_bool_iff. tauto.
Qed.

Lemma validOrder_ext (o o' : Order) :
  order_items o' = order_items o ->
  order_totals o' = order_totals o ->
  order_shippingAddress o' = order_shippingAddress o ->
  order_billingAddress o' = order_billingAddress o ->
  order_paymentMethod o' = order_paymentMethod o ->
  validOrder o' = validOrder o.
Proof. unfold validOrder. intros -> -> -> -> ->. reflexivity. Qed.

Lemma validOrder_orderTotalsPreSave (o : Order) :
  validOrder o = true -> validOrder (orderTotalsPreSave o) = true.
Proof.
  intros Hv. pose proof (validOrder_items o Hv) as Hnn.
  unfold validOrder in *. rewrite orderTotalsPreSave_totalsOf.
  rewrite validTotals_totalsOf by exact Hnn. simpl.
  rewrite !andb_true_iff in Hv. rewrite !andb_true_iff. tauto.
Qed.

Lemma validOrder_savedOrder (env : Env) (isNew : bool) (o : Order) :
  validOrder o = true -> validOrder (savedOrder env isNew o) = true.
Proof.
  intros Hv. pose proof (validOrder_orderTotalsPreSave o Hv) as E.
  unfold savedOrder, orderNumberPreSave. destruct (_ && _); [| exact E].
  rewrite <- E. apply validOrder_ext; reflexivity.
Qed.


Lemma validCart_cartPreSave (c : Cart) :
  validCart c = true -> validCart (cartPreSave c) = true.
Proof.
  unfold validCart. rewrite !andb_true_iff. intros [Hi _].
  rewrite cartPreSave_totalsOf. split; [exact Hi |].
  apply validTotals_totalsOf. rewrite forallb_forall in Hi.
  apply Forall_fmap, Forall_forall. intros it Hit.
  apply list_elem_of_In, Hi in Hit.
  unfold validCartItem, min_ok in Hit. rewrite !andb_true_iff in Hit.
  simpl. apply Qle_bool_iff. tauto.
Qed.

#[export] Instance keeps_valid_preorder : PreOrder keeps_valid.
Proof.
  split.
  - intros s H. exact H.
  - intros s1 s2 s3 H12 H23 H. exact (H23 (H12 H)).
Qed.

(** Every request takes a valid store to a valid store. *)
Lemma handle_keeps_valid (env : Env) (req : Request) (s s' : Store)
    (r : Response) :
  handle env req s = (r, s') -> validStore s -> validStore s'.
Proof.
  apply (handle_stable keeps_valid).
  - intros s0 id p Hv (Hp & Hc & Ho). split; [| split]; simpl; auto.
    intros id' p' H. destruct (decide (id = id')) as [-> | Hne].
    + rewrite lookup_insert_eq in H. congruence.
    + rewrite lookup_insert_ne in H by done. eauto.
  - intros s0 id c Hv (Hp & Hc & Ho). split; [| split]; simpl; auto.
    intros id' c' H. destruct (decide (id = id')) as [-> | Hne].
    + rewrite lookup_insert_eq in H. injection H as <-.
      apply validCart_cartPreSave, Hv.
    + rewrite lookup_insert_ne in H by done. eauto.
  - intros s0 id (Hp & Hc & Ho). split; [| split]; simpl; auto.
    intros id' c' H. apply lookup_delete_Some in H as [_ H]. eauto.
  - intros s0 id o Hv (Hp & Hc & Ho). split; [| split]; simpl; auto.
    intros id' o' H. destruct (decide (id = id')) as [-> | Hne].
    + rewrite lookup_insert_eq in H. injection H as <-.
      apply validOrder_orderTotalsPreSave, Hv.
    + rewrite lookup_insert_ne in H by done. eauto.
Qed.

(** ** Order life cycle: the payment webhook *)





(** ** Checkout *)

Lemma findCart_Some (q : CartQuery) (m : gmap ObjectId Cart) (d : Doc Cart) :
  findCart q m = Some d -> m !! fst d = Some (snd d) /\ matchesCart q (snd d) = true.
Proof.
  unfold findCart. intros H. apply find_some in H as [Hin Hm].
  split; [| exact Hm]. destruct d as [id c].
  apply elem_of_map_to_list, list_elem_of_In. exact Hin.
Qed.

Lemma findCart_None (q : CartQuery) (m : gmap ObjectId Cart) :
  findCart q m = None <->
  forall id c, m !! id = Some c -> matchesCart q c = false.
Proof.
  unfold findCart. split.
  - intros H id c Hc.
    apply (find_none _ _ H (id, c)), list_elem_of_In, elem_of_map_to_list, Hc.
  - intros H. destruct (find _ _) as [[id c] |] eqn:E; [| reflexivity].
    apply find_some in E as [Hin Hm].
    apply list_elem_of_In, elem_of_map_to_list, H in Hin. simpl in Hm. congruence.
Qed.

(** The first loop reads only, and passes when every line is available. *)
Lemma verify_loop (items : list CartItem) (s s' : Store) (out : Outcome unit) :
  for_of items verifyLine s = (out, s') ->
  s' = s
  /\ (forall e, out <> Throw e)
  /\ (out = Next tt -> Forall (available (products s)) items)
  /\ (forall r, out = Reply r -> status r = 400%nat).
Proof.
  revert out. induction items as [| item items IH]; intros out; simpl.
  - intros [= <- <-]. repeat split; try discriminate. constructor.
  - unfold bind at 1. unfold verifyLine at 1.
    unfold bind, Product_findById, reply, ret.
    destruct (products s !! ci_product item) as [p |] eqn:Hp; simpl.
    2: { intros [= <- <-]. repeat split; try discriminate.
         intros r [= <-]. reflexivity. }
    destruct (prod_isActive p) eqn:Hact; simpl.
    2: { intros [= <- <-]. repeat split; try discriminate.
         intros r [= <-]. reflexivity. }
    destruct (insufficient p (ci_quantity item)) eqn:Hins; simpl.
    { intros [= <- <-]. repeat split; try discriminate.
      intros r [= <-]. reflexivity. }
    intros H. destruct (IH _ H) as (-> & Hthrow & Hnext & Hreply).
    repeat split; auto.
    intros Hout. constructor; [| auto]. exists p. auto.
Qed.

(** The second loop reads only, and collects the order lines. *)
Lemma snapshot_loop (items : list CartItem) (acc : list OrderItem) (s : Store) :
  for_fold items acc snapshotLine s
  = (Next (acc ++ orderItemsOf (products s) items), s).
Proof.
  revert acc. induction items as [| item items IH]; intros acc; simpl.
  - unfold ret. rewrite app_nil_r. reflexivity.
  - unfold bind at 1. unfold snapshotLine at 1.
    unfold bind, Product_findById, ret. unfold orderItemsOf. simpl.
    destruct (products s !! ci_product item) as [p |]; simpl.
    + rewrite IH. rewrite <- app_assoc. reflexivity.
    + rewrite IH. reflexivity.
Qed.

Lemma orderItemsOf_available (P : gmap ObjectId Product) (items : list CartItem) :
  Forall (available P) items -> Forall2 sameLine items (orderItemsOf P items).
Proof.
  induction 1 as [| item items (p & Hp & _) _ IH]; unfold orderItemsOf; simpl.
  - constructor.
  - rewrite Hp. simpl. constructor; [| exact IH]. repeat split.
Qed.


(** The third loop writes products only; when it runs to its end the
    products are those of [adjustProducts sell]. *)
Lemma sell_loop (items : list CartItem) (s s' : Store) (out : Outcome unit) :
  for_of items sellLine s = (out, s') ->
  carts s' = carts s /\ orders s' = orders s
  /\ (forall r, out <> Reply r)
  /\ (out = Next tt ->
      products s' = adjustProducts sell (cartLine <$> items) (products s)).
Proof.
  revert s out. induction items as [| item items IH]; intros s out; simpl.
  - intros [= <- <-]. repeat split; discriminate.
  - unfold bind at 1. unfold sellLine at 1.
    unfold bind, Product_findById, Product_save, ret. simpl.
    destruct (products s !! ci_product item) as [p |] eqn:Hp; simpl.
    2: { intros H. destruct (IH _ _ H) as (Hc & Ho & Hr & Hn).
         repeat split; auto. }
    destruct (inv_trackQuantity (prod_inventory p)) eqn:Htrack.
    2: { intros H. destruct (IH _ _ H) as (Hc & Ho & Hr & Hn).
         repeat split; auto. }
    destruct (validProduct _) eqn:Hv.
    + intros H. destruct (IH _ _ H) as (Hc & Ho & Hr & Hn).
      repeat split; auto.
    + intros [= <- <-]. repeat split; discriminate.
Qed.

(** The loop of cancel, likewise. *)
Lemma restock_loop (items : list OrderItem) (s s' : Store) (out : Outcome unit) :
  for_of items restockLine s = (out, s') ->
  carts s' = carts s /\ orders s' = orders s
  /\ (forall r, out <> Reply r)
  /\ (out = Next tt ->
      products s' = adjustProducts restock (orderLine <$> items) (products s)).
Proof.
  revert s out. induction items as [| item items IH]; intros s out; simpl.
  - intros [= <- <-]. repeat split; discriminate.
  - unfold bind at 1. unfold restockLine at 1.
    unfold bind, Product_findById, Product_save, ret. simpl.
    destruct (products s !! oi_product item) as [p |] eqn:Hp; simpl.
    2: { intros H. destruct (IH _ _ H) as (Hc & Ho & Hr & Hn).
         repeat split; auto. }
    destruct (inv_trackQuantity (prod_inventory p)) eqn:Htrack.
    2: { intros H. destruct (IH _ _ H) as (Hc & Ho & Hr & Hn).
         repeat split; auto. }
    destruct (validProduct _) eqn:Hv.
    + intros H. destruct (IH _ _ H) as (Hc & Ho & Hr & Hn).
      repeat split; auto.
    + intros [= <- <-]. repeat split; discriminate.
Qed.

(** A checkout that answers 201: the cart it found, the order it stored
    and the three writes. *)
Lemma checkout_success (env : Env) (u : JWTPayload) (body : CheckoutBody)
    (s s' : Store) (r : Response) :
  checkout env (Token u) body s = (r, s') ->
  status r = 201%nat ->
  exists cid cart o,
    findCart (ByUser (userId u)) (carts s) = Some (cid, cart)
    /\ Forall (available (products s)) (cart_items cart)
    /\ order_items o = orderItemsOf (products s) (cart_items cart)
    /\ order_user o = userId u
    /\ order_orderStatus o = Pending
    /\ order_paymentStatus o = PayPending
    /\ validOrder o = true
    /\ orders s !! fresh (dom (orders s)) = None
    /\ r = json 201 true "Order created successfully"
                (OrderData (fresh (dom (orders s)), o))
    /\ orders s' = <[fresh (dom (orders s)) := o]> (orders s)
    /\ carts s' = delete cid (carts s)
    /\ products s'
       = adjustProducts sell (cartLine <$> cart_items cart) (products s).
Proof.
  intros H Hr. unfold checkout in H.
  unfold authenticateJWT, try_catch in H.
  destruct (co_shippingAddress body) as [shippingAddress |] eqn:Hship;
    [| simpl in H; injection H as <- <-; discriminate].
  destruct (or_null (co_paymentMethod body)) as [paymentMethod |] eqn:Hpay;
    [| simpl in H; injection H as <- <-; discriminate].
  cbv zeta in H. unfold bind at 1 in H. unfold Cart_findOne at 1 in H.
  destruct (findCart (ByUser (userId u)) (carts s)) as [[cid cart] |] eqn:Hcart;
    [| simpl in H; injection H as <- <-; discriminate].
  cbn [fst snd] in H.
  destruct (bool_decide (cart_items cart = [])) eqn:Hne;
    [simpl in H; injection H as <- <-; discriminate |].
  unfold bind at 1 in H.
  destruct (for_of (cart_items cart) verifyLine s) as [out1 s1] eqn:E1.
  destruct (verify_loop _ _ _ _ E1) as (-> & Hthrow1 & Hnext1 & Hreply1).
  destruct out1 as [[] | r1 | e1];
    [| injection H as <- <-; specialize (Hreply1 _ eq_refl); congruence
     | destruct (Hthrow1 e1 eq_refl)].
  specialize (Hnext1 eq_refl).
  unfold bind at 1 in H. rewrite snapshot_loop in H. simpl app in H.
  unfold bind at 1 in H. unfold Order_new at 1 in H.
  unfold bind at 1 in H. unfold Order_save at 1 in H. cbn [fst snd] in H.
  assert (Hfresh : orders s !! fresh (dom (orders s)) = None)
    by (apply not_elem_of_dom, is_fresh).
  rewrite (bool_decide_eq_true_2 _ Hfresh) in H.
  match type of H with
  | context [validOrder ?x] => set (o0 := x) in *
  end.
  destruct (validOrder o0) eqn:Hv; [| injection H as <- <-; discriminate].
  unfold bind at 1 in H.
  match type of H with
  | context [for_of (cart_items cart) sellLine ?x] =>
    destruct (for_of (cart_items cart) sellLine x) as [out3 s3] eqn:E3
  end.
  destruct (sell_loop _ _ _ _ E3) as (Hc3 & Ho3 & Hreply3 & Hnext3).
  destruct out3 as [[] | r3 | e3];
    [| destruct (Hreply3 r3 eq_refl) | injection H as <- <-; discriminate].
  specialize (Hnext3 eq_refl). simpl in Hc3, Ho3, Hnext3.
  unfold bind at 1 in H. unfold Cart_findOneAndDelete at 1 in H.
  rewrite Hc3, Hcart in H.
  unfold bind, Order_findById, ret in H. simpl in H.
  rewrite Ho3, lookup_insert_eq in H. simpl in H. injection H as <- <-.
  exists cid, cart, (savedOrder env true o0).
  destruct (savedOrder_fields env true o0)
    as (Hu & Hi & Hps & Hos & _).
  split; [reflexivity |]. split; [exact Hnext1 |].
  split; [rewrite Hi; reflexivity |]. split; [rewrite Hu; reflexivity |].
  split; [rewrite Hos; reflexivity |]. split; [rewrite Hps; reflexivity |].
  split; [apply validOrder_savedOrder, Hv |].
  split; [exact Hfresh |]. split; [reflexivity |]. simpl.
  split; [exact Ho3 |]. split; [rewrite Hc3; reflexivity | exact Hnext3].
Qed.

(** ** The inventory loops on one product *)

Lemma adjustProducts_lookup (f : Q -> Q -> Product -> Product)
    (lines : list Line) (P : gmap ObjectId Product) (pid : ObjectId) :
  (forall q t p, inv_trackQuantity (prod_inventory (f q t p))
                 = inv_trackQuantity (prod_inventory p)) ->
  adjustProducts f lines P !! pid
  = (fun p => if inv_trackQuantity (prod_inventory p)
              then applyLines f pid lines p else p) <$> P !! pid.
Proof.
  intros Hf. revert P. induction lines as [| [[pid' q] t] lines IH]; intros P.
  - simpl. destruct (P !! pid) as [p |]; simpl; [| reflexivity].
    destruct (inv_trackQuantity _); reflexivity.
  - unfold adjustProducts, applyLines in *. simpl. rewrite IH. clear IH.
    destruct (decide (pid' = pid)) as [-> | Hne].
    + destruct (P !! pid) as [p |] eqn:Hp; simpl; [| rewrite Hp; reflexivity].
      destruct (inv_trackQuantity (prod_inventory p)) eqn:Ht.
      * rewrite lookup_insert_eq. simpl. rewrite Hf, Ht. reflexivity.
      * rewrite Hp. simpl. rewrite Ht. reflexivity.
    + destruct (P !! pid') as [p' |] eqn:Hp'; [| reflexivity].
      destruct (inv_trackQuantity (prod_inventory p')); [| reflexivity].
      rewrite lookup_insert_ne by done. reflexivity.
Qed.

Lemma applyLines_other (f : Q -> Q -> Product -> Product) (pid : ObjectId)
    (lines : list Line) (p : Product) :
  pid ∉ (fun line : Line => fst (fst line)) <$> lines ->
  applyLines f pid lines p = p.
Proof.
  revert p. induction lines as [| [[pid' q] t] lines IH]; intros p Hnot.
  - reflexivity.
  - rewrite fmap_cons, not_elem_of_cons in Hnot. destruct Hnot as [Hne Hnot].
    unfold applyLines in *. simpl in *.
    destruct (decide (pid' = pid)); [congruence | auto].
Qed.

Lemma applyLines_NoDup (f : Q -> Q -> Product -> Product) (pid : ObjectId)
    (q t : Q) (lines : list Line) (p : Product) :
  NoDup ((fun line : Line => fst (fst line)) <$> lines) ->
  (pid, q, t) ∈ lines ->
  applyLines f pid lines p = f q t p.
Proof.
  revert p. induction lines as [| [[pid' q'] t'] lines IH]; intros p Hnd Hin.
  - by apply elem_of_nil in Hin.
  - rewrite fmap_cons in Hnd. apply NoDup_cons in Hnd as [Hnot Hnd].
    simpl in Hnot. apply elem_of_cons in Hin as [[= <- <- <-] | Hin].
    + change (applyLines f pid ((pid, q, t) :: lines) p)
        with (applyLines f pid lines
                (if decide (pid = pid) then f q t p else p)).
      rewrite decide_True by reflexivity.
      apply applyLines_other. exact Hnot.
    + assert (Hne : pid' <> pid).
      { intros ->. apply Hnot.
        apply (list_elem_of_fmap_2 (fun line : Line => fst (fst line))) in Hin.
        exact Hin. }
      change (applyLines f pid ((pid', q', t') :: lines) p)
        with (applyLines f pid lines
                (if decide (pid' = pid) then f q' t' p else p)).
      rewrite decide_False by exact Hne. apply IH; assumption.
Qed.

Lemma sell_track (q t : Q) (p : Product) :
  inv_trackQuantity (prod_inventory (sell q t p))
  = inv_trackQuantity (prod_inventory p).
Proof. reflexivity. Qed.


Lemma cartLine_products (items : list CartItem) :
  (fun line : Line => fst (fst line)) <$> (cartLine <$> items)
  = ci_product <$> items.
Proof. rewrite <- list_fmap_compose. reflexivity. Qed.

(** C1, as the code has it.  After a checkout that answers 201 the cart
    that was checked out is no longer stored (and, when it was the only
    cart of the user, the user has no cart); for every line of that cart
    whose product tracks its quantity, the lines being on distinct
    products, the stored product is the one before checkout with its
    inventory quantity decreased by the quantity of the line, its
    purchases increased by that quantity and its revenue increased by the
    line total. *)
Theorem checkout_sells_tracked_products (env : Env) (u : JWTPayload)
    (body : CheckoutBody) (s : Store) :
  status (fst (checkout env (Token u) body s)) = 201%nat ->
  exists cid cart,
    findCart (ByUser (userId u)) (carts s) = Some (cid, cart)
    /\ carts (snd (checkout env (Token u) body s)) !! cid = None
    /\ ((forall id c, carts s !! id = Some c -> cart_user c = Some (userId u) ->
                      id = cid) ->
        findCart (ByUser (userId u)) (carts (snd (checkout env (Token u) body s)))
        = None)
    /\ (NoDup (ci_product <$> cart_items cart) ->
        forall item, item ∈ cart_items cart ->
        exists p p',
          products s !! ci_product item = Some p
          /\ (inv_trackQuantity (prod_inventory p) = true ->
              products (snd (checkout env (Token u) body s)) !! ci_product item
              = Some p'
              /\ p' = sell (ci_quantity item) (ci_total item) p
              /\ inv_quantity (prod_inventory p')
                 = inv_quantity (prod_inventory p) - ci_quantity item
              /\ an_purchases (prod_analytics p')
                 = an_purchases (prod_analytics p) + ci_quantity item
              /\ an_revenue (prod_analytics p')
                 = an_revenue (prod_analytics p) + ci_total item)).
Proof.
  destruct (checkout env (Token u) body s) as [r s'] eqn:E. simpl. intros Hr.
  destruct (checkout_success env u body s s' r E Hr)
    as (cid & cart & o & Hcart & Hav & _ & _ & _ & _ & _ & _ & _ & _ & Hc & Hp).
  exists cid, cart. split; [exact Hcart |].
  split; [rewrite Hc; apply lookup_delete_eq |]. split.
  - intros Huniq. apply findCart_None. intros id c Hid.
    rewrite Hc in Hid. apply lookup_delete_Some in Hid as [Hne Hid].
    simpl. apply bool_decide_eq_false. intros Hu. apply Hne. symmetry.
    exact (Huniq id c Hid Hu).
  - intros Hnd item Hitem.
    rewrite Forall_forall in Hav. destruct (Hav item Hitem) as (p & Hpi & _).
    exists p, (sell (ci_quantity item) (ci_total item) p).
    split; [exact Hpi |]. intros Htrack.
    split; [| repeat split].
    rewrite Hp, (adjustProducts_lookup sell _ _ _ sell_track), Hpi. simpl.
    rewrite Htrack. f_equal.
    apply applyLines_NoDup.
    + rewrite cartLine_products. exact Hnd.
    + apply (list_elem_of_fmap_2 cartLine) in Hitem. exact Hitem.
Qed.

Lemma checkout_sells_tracked_products_witness :
  status (fst (checkout (envAt 1000%Z) (Token alice) checkoutReq withPens))
  = 201%nat
  /\ carts ordered !! 0%N = None
  /\ exists p',
       products ordered !! 1%N = Some p'
       /\ inv_quantity (prod_inventory p') = 5 - 2
       /\ an_purchases (prod_analytics p') = 0 + 2
       /\ an_revenue (prod_analytics p') = 0 + 2 * 20.
Proof.
  assert (Hr : status (fst (checkout (envAt 1000%Z) (Token alice) checkoutReq
                              withPens)) = 201%nat) by (vm_compute; reflexivity).
  split; [exact Hr |].
  destruct (checkout_sells_tracked_products (envAt 1000%Z) alice checkoutReq
              withPens Hr) as (cid & cart & Hcart & Hgone & _ & Hlines).
  vm_compute in Hcart. injection Hcart as <- <-.
  split; [exact Hgone |].
  destruct (Hlines ltac:(repeat constructor; by intros ?%elem_of_nil)
              {| ci_product := 1%N; ci_quantity := 2; ci_price := 20;
                 ci_total := 2 * 20 |}
              ltac:(by left))
    as (p & p' & Hp & Hsold).
  vm_compute in Hp. injection Hp as <-.
  destruct (Hsold eq_refl) as (Hp' & _ & Hq & Hpu & Hre).
  exists p'. repeat split; assumption.
Defined.

(** C1, as stated, fails on a product that does not track its quantity:
    Alice checks out two pens and two downloads; the checkout answers 201
    and the download, although a line of quantity 2 refers to it, is
    stored as before: its inventory quantity is not decreased and its
    purchases and revenue are not increased. *)
Lemma checkout_skips_untracked_product :
  status (fst (checkout (envAt 1000%Z) (Token alice) checkoutReq
                 withPensAndEbooks)) = 201%nat
  /\ (fun c => ci_product <$> cart_items c) <$> carts withPensAndEbooks !! 0%N
     = Some [1%N; 2%N]
  /\ products withPensAndEbooks !! 2%N = Some ebook
  /\ products (snd (checkout (envAt 1000%Z) (Token alice) checkoutReq
                      withPensAndEbooks)) !! 2%N = Some ebook
  /\ ~ inv_quantity (prod_inventory ebook)
       == inv_quantity (prod_inventory ebook) - 2
  /\ ~ an_purchases (prod_analytics ebook)
       == an_purchases (prod_analytics ebook) + 2.
Proof. repeat split; try (vm_compute; reflexivity); discriminate. Qed.

(** C7, as the code has it.  The lines of the order stored by a checkout
    that answers 201 copy, one for one and in order, product, unit price,
    quantity and line total of the lines of the cart: the price of the
    product in the catalog does not enter them.  A checkout request that
    carries a shipping address and a payment method, for a user whose cart
    is missing or has no line, fails with [EmptyCart] and leaves the store
    as it is. *)
Theorem checkout_copies_cart_lines (env : Env) (u : JWTPayload)
    (body : CheckoutBody) (s : Store) :
  (status (fst (checkout env (Token u) body s)) = 201%nat ->
   exists cid cart oid o,
     findCart (ByUser (userId u)) (carts s) = Some (cid, cart)
     /\ data (fst (checkout env (Token u) body s)) = OrderData (oid, o)
     /\ orders s !! oid = None
     /\ orders (snd (checkout env (Token u) body s)) !! oid = Some o
     /\ Forall2 sameLine (cart_items cart) (order_items o))
  /\ (is_Some (co_shippingAddress body) ->
      truthy_str (co_paymentMethod body) = true ->
      (forall cid cart, findCart (ByUser (userId u)) (carts s) = Some (cid, cart) ->
                        cart_items cart = []) ->
      EmptyCart (fst (checkout env (Token u) body s))
      /\ snd (checkout env (Token u) body s) = s).
Proof.
  split.
  - destruct (checkout env (Token u) body s) as [r s'] eqn:E. simpl. intros Hr.
    destruct (checkout_success env u body s s' r E Hr)
      as (cid & cart & o & Hcart & Hav & Hitems & _ & _ & _ & _ & Hfresh
          & -> & Ho & _ & _).
    exists cid, cart, (fresh (dom (orders s))), o.
    split; [exact Hcart |]. split; [reflexivity |]. split; [exact Hfresh |].
    split; [rewrite Ho; apply lookup_insert_eq |].
    rewrite Hitems. apply orderItemsOf_available, Hav.
  - intros [a Ha] Hpay Hempty.
    assert (E : checkout env (Token u) body s
                = (json 400 false "Cart is empty" NoData, s)).
    { unfold checkout, authenticateJWT, try_catch, or_null.
      rewrite Ha, Hpay. destruct (co_paymentMethod body) as [m |]; [| discriminate].
      cbv zeta. unfold bind at 1. unfold Cart_findOne at 1.
      destruct (findCart (ByUser (userId u)) (carts s)) as [[cid cart] |] eqn:Hc.
      - cbn [fst snd]. rewrite (Hempty cid cart eq_refl). reflexivity.
      - reflexivity. }
    rewrite E. split; [split |]; reflexivity.
Qed.

Lemma checkout_copies_cart_lines_witness :
  status (fst (checkout (envAt 1000%Z) (Token alice) checkoutReq penAt30))
  = 201%nat
  /\ (exists o,
        orders (snd (checkout (envAt 1000%Z) (Token alice) checkoutReq penAt30))
        !! 0%N = Some o
        /\ Forall2 sameLine
             [{| ci_product := 1%N; ci_quantity := 2; ci_price := 20;
                 ci_total := 2 * 20 |}] (order_items o))
  /\ EmptyCart (fst (checkout (envAt 1000%Z) (Token alice) checkoutReq catalog)).
Proof.
  assert (Hr : status (fst (checkout (envAt 1000%Z) (Token alice) checkoutReq
                              penAt30)) = 201%nat) by (vm_compute; reflexivity).
  split; [exact Hr |]. split.
  - destruct (checkout_copies_cart_lines (envAt 1000%Z) alice checkoutReq penAt30)
      as [H _].
    destruct (H Hr) as (cid & cart & oid & o & Hcart & Hdata & _ & Ho & Hlines).
    vm_compute in Hcart. injection Hcart as <- <-.
    assert (Hoid : oid = 0%N).
    { destruct (fst (checkout (envAt 1000%Z) (Token alice) checkoutReq penAt30))
        as [st su m d] eqn:E.
      assert (Hd : match d with OrderData (i, _) => i = 0%N | _ => True end).
      { assert (Ed : d = data (fst (checkout (envAt 1000%Z) (Token alice)
                                      checkoutReq penAt30)))
          by (rewrite E; reflexivity).
        rewrite Ed. vm_compute. reflexivity. }
      simpl in Hdata. rewrite Hdata in Hd. exact Hd. }
    subst oid. exists o. split; [exact Ho | exact Hlines].
  - destruct (checkout_copies_cart_lines (envAt 1000%Z) alice checkoutReq catalog)
      as [_ H].
    apply H.
    + eexists. reflexivity.
    + reflexivity.
    + intros cid cart Hc. vm_compute in Hc. discriminate.
Defined.

(** C7, as stated, fails on a request that lacks the shipping address and
    the payment method: Alice has no cart, and the checkout fails with the
    validation message, not with [EmptyCart]. *)
Lemma checkout_without_address_is_not_EmptyCart :
  findCart (ByUser (userId alice)) (carts catalog) = None
  /\ fst (checkout (envAt 1000%Z) (Token alice) bareCheckoutReq catalog)
     = json 400 false "Shipping address and payment method are required" NoData
  /\ ~ EmptyCart (fst (checkout (envAt 1000%Z) (Token alice) bareCheckoutReq
                         catalog)).
Proof.
  split; [vm_compute; reflexivity |]. split; [reflexivity |].
  intros [_ H]. discriminate H.
Qed.

(** ** Order life cycle: cancel *)

Lemma cancel_illegal (env : Env) (u : JWTPayload) (oid : ObjectId) (s : Store)
    (o : Order) :
  orders s !! oid = Some o ->
  order_user o = userId u ->
  order_orderStatus o ∉ [Pending; Confirmed] ->
  cancel env (Token u) oid s
  = (json 400 false "Order cannot be cancelled at this stage" NoData, s).
Proof.
  intros Ho Hu Hst. unfold cancel, authenticateJWT, try_catch, bind, Order_findOne.
  rewrite Ho. rewrite (bool_decide_eq_true_2 _ Hu). cbn [fst snd].
  rewrite (bool_decide_eq_false_2 _ Hst). reflexivity.
Qed.

(** A cancel that answers 200: the order it found and the writes. *)
Lemma cancel_success (env : Env) (u : JWTPayload) (oid : ObjectId)
    (s s' : Store) (r : Response) :
  cancel env (Token u) oid s = (r, s') ->
  status r = 200%nat ->
  exists o,
    orders s !! oid = Some o
    /\ order_user o = userId u
    /\ order_orderStatus o ∈ [Pending; Confirmed]
    /\ orders s' = <[oid := savedOrder env false (with_orderStatus Cancelled o)]>
                     (orders s)
    /\ carts s' = carts s
    /\ products s'
       = adjustProducts restock (orderLine <$> order_items o) (products s).
Proof.
  intros H Hr. unfold cancel, authenticateJWT, try_catch in H.
  unfold bind at 1 in H. unfold Order_findOne at 1 in H.
  destruct (orders s !! oid) as [o |] eqn:Ho;
    [| simpl in H; injection H as <- <-; discriminate].
  destruct (bool_decide (order_user o = userId u)) eqn:Hu;
    [| simpl in H; injection H as <- <-; discriminate].
  apply bool_decide_eq_true in Hu. cbn [fst snd] in H.
  destruct (bool_decide (order_orderStatus o ∈ [Pending; Confirmed])) eqn:Hst;
    [| simpl in H; injection H as <- <-; discriminate].
  apply bool_decide_eq_true in Hst. cbn [negb] in H.
  unfold bind at 1 in H. unfold Order_save at 1 in H. cbn [fst snd] in H.
  rewrite bool_decide_eq_false_2 in H by congruence.
  destruct (validOrder (with_orderStatus Cancelled o)) eqn:Hv;
    [| injection H as <- <-; discriminate].
  unfold bind at 1 in H. cbn [fst snd] in H.
  match type of H with
  | context [for_of ?l restockLine ?x] =>
    destruct (for_of l restockLine x) as [out s3] eqn:E3
  end.
  destruct (restock_loop _ _ _ _ E3) as (Hc3 & Ho3 & Hreply3 & Hnext3).
  destruct out as [[] | r3 | e3];
    [| destruct (Hreply3 r3 eq_refl) | injection H as <- <-; discriminate].
  specialize (Hnext3 eq_refl). simpl in Hc3, Ho3, Hnext3.
  unfold ret in H. injection H as <- <-.
  exists o. repeat split; assumption.
Qed.





Lemma shifted_eq (a b c a' b' c' : Q) (p p' : Product) :
  a == a' -> b == b' -> c == c' -> shifted a b c p p' -> shifted a' b' c' p p'.
Proof.
  intros Ha Hb Hc (H1 & H2 & H3 & H4 & H5 & H6 & H7 & H8 & H9).
  repeat split; try assumption.
  - rewrite H7, Ha. reflexivity.
  - rewrite H8, Hb. reflexivity.
  - rewrite H9, Hc. reflexivity.
Qed.

Lemma shifted_sell (a b c q t : Q) (p p' : Product) :
  shifted a b c p p' -> shifted (a - q) (b + q) (c + t) p (sell q t p').
Proof.
  intros (H1 & H2 & H3 & H4 & H5 & H6 & H7 & H8 & H9).
  repeat split; simpl; try assumption.
  - rewrite H7. ring.
  - rewrite H8. ring.
  - rewrite H9. ring.
Qed.


Lemma applyLines_cons (f : Q -> Q -> Product -> Product) (pid pid' : ObjectId)
    (q t : Q) (lines : list Line) (p : Product) :
  applyLines f pid ((pid', q, t) :: lines) p
  = applyLines f pid lines (if decide (pid' = pid) then f q t p else p).
Proof. reflexivity. Qed.

Lemma shifted_applyLines_sell (pid : ObjectId) (lines : list Line)
    (a b c : Q) (p p' : Product) :
  shifted a b c p p' ->
  shifted (a - quantityOf pid lines) (b + quantityOf pid lines)
          (c + revenueOf pid lines) p (applyLines sell pid lines p').
Proof.
  revert a b c p'. induction lines as [| [[pid' q] t] lines IH]; intros a b c p' H.
  - simpl. apply (shifted_eq a b c); try ring. exact H.
  - rewrite applyLines_cons. simpl. destruct (decide (pid' = pid)).
    + apply (shifted_eq (a - q - quantityOf pid lines)
                        (b + q + quantityOf pid lines)
                        (c + t + revenueOf pid lines)); try ring.
      apply IH, shifted_sell, H.
    + apply IH, H.
Qed.


Lemma sameProduct_refl (p : Product) : sameProduct p p.
Proof. repeat split; ring. Qed.



Lemma validStore_catalog : validStore catalog.
Proof.
  split; [| split]; simpl.
  - intros id p H.
    apply lookup_insert_Some in H as [[_ <-] | [_ H]]; [reflexivity |].
    apply lookup_insert_Some in H as [[_ <-] | [_ H]]; [reflexivity |].
    rewrite lookup_empty in H. discriminate.
  - intros id c H. rewrite lookup_empty in H. discriminate.
  - intros id o H. rewrite lookup_empty in H. discriminate.
Qed.



(** ** One line per product *)

Lemma alter_products (f : CartItem -> CartItem) (i : nat) (l : list CartItem) :
  (forall it, ci_product (f it) = ci_product it) ->
  ci_product <$> alter f i l = ci_product <$> l.
Proof.
  intros Hf. revert i. induction l as [| a l IH]; intros [| i]; simpl; auto.
  - rewrite Hf. reflexivity.
  - f_equal. apply IH.
Qed.

Lemma findIndex_None_products (pid : ObjectId) (l : list CartItem) :
  findIndex (fun item => N.eqb (ci_product item) pid) l = None ->
  pid ∉ ci_product <$> l.
Proof.
  intros H Hin. apply list_elem_of_fmap in Hin as (it & -> & Hit).
  pose proof (findIndex_None _ _ H it Hit) as E. simpl in E.
  rewrite N.eqb_refl in E. discriminate.
Qed.

Lemma NoDup_products_snoc (l : list CartItem) (it : CartItem) :
  NoDup (ci_product <$> l) -> ci_product it ∉ ci_product <$> l ->
  NoDup (ci_product <$> l ++ [it]).
Proof.
  intros Hnd Hnot. rewrite fmap_app. apply NoDup_app. split; [exact Hnd |].
  split; [| simpl; apply NoDup_singleton].
  intros x Hx Hx'. simpl in Hx'. apply list_elem_of_singleton in Hx'. subst.
  contradiction.
Qed.

Lemma NoDup_products_filter (P : CartItem -> Prop) `{!forall x, Decision (P x)}
    (l : list CartItem) :
  NoDup (ci_product <$> l) -> NoDup (ci_product <$> filter P l).
Proof.
  induction l as [| a l IH]; simpl; [auto |].
  rewrite NoDup_cons. intros [Hnot Hnd]. rewrite filter_cons.
  destruct (decide (P a)); [| auto].
  rewrite fmap_cons. apply NoDup_cons. split; [| auto].
  intros Hin. apply Hnot.
  apply list_elem_of_fmap in Hin as (it & -> & Hit).
  apply list_elem_of_fmap. exists it. split; [reflexivity |].
  apply list_elem_of_filter in Hit. tauto.
Qed.

Lemma mergeItem_NoDup (items : list CartItem) (sessionItem : CartItem) :
  NoDup (ci_product <$> items) ->
  NoDup (ci_product <$> mergeItem items sessionItem).
Proof.
  intros Hnd. unfold mergeItem.
  destruct (findIndex _ items) as [i |] eqn:E.
  - rewrite alter_products by reflexivity. exact Hnd.
  - apply NoDup_products_snoc; [exact Hnd |].
    apply findIndex_None_products, E.
Qed.

Lemma fold_mergeItem_NoDup (sessionItems items : list CartItem) :
  NoDup (ci_product <$> items) ->
  NoDup (ci_product <$> fold_left mergeItem sessionItems items).
Proof.
  revert items. induction sessionItems as [| it l IH]; intros items H; simpl.
  - exact H.
  - apply IH, mergeItem_NoDup, H.
Qed.

Lemma distinctLines_save (s : Store) (id : ObjectId) (c : Cart) :
  distinctLines s -> NoDup (ci_product <$> cart_items c) ->
  distinctLines (set_carts <[id := cartPreSave c]> s).
Proof.
  intros Hs Hc id' c' H. simpl in H.
  destruct (decide (id = id')) as [-> | Hne].
  - rewrite lookup_insert_eq in H. injection H as <-. exact Hc.
  - rewrite lookup_insert_ne in H by done. eauto.
Qed.

Lemma distinctLines_shrink (s s' : Store) :
  carts_shrink s s' -> distinctLines s -> distinctLines s'.
Proof. intros Hsh Hs id c H. eauto. Qed.

#[export] Instance carts_shrink_preorder : PreOrder carts_shrink.
Proof.
  split.
  - intros s id c H. exact H.
  - intros s1 s2 s3 H12 H23 id c H. auto.
Qed.

Lemma carts_shrink_delete (s : Store) (id : ObjectId) :
  carts_shrink s (set_carts (delete id) s).
Proof. intros id' c H. simpl in H. apply lookup_delete_Some in H. tauto. Qed.

Ltac carts_shrink_tac :=
  repeat first
    [ stable_step
    | stable_apply stable_Product_save; intros ? ? ? ? Hlookup; exact Hlookup
    | stable_apply stable_Order_save; intros ? ? ? ? ? Hlookup; exact Hlookup
    | stable_apply stable_Cart_findOneAndDelete; intros; apply carts_shrink_delete ].

Lemma findCart_distinct (q : CartQuery) (s : Store) (d : Doc Cart) :
  distinctLines s -> findCart q (carts s) = Some d ->
  NoDup (ci_product <$> cart_items (snd d)).
Proof. intros Hs H. apply findCart_Some in H as [H _]. eauto. Qed.

(** Every request keeps the lines of every cart on distinct products: a
    product that is added twice is summed into its line. *)
Lemma handle_keeps_distinct_lines (env : Env) (req : Request) (s s' : Store)
    (r : Response) :
  handle env req s = (r, s') -> distinctLines s -> distinctLines s'.
Proof.
  intros H Hs. destruct req; simpl in H.
  - unfold cart_add in H. run_handler H; try assumption;
      apply distinctLines_save; try assumption; simpl.
    + rewrite alter_products by reflexivity.
      eapply findCart_distinct; eassumption.
    + apply NoDup_products_snoc.
      * eapply findCart_distinct; eassumption.
      * simpl. apply findIndex_None_products. assumption.
    + apply NoDup_singleton.
  - unfold cart_update in H. run_handler H; try assumption.
    apply distinctLines_save; [assumption |]. simpl.
    rewrite alter_products by reflexivity.
    eapply findCart_distinct; eassumption.
  - unfold cart_remove in H. run_handler H; try assumption.
    apply distinctLines_save; [assumption |]. simpl.
    apply NoDup_products_filter. eapply findCart_distinct; eassumption.
  - unfold cart_clear in H. run_handler H; try assumption.
    apply distinctLines_save; [assumption |]. simpl. constructor.
  - unfold cart_merge in H. run_handler H; try assumption;
      try (eapply distinctLines_shrink; [apply carts_shrink_delete |]);
      apply distinctLines_save; try assumption; simpl;
      try (apply fold_mergeItem_NoDup);
      try (eapply findCart_distinct; eassumption).
  - revert Hs. apply distinctLines_shrink. revert H. unfold checkout.
    stable_apply stable_authenticateJWT. intros u.
    stable_apply stable_try_catch. carts_shrink_tac.
  - revert Hs. apply distinctLines_shrink. revert H. unfold cancel.
    stable_apply stable_authenticateJWT. intros u.
    stable_apply stable_try_catch. carts_shrink_tac.
  - revert Hs. apply distinctLines_shrink. revert H. unfold admin_status.
    stable_apply stable_authenticateJWT. intros u.
    stable_apply stable_try_catch. carts_shrink_tac.
  - revert Hs. apply distinctLines_shrink. revert H. unfold create_payment_intent.
    stable_apply stable_authenticateJWT. intros u.
    stable_apply stable_try_catch. carts_shrink_tac.
  - revert Hs. apply distinctLines_shrink. revert H. unfold confirm_payment.
    stable_apply stable_authenticateJWT. intros u.
    stable_apply stable_try_catch. carts_shrink_tac.
  - revert Hs. apply distinctLines_shrink. revert H. unfold refund.
    stable_apply stable_authenticateJWT. intros u.
    stable_apply stable_try_catch. carts_shrink_tac.
  - revert Hs. apply distinctLines_shrink. revert H. unfold webhook.
    stable_apply stable_try_catch. carts_shrink_tac.
Qed.

(** Checkout on any cart, also one with several lines on a product: a
    product that tracks its quantity loses the summed quantity of its
    lines and gains it in purchases, and gains their summed totals in
    revenue; a product that does not track its quantity is stored as it
    was. *)
Lemma checkout_sells_all_lines (env : Env) (u : JWTPayload)
    (body : CheckoutBody) (s s' : Store) (r : Response) (cid : ObjectId)
    (cart : Cart) (pid : ObjectId) (p : Product) :
  checkout env (Token u) body s = (r, s') ->
  status r = 201%nat ->
  findCart (ByUser (userId u)) (carts s) = Some (cid, cart) ->
  products s !! pid = Some p ->
  exists p',
    products s' !! pid = Some p'
    /\ (inv_trackQuantity (prod_inventory p) = false -> p' = p)
    /\ (inv_trackQuantity (prod_inventory p) = true ->
        shifted (0 - quantityOf pid (cartLine <$> cart_items cart))
                (0 + quantityOf pid (cartLine <$> cart_items cart))
                (0 + revenueOf pid (cartLine <$> cart_items cart)) p p').
Proof.
  intros E Hr Hcart Hp.
  destruct (checkout_success env u body s s' r E Hr)
    as (cid' & cart' & o & Hcart' & _ & _ & _ & _ & _ & _ & _ & _ & _ & _ & Hps).
  rewrite Hcart in Hcart'. injection Hcart' as <- <-.
  rewrite Hps, (adjustProducts_lookup sell _ _ _ sell_track), Hp. simpl.
  eexists. split; [reflexivity |].
  destruct (inv_trackQuantity (prod_inventory p)); split; try discriminate.
  - intros _. apply shifted_applyLines_sell, sameProduct_refl.
  - reflexivity.
Qed.

(** * Further properties of the routes *)

(** ** Invariants of the store *)

(** X1. Every request takes a store whose products, carts and orders all
    pass the validation of their schemas to such a store: no route stores
    a negative quantity, price or total, a line of quantity below one, or
    an order without address or with an unknown payment method. *)
Theorem every_request_keeps_documents_valid (env : Env) (req : Request)
    (s : Store) :
  validStore s -> validStore (snd (handle env req s)).
Proof.
  apply (handle_keeps_valid env req s _ (fst (handle env req s))).
  apply surjective_pairing.
Qed.

Lemma every_request_keeps_documents_valid_witness :
  validStore catalog
  /\ validStore (snd (handle (envAt 1000%Z) (Checkout (Token alice) checkoutReq)
                        withPens)).
Proof.
  split; [exact validStore_catalog |].
  apply every_request_keeps_documents_valid.
  apply (every_request_keeps_documents_valid (envAt 1000%Z)
           (CartAdd (Token alice) (addReq 1%N 2)) catalog).
  exact validStore_catalog.
Defined.

Lemma distinctLines_catalog : distinctLines catalog.
Proof. intros id c H. simpl in H. rewrite lookup_empty in H. discriminate. Qed.



(** ** What a route never writes *)

#[export] Instance only_carts_written_preorder : PreOrder only_carts_written.
Proof.
  split.
  - intros s. split; reflexivity.
  - intros s1 s2 s3 [Hp Ho] [Hp' Ho']. split; congruence.
Qed.

Ltac only_carts_tac :=
  repeat first
    [ stable_step
    | stable_apply stable_Cart_save; intros; split; reflexivity
    | stable_apply stable_Cart_findOneAndDelete; intros; split; reflexivity ].

(** X3. The cart routes (add, update, remove, clear, merge) write carts
    only, whatever their outcome: putting a product in a cart reserves no
    stock and changes no product and no order. *)
Theorem cart_requests_write_carts_only (env : Env) (req : Request) (s : Store) :
  isCartRequest req = true ->
  products (snd (handle env req s)) = products s
  /\ orders (snd (handle env req s)) = orders s.
Proof.
  intros Hreq.
  assert (H : only_carts_written s (snd (handle env req s))).
  { destruct (handle env req s) as [r s'] eqn:E. simpl.
    revert E. destruct req; try discriminate; simpl.
    - unfold cart_add. stable_apply stable_try_catch. only_carts_tac.
    - unfold cart_update. stable_apply stable_try_catch. only_carts_tac.
    - unfold cart_remove. stable_apply stable_try_catch. only_carts_tac.
    - unfold cart_clear. stable_apply stable_try_catch. only_carts_tac.
    - unfold cart_merge. stable_apply stable_authenticateJWT. intros u.
      stable_apply stable_try_catch. only_carts_tac. }
  exact H.
Qed.

Lemma cart_requests_write_carts_only_witness :
  inv_quantity <$> (prod_inventory <$> products withPens !! 1%N) = Some 5.
Proof.
  destruct (cart_requests_write_carts_only (envAt 1000%Z)
              (CartAdd (Token alice) (addReq 1%N 2)) catalog eq_refl) as [Hp _].
  unfold withPens. simpl in Hp. rewrite Hp. vm_compute. reflexivity.
Defined.

(** X4. The admin status route, create-payment-intent, confirm-payment and
    the webhook write orders only, whatever their outcome; cancel writes no
    cart. *)
Theorem payment_requests_write_orders_only (env : Env) (req : Request)
    (s : Store) :
  (isPaymentRequest req = true ->
   products (snd (handle env req s)) = products s
   /\ carts (snd (handle env req s)) = carts s)
  /\ (forall auth orderId, req = Cancel auth orderId ->
      carts (snd (handle env req s)) = carts s).
Proof.
  split.
  - intros Hreq.
    assert (H : only_orders_written s (snd (handle env req s))).
    { destruct (handle env req s) as [r s'] eqn:E. simpl.
      revert E. destruct req; try discriminate; simpl.
      - unfold admin_status. stable_apply stable_authenticateJWT. intros u.
        stable_apply stable_try_catch. only_orders_tac.
      - unfold create_payment_intent. stable_apply stable_authenticateJWT.
        intros u. stable_apply stable_try_catch. only_orders_tac.
      - unfold confirm_payment. stable_apply stable_authenticateJWT. intros u.
        stable_apply stable_try_catch. only_orders_tac.
      - apply webhook_only_orders. }
    exact H.
  - intros auth orderId ->. simpl.
    destruct (cancel env auth orderId s) as [r s'] eqn:E. simpl.
    destruct auth as [| | u]; simpl in E; try (injection E as <- <-; reflexivity).
    unfold try_catch in E.
    destruct (Order_findOne orderId (userId u) s) as [out s1] eqn:E1.
    unfold bind at 1 in E. rewrite E1 in E.
    unfold Order_findOne in E1. injection E1 as <- <-.
    destruct (orders s !! orderId) as [o |];
      [| simpl in E; injection E as <- <-; reflexivity].
    destruct (bool_decide (order_user o = userId u));
      [| simpl in E; injection E as <- <-; reflexivity].
    cbn [fst snd] in E.
    destruct (negb _); [simpl in E; injection E as <- <-; reflexivity |].
    unfold bind at 1 in E. unfold Order_save at 1 in E. cbn [fst snd] in E.
    destruct (validOrder _); [| injection E as <- <-; reflexivity].
    unfold bind at 1 in E. cbn [fst snd] in E.
    match type of E with
    | context [for_of ?l restockLine ?x] =>
      destruct (for_of l restockLine x) as [out s3] eqn:E3
    end.
    destruct (restock_loop _ _ _ _ E3) as (Hc3 & _).
    destruct out; injection E as <- <-; exact Hc3.
Qed.

Lemma payment_requests_write_orders_only_witness :
  products paidOnce = products ordered /\ carts paidOnce = carts ordered.
Proof.
  apply (payment_requests_write_orders_only (envAt 1500%Z)
           (Webhook "evt_1" "sig_1") ordered).
  reflexivity.
Defined.

(** X5. A request to a route behind [authenticateJWT] that carries no
    valid token is answered 401 and writes nothing; a status update by a
    user whose role is not [admin] is answered 403 and writes nothing. *)
Theorem protected_routes_reject_strangers (env : Env) (req : Request)
    (s : Store) (auth : Auth) :
  tokenOf req = Some auth ->
  ((forall u, auth <> Token u) ->
   status (fst (handle env req s)) = 401%nat /\ snd (handle env req s) = s)
  /\ (forall u orderId body,
        req = AdminStatus (Token u) orderId body -> role u <> "admin" ->
        status (fst (handle env req s)) = 403%nat /\ snd (handle env req s) = s).
Proof.
  intros Htok. split.
  - intros Hno.
    destruct req; simpl in Htok; try discriminate; injection Htok as ->;
      (destruct auth as [| | u];
       [split; reflexivity | split; reflexivity | destruct (Hno u eq_refl)]).
  - intros u orderId body -> Hrole. simpl.
    unfold admin_status, authenticateJWT, try_catch.
    apply String.eqb_neq in Hrole. rewrite Hrole. simpl. split; reflexivity.
Qed.

Lemma protected_routes_reject_strangers_witness :
  status (fst (handle (envAt 1000%Z) (Checkout NoToken checkoutReq) withPens))
  = 401%nat
  /\ status (fst (handle (envAt 1000%Z)
                    (AdminStatus (Token alice) 0%N
                       {| st_orderStatus := Some "delivered";
                          st_paymentStatus := None;
                          st_trackingNumber := None;
                          st_estimatedDelivery := None |}) ordered))
     = 403%nat.
Proof.
  split.
  - apply (protected_routes_reject_strangers (envAt 1000%Z)
             (Checkout NoToken checkoutReq) withPens NoToken eq_refl).
    intros u. discriminate.
  - apply (protected_routes_reject_strangers (envAt 1000%Z)
             (AdminStatus (Token alice) 0%N
                {| st_orderStatus := Some "delivered";
                   st_paymentStatus := None;
                   st_trackingNumber := None;
                   st_estimatedDelivery := None |}) ordered
             (Token alice) eq_refl) with (u := alice) (orderId := 0%N)
        (body := {| st_orderStatus := Some "delivered";
                    st_paymentStatus := None;
                    st_trackingNumber := None;
                    st_estimatedDelivery := None |}).
    + reflexivity.
    + discriminate.
Defined.

(** ** Cart lines: add, remove, clear *)

Lemma findIndex_products_None (pid : ObjectId) (l : list CartItem) :
  pid ∉ ci_product <$> l ->
  findIndex (fun item => N.eqb (ci_product item) pid) l = None.
Proof.
  induction l as [| a l IH]; simpl; [reflexivity |].
  rewrite not_elem_of_cons. intros [Hne Hnot].
  destruct (N.eqb_spec (ci_product a) pid) as [E | _]; [congruence |].
  rewrite (IH Hnot). reflexivity.
Qed.

(** X6. A successful add of a product that has no line in the cart
    appends one line at the end of the cart and leaves the other lines as
    they are; the line carries the requested quantity, as unit price the
    sale price of the product if it has a non-zero one and else the
    regular price, and as total their product.  When the identity has no
    cart, a cart with that single line is created for the user and the
    session of the request. *)
Theorem add_appends_new_line (auth : Auth) (body : AddBody) (s : Store)
    (productId : ObjectId) (product : Product) :
  status (fst (cart_add auth body s)) = 201%nat ->
  add_productId body = Some productId ->
  products s !! productId = Some product ->
  let query := cartQuery (userId <$> optionalAuth auth)
                         (or_null (add_sessionId body)) in
  let line := {| ci_product := productId;
                 ci_quantity := default 1 (add_quantity body);
                 ci_price := itemPriceOf product;
                 ci_total := default 1 (add_quantity body) * itemPriceOf product |} in
  (forall cid cart,
     findCart query (carts s) = Some (cid, cart) ->
     productId ∉ ci_product <$> cart_items cart ->
     cart_items <$> carts (snd (cart_add auth body s)) !! cid
     = Some (cart_items cart ++ [line]))
  /\ (findCart query (carts s) = None ->
      carts (snd (cart_add auth body s)) !! fresh (dom (carts s))
      = Some (cartPreSave {| cart_sessionId := or_null (add_sessionId body);
                             cart_user := userId <$> optionalAuth auth;
                             cart_items := [line];
                             cart_totals := zeroTotals |})).
Proof.
  intros Hr Hid Hp. cbv zeta.
  destruct (cart_add auth body s) as [r s'] eqn:E. simpl in *.
  unfold cart_add in E. rewrite Hid in E. run_handler E;
    rewrite Hp in *; simplify_eq/=.
  - split; [| congruence].
    intros cid cart Hc Hnot. simplify_eq. cbn [fst snd] in *.
    match goal with
    | H : findIndex _ _ = Some _ |- _ =>
      rewrite (findIndex_products_None _ _ Hnot) in H; discriminate
    end.
  - split; [| congruence].
    intros cid cart Hc Hnot. simplify_eq. cbn [fst snd] in *.
    rewrite lookup_insert_eq. reflexivity.
  - split; [congruence |]. intros _. rewrite lookup_insert_eq. reflexivity.
Qed.

Lemma add_appends_new_line_witness :
  cart_items <$> carts withPensAndEbooks !! 0%N
  = Some [{| ci_product := 1%N; ci_quantity := 2; ci_price := 20;
             ci_total := 2 * 20 |};
          {| ci_product := 2%N; ci_quantity := 2; ci_price := itemPriceOf ebook;
             ci_total := 2 * itemPriceOf ebook |}].
Proof.
  assert (Hr : status (fst (cart_add (Token alice) (addReq 2%N 2) withPens))
               = 201%nat) by (vm_compute; reflexivity).
  destruct (add_appends_new_line (Token alice) (addReq 2%N 2) withPens 2%N ebook
              Hr eq_refl) as [H _]; [vm_compute; reflexivity |].
  unfold withPensAndEbooks.
  apply (H 0%N {| cart_sessionId := None; cart_user := Some 7%N;
                  cart_items := [{| ci_product := 1%N; ci_quantity := 2;
                                    ci_price := 20; ci_total := 2 * 20 |}];
                  cart_totals := totalsOf [2 * 20] |}).
  - vm_compute. reflexivity.
  - simpl. intros Hin. apply list_elem_of_singleton in Hin. discriminate.
Defined.

(** X7. An add of a quantity below one for a product that has no line in
    the cart passes the inventory check but fails the validation of the
    cart ([quantity] has [min: 1]): the answer is 500 and nothing is
    written. *)
Theorem add_rejects_quantity_below_one (auth : Auth) (body : AddBody)
    (s : Store) (productId : ObjectId) (product : Product) :
  add_productId body = Some productId ->
  hasIdentity auth (add_sessionId body) ->
  products s !! productId = Some product ->
  default 1 (add_quantity body) < 1 ->
  insufficient product (default 1 (add_quantity body)) = false ->
  (forall cid cart,
     findCart (cartQuery (userId <$> optionalAuth auth)
                         (or_null (add_sessionId body))) (carts s)
     = Some (cid, cart) ->
     productId ∉ ci_product <$> cart_items cart) ->
  status (fst (cart_add auth body s)) = 500%nat
  /\ snd (cart_add auth body s) = s.
Proof.
  intros Hid Hwho Hp Hq Hins Hnot. apply identity_check in Hwho.
  assert (Hline : forall price,
             validCartItem {| ci_product := productId;
                              ci_quantity := default 1 (add_quantity body);
                              ci_price := price;
                              ci_total := default 1 (add_quantity body) * price |}
             = false).
  { intros price. unfold validCartItem, min_ok. simpl.
    rewrite (proj2 (Qle_bool_false _ _) Hq). reflexivity. }
  destruct (cart_add auth body s) as [r s'] eqn:E. simpl.
  unfold cart_add in E. rewrite Hid in E. run_handler E;
    rewrite Hp in *; simplify_eq/=; try (split; reflexivity);
    try congruence; exfalso.
  - match goal with
    | Hc : findCart _ _ = Some ?d, Hi : findIndex _ _ = Some _ |- _ =>
      destruct d as [cid cart]; cbn [fst snd] in Hi;
      rewrite (findIndex_products_None _ _ (Hnot cid cart eq_refl)) in Hi;
      discriminate
    end.
  - match goal with
    | Hv : validCart _ = true |- _ =>
      unfold validCart in Hv; simpl in Hv;
      rewrite forallb_app in Hv; simpl in Hv; rewrite Hline in Hv;
      rewrite !andb_false_r in Hv; discriminate
    end.
  - match goal with
    | Hv : validCart _ = true |- _ =>
      unfold validCart in Hv; simpl in Hv; rewrite Hline in Hv; discriminate
    end.
Qed.

Lemma add_rejects_quantity_below_one_witness :
  status (fst (cart_add (Token alice) (addReq 1%N 0) catalog)) = 500%nat
  /\ snd (cart_add (Token alice) (addReq 1%N 0) catalog) = catalog.
Proof.
  apply (add_rejects_quantity_below_one (Token alice) (addReq 1%N 0) catalog
           1%N pen); try reflexivity.
  - left. exists alice. reflexivity.
  - intros cid cart Hc. vm_compute in Hc. discriminate.
Defined.



(** X9. A successful clear stores the cart with no line, and with the
    totals that the pre-save hook computes from no line, not the zero
    totals that the handler assigns: subtotal and tax zero, shipping 10,
    total 10. *)
Theorem clear_stores_shipping_of_empty_cart (auth : Auth)
    (sessionId : option string) (s : Store) :
  status (fst (cart_clear auth sessionId s)) = 200%nat ->
  exists cid cart,
    findCart (cartQuery (userId <$> optionalAuth auth) (or_null sessionId))
             (carts s) = Some (cid, cart)
    /\ carts (snd (cart_clear auth sessionId s)) !! cid
       = Some {| cart_sessionId := cart_sessionId cart;
                 cart_user := cart_user cart;
                 cart_items := [];
                 cart_totals := totalsOf [] |}
    /\ subtotal (totalsOf []) == 0 /\ tax (totalsOf []) == 0
    /\ shipping (totalsOf []) == 10 /\ total (totalsOf []) == 10.
Proof.
  destruct (cart_clear auth sessionId s) as [r s'] eqn:E. cbn [fst snd].
  intros Hr.
  unfold cart_clear in E. run_handler E.
  match goal with
  | Hc : findCart _ _ = Some ?d |- _ => destruct d as [cid cart]
  end.
  exists cid, cart. split; [reflexivity |].
  split; [cbn [fst snd]; rewrite lookup_insert_eq; reflexivity |].
  repeat split; vm_compute; reflexivity.
Qed.

Lemma clear_stores_shipping_of_empty_cart_witness :
  (fun c => total (cart_totals c))
  <$> carts (snd (cart_clear (Token alice) None withPens)) !! 0%N
  = Some (total (totalsOf [])).
Proof.
  assert (Hr : status (fst (cart_clear (Token alice) None withPens)) = 200%nat)
    by (vm_compute; reflexivity).
  destruct (clear_stores_shipping_of_empty_cart _ _ _ Hr)
    as (cid & cart & Hc & Hs & _).
  vm_compute in Hc. injection Hc as <- <-.
  exact (f_equal (fmap (fun c => total (cart_totals c))) Hs).
Defined.

(** X10. A cart request that is not answered with [success: true] writes
    nothing: add, update, remove, clear and merge either succeed or leave
    the store as it is.  A merge that finds no session cart, or an empty
    one, is answered 200 and writes nothing either. *)
Theorem failed_cart_requests_write_nothing (env : Env) (req : Request)
    (s : Store) :
  isCartRequest req = true ->
  (success (fst (handle env req s)) = false -> snd (handle env req s) = s)
  /\ (forall u sessionId,
        req = CartMerge (Token u) sessionId ->
        (forall sid cid cart,
           or_null sessionId = Some sid ->
           findCart (BySession sid) (carts s) = Some (cid, cart) ->
           cart_items cart = []) ->
        status (fst (handle env req s)) = 200%nat
        /\ snd (handle env req s) = s).
Proof.
  intros Hreq. split.
  - destruct (handle env req s) as [r s'] eqn:E. simpl. intros Hr.
    destruct req; try discriminate; simpl in E.
    + unfold cart_add in E. run_handler E; reflexivity.
    + unfold cart_update in E. run_handler E; reflexivity.
    + unfold cart_remove in E. run_handler E; reflexivity.
    + unfold cart_clear in E. run_handler E; reflexivity.
    + unfold cart_merge in E. run_handler E; reflexivity.
  - intros u sessionId -> Hempty.
    change (handle env (CartMerge (Token u) sessionId) s)
      with (cart_merge (Token u) sessionId s).
    destruct (cart_merge (Token u) sessionId s) as [r s'] eqn:E. cbn [fst snd].
    unfold cart_merge in E. run_handler E; try (split; reflexivity); exfalso.
    all:
      match goal with
      | Hn : bool_decide (cart_items (snd ?d) = []) = false,
        Hc : findCart (BySession _) _ = Some ?d |- _ =>
        apply bool_decide_eq_false in Hn; apply Hn;
        destruct d as [cid cart]; exact (Hempty _ cid cart eq_refl Hc)
      end.
Qed.

Lemma failed_cart_requests_write_nothing_witness :
  snd (handle (envAt 1000%Z) (CartAdd (Token alice) (addReq 1%N 6)) withPens)
  = withPens
  /\ snd (handle (envAt 1000%Z) (CartMerge (Token alice) (Some "guest")) withPens)
     = withPens.
Proof.
  split.
  - apply (failed_cart_requests_write_nothing (envAt 1000%Z)
             (CartAdd (Token alice) (addReq 1%N 6)) withPens eq_refl).
    vm_compute. reflexivity.
  - eapply (failed_cart_requests_write_nothing (envAt 1000%Z)
              (CartMerge (Token alice) (Some "guest")) withPens eq_refl).
    + reflexivity.
    + intros sid cid cart Hs Hc. injection Hs as <-.
      vm_compute in Hc. discriminate.
Defined.

(** ** Merging the session cart into the user cart *)

Lemma quantityOf_app (pid : ObjectId) (l1 l2 : list Line) :
  quantityOf pid (l1 ++ l2) == quantityOf pid l1 + quantityOf pid l2.
Proof.
  induction l1 as [| [[pid' q] t] l1 IH]; simpl.
  - ring.
  - destruct (decide (pid' = pid)); rewrite IH; ring.
Qed.

Lemma quantityOf_cons (pid : ObjectId) (item : CartItem) (l : list CartItem) :
  quantityOf pid (cartLine <$> item :: l)
  = (if decide (ci_product item = pid)
     then ci_quantity item + quantityOf pid (cartLine <$> l)
     else quantityOf pid (cartLine <$> l)).
Proof. reflexivity. Qed.

Lemma quantityOf_alter_found (pid pid' : ObjectId) (q : Q)
    (f : CartItem -> CartItem) (items : list CartItem) (i : nat) :
  (forall it, ci_product (f it) = ci_product it) ->
  (forall it, ci_quantity (f it) = ci_quantity it + q) ->
  findIndex (fun item => N.eqb (ci_product item) pid') items = Some i ->
  quantityOf pid (cartLine <$> alter f i items)
  == quantityOf pid (cartLine <$> items) + (if decide (pid' = pid) then q else 0).
Proof.
  intros Hp Hq. revert i. induction items as [| a l IH]; intros i.
  - discriminate.
  - cbn [findIndex]. destruct (N.eqb_spec (ci_product a) pid') as [E | Hne].
    + intros [= <-]. change (alter f 0%nat (a :: l)) with (f a :: l).
      rewrite !quantityOf_cons, Hp, Hq, E.
      destruct (decide (pid' = pid)); ring.
    + destruct (findIndex _ l) as [k |] eqn:Hk; [| discriminate].
      intros [= <-]. change (alter f (S k) (a :: l)) with (a :: alter f k l).
      rewrite !quantityOf_cons.
      destruct (decide (ci_product a = pid)) as [Ea | _].
      * rewrite (IH k eq_refl). ring.
      * apply (IH k eq_refl).
Qed.

Lemma quantityOf_mergeItem (pid : ObjectId) (items : list CartItem)
    (sessionItem : CartItem) :
  quantityOf pid (cartLine <$> mergeItem items sessionItem)
  == quantityOf pid (cartLine <$> items)
     + quantityOf pid (cartLine <$> [sessionItem]).
Proof.
  unfold mergeItem.
  destruct (findIndex _ items) as [i |] eqn:E.
  - rewrite (quantityOf_alter_found pid (ci_product sessionItem)
               (ci_quantity sessionItem) _ items i) by (auto; reflexivity).
    simpl. destruct (decide (ci_product sessionItem = pid)); ring.
  - rewrite fmap_app, quantityOf_app. reflexivity.
Qed.

Lemma quantityOf_fold_mergeItem (pid : ObjectId)
    (sessionItems items : list CartItem) :
  quantityOf pid (cartLine <$> fold_left mergeItem sessionItems items)
  == quantityOf pid (cartLine <$> items)
     + quantityOf pid (cartLine <$> sessionItems).
Proof.
  revert items. induction sessionItems as [| it l IH]; intros items.
  - simpl. ring.
  - change (fold_left mergeItem (it :: l) items)
      with (fold_left mergeItem l (mergeItem items it)).
    rewrite IH, quantityOf_mergeItem.
    change (it :: l) with ([it] ++ l). rewrite (fmap_app _ [it] l), quantityOf_app.
    ring.
Qed.

Lemma findCart_matches_session (sid : string) (m : gmap ObjectId Cart)
    (d : Doc Cart) :
  findCart (BySession sid) m = Some d -> cart_sessionId (snd d) = Some sid.
Proof.
  intros H. apply findCart_Some in H as [_ H]. simpl in H.
  apply bool_decide_eq_true in H. exact H.
Qed.

(** X11. A merge that answers 'Carts merged successfully' into the cart
    of the user, a cart that is not itself a cart of the session, stores
    the user cart with, for every product, the quantity of the user cart
    plus the quantity of the session cart, and its owner unchanged; when
    the user has no cart, a cart with the lines of the session cart is
    created for the user.  When the session has one cart only, no cart of
    the session is stored afterwards. *)
Theorem merge_sums_quantities (u : JWTPayload) (sessionId : option string)
    (s : Store) :
  message (fst (cart_merge (Token u) sessionId s))
  = Text "Carts merged successfully" ->
  exists sid scid scart,
    or_null sessionId = Some sid
    /\ findCart (BySession sid) (carts s) = Some (scid, scart)
    /\ (forall ucid ucart,
          findCart (ByUser (userId u)) (carts s) = Some (ucid, ucart) ->
          cart_sessionId ucart <> Some sid ->
          exists merged,
            carts (snd (cart_merge (Token u) sessionId s)) !! ucid = Some merged
            /\ cart_user merged = cart_user ucart
            /\ forall pid,
                 quantityOf pid (cartLine <$> cart_items merged)
                 == quantityOf pid (cartLine <$> cart_items ucart)
                    + quantityOf pid (cartLine <$> cart_items scart))
    /\ (findCart (ByUser (userId u)) (carts s) = None ->
        carts (snd (cart_merge (Token u) sessionId s)) !! fresh (dom (carts s))
        = Some (cartPreSave {| cart_sessionId := None;
                               cart_user := Some (userId u);
                               cart_items := cart_items scart;
                               cart_totals := cart_totals scart |}))
    /\ ((forall id c, carts s !! id = Some c -> cart_sessionId c = Some sid ->
                      id = scid) ->
        (forall ucid ucart,
           findCart (ByUser (userId u)) (carts s) = Some (ucid, ucart) ->
           cart_sessionId ucart <> Some sid) ->
        forall id c,
          carts (snd (cart_merge (Token u) sessionId s)) !! id = Some c ->
          cart_sessionId c <> Some sid).
Proof.
  destruct (cart_merge (Token u) sessionId s) as [r s'] eqn:E. cbn [fst snd].
  intros Hm. unfold cart_merge in E. run_handler E;
    match goal with
    | Hs : findCart (BySession ?sid) (carts ?s0) = Some _,
      Hd : findCart (BySession ?sid) (insert _ _ _) = _ |- _ =>
      rename Hs into Hses; rename Hd into Hdel
    end;
    match goal with
    | Hu : findCart (ByUser _) _ = _ |- _ => rename Hu into Husr
    end;
    match type of Hses with
    | _ = Some ?d => destruct d as [scid scart]
    end;
    match type of Hses with
    | findCart (BySession ?sid) _ = _ => exists sid, scid, scart
    end;
    match type of Husr with
    | _ = Some ?d => destruct d as [ucid ucart]
    | _ => idtac
    end;
    match type of Hdel with
    | _ = Some ?d => destruct d as [did dcart]
    | _ => idtac
    end;
    cbn [fst snd] in *;
    (split; [reflexivity |]); (split; [exact Hses |]).
  - (* the user has a cart; a cart of the session is deleted *)
    pose proof (findCart_matches_session _ _ _ Hdel) as Hdm.
    apply findCart_Some in Hdel as [Hdl _]. cbn [fst snd] in Hdl, Hdm.
    assert (Hdu : cart_sessionId ucart <> Some s0 -> did <> ucid).
    { intros Hne ->. rewrite lookup_insert_eq in Hdl. injection Hdl as <-.
      simpl in Hdm. contradiction. }
    split; [| split].
    + intros ucid' ucart' [= <- <-] Hne.
      eexists. split; [| split].
      * rewrite lookup_delete_ne by exact (Hdu Hne). apply lookup_insert_eq.
      * reflexivity.
      * intros pid. simpl. apply quantityOf_fold_mergeItem.
    + congruence.
    + intros Huniq Hne id c Hid Hc.
      specialize (Hne ucid ucart eq_refl). specialize (Hdu Hne).
      apply lookup_delete_Some in Hid as [Hneq Hid].
      destruct (decide (id = ucid)) as [-> | Hnu].
      * rewrite lookup_insert_eq in Hid. injection Hid as <-. simpl in Hc.
        contradiction.
      * rewrite lookup_insert_ne in Hid by done.
        rewrite lookup_insert_ne in Hdl by done.
        pose proof (Huniq _ _ Hid Hc). pose proof (Huniq _ _ Hdl Hdm).
        congruence.
  - (* the user has no cart; a cart of the session is deleted *)
    pose proof (findCart_matches_session _ _ _ Hdel) as Hdm.
    apply findCart_Some in Hdel as [Hdl _]. cbn [fst snd] in Hdl, Hdm.
    assert (Hdu : did <> fresh (dom (carts s1))).
    { intros ->. rewrite lookup_insert_eq in Hdl. injection Hdl as <-.
      discriminate. }
    split; [| split].
    + congruence.
    + intros _. rewrite lookup_delete_ne by exact Hdu. apply lookup_insert_eq.
    + intros Huniq _ id c Hid Hc.
      apply lookup_delete_Some in Hid as [Hneq Hid].
      destruct (decide (id = fresh (dom (carts s1)))) as [-> | Hnu].
      * rewrite lookup_insert_eq in Hid. injection Hid as <-. discriminate.
      * rewrite lookup_insert_ne in Hid by done.
        rewrite lookup_insert_ne in Hdl by done.
        pose proof (Huniq _ _ Hid Hc). pose proof (Huniq _ _ Hdl Hdm).
        congruence.
  - (* the user has a cart; no cart of the session is found after the save *)
    split; [| split].
    + intros ucid' ucart' [= <- <-] Hne.
      eexists. split; [apply lookup_insert_eq |]. split; [reflexivity |].
      intros pid. simpl. apply quantityOf_fold_mergeItem.
    + congruence.
    + intros _ _ id c Hid Hc.
      rewrite findCart_None in Hdel. specialize (Hdel _ _ Hid). simpl in Hdel.
      apply bool_decide_eq_false in Hdel. contradiction.
  - (* the user has no cart; no cart of the session is found after the save *)
    split; [| split].
    + congruence.
    + intros _. apply lookup_insert_eq.
    + intros _ _ id c Hid Hc.
      rewrite findCart_None in Hdel. specialize (Hdel _ _ Hid). simpl in Hdel.
      apply bool_decide_eq_false in Hdel. contradiction.
Qed.


Lemma merge_sums_quantities_witness :
  exists merged,
    carts (snd (cart_merge (Token alice) (Some "guest") withGuestCart)) !! 0%N
    = Some merged
    /\ quantityOf 1%N (cartLine <$> cart_items merged) == 3.
Proof.
  assert (Hm : message (fst (cart_merge (Token alice) (Some "guest")
                               withGuestCart))
               = Text "Carts merged successfully")
    by (vm_compute; reflexivity).
  destruct (merge_sums_quantities alice (Some "guest") withGuestCart Hm)
    as (sid & scid & scart & Hsid & Hs & Hu & _).
  injection Hsid as <-.
  vm_compute in Hs. injection Hs as <- <-.
  edestruct Hu as (merged & Hl & _ & Hq).
  - vm_compute. reflexivity.
  - intros Hc. vm_compute in Hc. discriminate.
  - exists merged. split; [exact Hl |]. rewrite (Hq 1%N). vm_compute. reflexivity.
Defined.

(** ** Checkout, case by case *)

Lemma validProduct_sell (q t : Q) (p : Product) :
  validProduct p = true -> q <= inv_quantity (prod_inventory p) ->
  validProduct (sell q t p) = true.
Proof.
  unfold validProduct, min_ok. simpl. rewrite !andb_true_iff, !Qle_bool_iff.
  intros (((((H1 & H2) & H3) & H4) & H5) & H6) Hq.
  repeat split; try assumption. lra.
Qed.

Lemma insufficient_false (p : Product) (q : Q) :
  insufficient p q = false -> inv_trackQuantity (prod_inventory p) = true ->
  q <= inv_quantity (prod_inventory p).
Proof.
  unfold insufficient, Qlt_bool. intros H Ht. rewrite Ht in H. simpl in H.
  apply negb_false_iff in H. apply Qle_bool_iff in H. exact H.
Qed.

(** On valid products the third loop of checkout runs to its end when the
    lines are on distinct products, each in sufficient stock. *)
Lemma sell_loop_total (items : list CartItem) (s : Store) :
  (forall id p, products s !! id = Some p -> validProduct p = true) ->
  NoDup (ci_product <$> items) ->
  Forall (available (products s)) items ->
  exists s', for_of items sellLine s = (Next tt, s').
Proof.
  revert s. induction items as [| item items IH]; intros s Hvalid Hnd Hav; simpl.
  - exists s. reflexivity.
  - inversion Hav as [| ? ? (p & Hp & Hact & Hins) Hav']; subst.
    rewrite fmap_cons in Hnd. apply NoDup_cons in Hnd as [Hnotin Hnd].
    unfold bind at 1. unfold sellLine at 1.
    unfold bind, Product_findById, Product_save, ret. simpl.
    rewrite Hp. simpl.
    destruct (inv_trackQuantity (prod_inventory p)) eqn:Htrack;
      [| apply IH; assumption].
    pose proof (validProduct_sell (ci_quantity item) (ci_total item) p
                  (Hvalid _ _ Hp) (insufficient_false _ _ Hins Htrack)) as Hv.
    rewrite Hv. apply IH; [| assumption |].
    + simpl. intros id p' H.
      destruct (decide (ci_product item = id)) as [<- | Hne].
      * rewrite lookup_insert_eq in H. injection H as <-. exact Hv.
      * rewrite lookup_insert_ne in H by done. eauto.
    + simpl. apply Forall_forall. intros it Hit.
      rewrite Forall_forall in Hav'. destruct (Hav' _ Hit) as (p' & Hp' & Hrest).
      exists p'. split; [| exact Hrest].
      rewrite lookup_insert_ne; [exact Hp' |].
      intros Heq. apply Hnotin. rewrite Heq.
      apply list_elem_of_fmap. exists it. split; [reflexivity | exact Hit].
Qed.

(** The four ways a checkout with a valid token ends: rejected before any
    write; the order created; the order refused by its validation; the
    order saved and a product refused by its validation in the third
    loop. *)
Lemma checkout_outcomes (env : Env) (u : JWTPayload) (body : CheckoutBody)
    (s s' : Store) (r : Response) :
  checkout env (Token u) body s = (r, s') ->
  (status r = 400%nat /\ s' = s)
  \/ (status r = 201%nat
      /\ exists cid cart o,
           findCart (ByUser (userId u)) (carts s) = Some (cid, cart)
           /\ Forall (available (products s)) (cart_items cart)
           /\ orders s' = <[fresh (dom (orders s)) := o]> (orders s)
           /\ carts s' = delete cid (carts s)
           /\ order_user o = userId u
           /\ order_orderNumber o
              = Some {| on_timestamp := now env; on_random := random env |}
           /\ order_orderStatus o = Pending
           /\ order_paymentStatus o = PayPending
           /\ order_paymentIntentId o = None
           /\ order_paidAt o = None
           /\ order_totals o = totalsOf (oi_total <$> order_items o))
  \/ (status r = 500%nat /\ s' = s
      /\ exists cid cart,
           findCart (ByUser (userId u)) (carts s) = Some (cid, cart)
           /\ Forall (available (products s)) (cart_items cart))
  \/ (status r = 500%nat
      /\ exists cid cart o e,
           findCart (ByUser (userId u)) (carts s) = Some (cid, cart)
           /\ Forall (available (products s)) (cart_items cart)
           /\ for_of (cart_items cart) sellLine
                (set_orders <[fresh (dom (orders s)) := o]> s)
              = (Throw e, s')).
Proof.
  intros H. unfold checkout, authenticateJWT, try_catch in H.
  destruct (co_shippingAddress body) as [shippingAddress |] eqn:Hship;
    [| simpl in H; injection H as <- <-; left; split; reflexivity].
  destruct (or_null (co_paymentMethod body)) as [paymentMethod |] eqn:Hpay;
    [| simpl in H; injection H as <- <-; left; split; reflexivity].
  cbv zeta in H. unfold bind at 1 in H. unfold Cart_findOne at 1 in H.
  destruct (findCart (ByUser (userId u)) (carts s)) as [[cid cart] |] eqn:Hcart;
    [| simpl in H; injection H as <- <-; left; split; reflexivity].
  cbn [fst snd] in H.
  destruct (bool_decide (cart_items cart = [])) eqn:Hne;
    [simpl in H; injection H as <- <-; left; split; reflexivity |].
  unfold bind at 1 in H.
  destruct (for_of (cart_items cart) verifyLine s) as [out1 s1] eqn:E1.
  destruct (verify_loop _ _ _ _ E1) as (-> & Hthrow1 & Hnext1 & Hreply1).
  destruct out1 as [[] | r1 | e1];
    [| injection H as <- <-; left; split; [exact (Hreply1 _ eq_refl) | reflexivity]
     | destruct (Hthrow1 e1 eq_refl)].
  specialize (Hnext1 eq_refl).
  unfold bind at 1 in H. rewrite snapshot_loop in H. simpl app in H.
  unfold bind at 1 in H. unfold Order_new at 1 in H.
  unfold bind at 1 in H. unfold Order_save at 1 in H. cbn [fst snd] in H.
  assert (Hfresh : orders s !! fresh (dom (orders s)) = None)
    by (apply not_elem_of_dom, is_fresh).
  rewrite (bool_decide_eq_true_2 _ Hfresh) in H.
  match type of H with
  | context [validOrder ?x] => set (o0 := x) in *
  end.
  destruct (validOrder o0) eqn:Hv.
  2: { injection H as <- <-. right; right; left.
       split; [reflexivity |]. split; [reflexivity |].
       exists cid, cart. split; [reflexivity | exact Hnext1]. }
  unfold bind at 1 in H.
  match type of H with
  | context [for_of (cart_items cart) sellLine ?x] =>
    destruct (for_of (cart_items cart) sellLine x) as [out3 s3] eqn:E3
  end.
  destruct (sell_loop _ _ _ _ E3) as (Hc3 & Ho3 & Hreply3 & Hnext3).
  destruct out3 as [[] | r3 | e3]; [| destruct (Hreply3 r3 eq_refl) |].
  - unfold bind at 1 in H. unfold Cart_findOneAndDelete at 1 in H.
    simpl in Hc3, Ho3. rewrite Hc3, Hcart in H.
    unfold bind, Order_findById, ret in H. simpl in H.
    rewrite Ho3, lookup_insert_eq in H. simpl in H. injection H as <- <-.
    right; left. split; [reflexivity |].
    exists cid, cart, (savedOrder env true o0).
    split; [reflexivity |]. split; [exact Hnext1 |].
    split; [simpl; exact Ho3 |].
    split; [simpl; rewrite Hc3; reflexivity |].
    unfold savedOrder. rewrite orderTotalsPreSave_totalsOf.
    repeat split; reflexivity.
  - injection H as <- <-. right; right; right. split; [reflexivity |].
    exists cid, cart, (savedOrder env true o0), e3.
    split; [reflexivity |]. split; [exact Hnext1 | exact E3].
Qed.

(** X12. A checkout answered with 400 or 401 (no or a bad token, address
    or payment method missing, no cart or an empty one, a product missing,
    inactive or short of stock) has written nothing. *)
Theorem checkout_rejected_writes_nothing (env : Env) (auth : Auth)
    (body : CheckoutBody) (s : Store) :
  status (fst (checkout env auth body s)) = 400%nat
  \/ status (fst (checkout env auth body s)) = 401%nat ->
  snd (checkout env auth body s) = s.
Proof.
  destruct auth as [| | u]; try reflexivity.
  destruct (checkout env (Token u) body s) as [r s'] eqn:E. cbn [fst snd].
  intros Hst.
  destruct (checkout_outcomes _ _ _ _ _ _ E)
    as [[_ Hs] | [[Hr _] | [[Hr _] | [Hr _]]]];
    [exact Hs | | |]; rewrite Hr in Hst; destruct Hst; discriminate.
Qed.

Lemma checkout_rejected_writes_nothing_witness :
  snd (checkout (envAt 1000%Z) (Token alice) bareCheckoutReq withPens)
  = withPens.
Proof.
  apply checkout_rejected_writes_nothing. left. vm_compute. reflexivity.
Defined.

(** X13. In a store of valid documents whose carts have one line per
    product, a checkout either answers 201 or writes nothing: no order is
    left behind and no stock is taken by a checkout that fails. *)
Theorem checkout_is_all_or_nothing (env : Env) (auth : Auth)
    (body : CheckoutBody) (s : Store) :
  validStore s -> distinctLines s ->
  status (fst (checkout env auth body s)) <> 201%nat ->
  snd (checkout env auth body s) = s.
Proof.
  intros (Hvp & _ & _) Hdl.
  destruct auth as [| | u]; try reflexivity.
  destruct (checkout env (Token u) body s) as [r s'] eqn:E. cbn [fst snd].
  intros Hst.
  destruct (checkout_outcomes _ _ _ _ _ _ E)
    as [[_ Hs] | [[Hr _] | [(_ & Hs & _) | [_ Hd]]]];
    [exact Hs | contradiction | exact Hs |].
  destruct Hd as (cid & cart & o & e & Hcart & Hav & Hloop).
  apply findCart_Some in Hcart as [Hcart _]. cbn [fst snd] in Hcart.
  destruct (sell_loop_total (cart_items cart)
              (set_orders <[fresh (dom (orders s)) := o]> s))
    as [s3 Hs3]; [exact Hvp | exact (Hdl _ _ Hcart) | exact Hav |].
  rewrite Hs3 in Hloop. discriminate.
Qed.

Lemma validStore_withPens : validStore withPens.
Proof.
  apply (handle_keeps_valid (envAt 0%Z) (CartAdd (Token alice) (addReq 1%N 2))
           catalog withPens
           (fst (cart_add (Token alice) (addReq 1%N 2) catalog))).
  - unfold withPens. simpl. apply surjective_pairing.
  - apply validStore_catalog.
Qed.

Lemma distinctLines_withPens : distinctLines withPens.
Proof.
  apply (handle_keeps_distinct_lines (envAt 0%Z)
           (CartAdd (Token alice) (addReq 1%N 2)) catalog withPens
           (fst (cart_add (Token alice) (addReq 1%N 2) catalog))).
  - unfold withPens. simpl. apply surjective_pairing.
  - apply distinctLines_catalog.
Qed.

Lemma checkout_is_all_or_nothing_witness :
  status (fst (checkout (envAt 1000%Z) (Token alice) bitcoinCheckoutReq
                 withPens)) = 500%nat
  /\ snd (checkout (envAt 1000%Z) (Token alice) bitcoinCheckoutReq withPens)
     = withPens.
Proof.
  split; [vm_compute; reflexivity |].
  apply checkout_is_all_or_nothing.
  - exact validStore_withPens.
  - exact distinctLines_withPens.
  - vm_compute. discriminate.
Defined.

(** X14. A checkout answered with 201 has stored one new order, under an
    identifier no order had: it belongs to the user of the token, carries
    the number made of the time and the random text of the request, is
    pending with a pending payment, no payment intent and no payment date,
    and its totals are computed from its lines.  The cart of the user is
    deleted and the other orders are as before. *)
Theorem checkout_creates_pending_order (env : Env) (u : JWTPayload)
    (body : CheckoutBody) (s : Store) :
  status (fst (checkout env (Token u) body s)) = 201%nat ->
  exists cid cart o,
    findCart (ByUser (userId u)) (carts s) = Some (cid, cart)
    /\ orders s !! fresh (dom (orders s)) = None
    /\ orders (snd (checkout env (Token u) body s))
       = <[fresh (dom (orders s)) := o]> (orders s)
    /\ carts (snd (checkout env (Token u) body s)) = delete cid (carts s)
    /\ order_user o = userId u
    /\ order_orderNumber o
       = Some {| on_timestamp := now env; on_random := random env |}
    /\ order_orderStatus o = Pending
    /\ order_paymentStatus o = PayPending
    /\ order_paymentIntentId o = None
    /\ order_paidAt o = None
    /\ order_totals o = totalsOf (oi_total <$> order_items o).
Proof.
  destruct (checkout env (Token u) body s) as [r s'] eqn:E. cbn [fst snd].
  intros Hst.
  destruct (checkout_outcomes _ _ _ _ _ _ E)
    as [[Hr _] | [[_ Hd] | [[Hr _] | [Hr _]]]];
    try (rewrite Hr in Hst; discriminate).
  destruct Hd as (cid & cart & o & Hcart & _ & Ho & Hrest).
  exists cid, cart, o. split; [exact Hcart |].
  split; [apply not_elem_of_dom, is_fresh |]. split; [exact Ho | exact Hrest].
Qed.

Lemma checkout_creates_pending_order_witness :
  exists o,
    orders ordered !! 0%N = Some o
    /\ order_orderNumber o = Some {| on_timestamp := 1000; on_random := "K3ZQ" |}
    /\ order_paymentStatus o = PayPending
    /\ carts ordered = ∅.
Proof.
  assert (Hr : status (fst (checkout (envAt 1000%Z) (Token alice) checkoutReq
                              withPens)) = 201%nat)
    by (vm_compute; reflexivity).
  destruct (checkout_creates_pending_order _ _ _ _ Hr)
    as (cid & cart & o & Hcart & _ & Ho & Hc & _ & Hn & _ & Hp & _).
  exists o. fold ordered in Ho, Hc.
  split; [rewrite Ho; apply lookup_insert_eq |].
  split; [exact Hn |]. split; [exact Hp |].
  rewrite Hc. vm_compute in Hcart. injection Hcart as <- <-.
  vm_compute. reflexivity.
Defined.

(** ** Orders are kept *)

Lemma sameOrderIdentity_refl (o : Order) : sameOrderIdentity o o.
Proof. repeat split. Qed.

Ltac identity_tac :=
  unfold sameOrderIdentity, savedOrder, orderNumberPreSave;
  match goal with
  | H : orders ?s !! ?id = Some _ |- _ =>
    rewrite (bool_decide_eq_false_2 (orders s !! id = None)) by congruence
  end;
  cbn [andb]; repeat split; reflexivity.

Ltac found_tac :=
  repeat match goal with
         | H : pair ?id <$> ?m !! ?id = Some _ |- _ =>
           destruct (m !! id) eqn:?; simplify_eq/=
         end.

Ltac rewritten_tac :=
  found_tac;
  first
    [ left; reflexivity
    | right; do 3 eexists; (split; [eassumption |]);
      (split; [| simpl; reflexivity]); identity_tac ].

Lemma create_payment_intent_orders (env : Env) (auth : Auth)
    (orderId : option ObjectId) (s s' : Store) (r : Response) :
  create_payment_intent env auth orderId s = (r, s') -> order_rewritten s s'.
Proof.
  intros E. unfold create_payment_intent in E. run_handler E; rewritten_tac.
Qed.

Lemma confirm_payment_orders (env : Env) (auth : Auth)
    (orderId : option ObjectId) (paymentIntentId : option string)
    (s s' : Store) (r : Response) :
  confirm_payment env auth orderId paymentIntentId s = (r, s') ->
  order_rewritten s s'.
Proof.
  intros E. unfold confirm_payment in E. run_handler E; rewritten_tac.
Qed.

Lemma refund_orders (env : Env) (auth : Auth) (body : RefundBody)
    (s s' : Store) (r : Response) :
  refund env auth body s = (r, s') -> order_rewritten s s'.
Proof.
  intros E. unfold refund in E. run_handler E; rewritten_tac.
Qed.

Lemma webhook_orders (env : Env) (rawBody signature : string)
    (s s' : Store) (r : Response) :
  webhook env rawBody signature s = (r, s') -> order_rewritten s s'.
Proof.
  intros E. unfold webhook, onPaymentSucceeded, onPaymentFailed in E.
  run_handler E; rewritten_tac.
Qed.

Lemma admin_status_orders (env : Env) (auth : Auth) (orderId : ObjectId)
    (body : StatusBody) (s s' : Store) (r : Response) :
  admin_status env auth orderId body s = (r, s') -> order_rewritten s s'.
Proof.
  intros E. unfold admin_status, assignEnum in E.
  run_handler E; rewritten_tac.
Qed.

Lemma cancel_orders (env : Env) (auth : Auth) (orderId : ObjectId)
    (s s' : Store) (r : Response) :
  cancel env auth orderId s = (r, s') -> order_rewritten s s'.
Proof.
  intros E.
  destruct auth as [| | u]; simpl in E;
    try (injection E as <- <-; left; reflexivity).
  unfold try_catch in E.
  unfold bind at 1 in E. unfold Order_findOne at 1 in E.
  destruct (orders s !! orderId) as [o |] eqn:Ho;
    [| simpl in E; injection E as <- <-; left; reflexivity].
  destruct (bool_decide (order_user o = userId u));
    [| simpl in E; injection E as <- <-; left; reflexivity].
  cbn [fst snd] in E.
  destruct (negb _); [simpl in E; injection E as <- <-; left; reflexivity |].
  unfold bind at 1 in E. unfold Order_save at 1 in E. cbn [fst snd] in E.
  destruct (validOrder _); [| injection E as <- <-; left; reflexivity].
  unfold bind at 1 in E. cbn [fst snd] in E.
  match type of E with
  | context [for_of ?l restockLine ?x] =>
    destruct (for_of l restockLine x) as [out s3] eqn:E3
  end.
  destruct (restock_loop _ _ _ _ E3) as (_ & Ho3 & _).
  assert (Hs : s' = s3) by (destruct out; injection E as _ <-; reflexivity).
  subst s3. right. do 3 eexists. split; [exact Ho |].
  split; [| rewrite Ho3; simpl; reflexivity]. identity_tac.
Qed.

Lemma order_rewritten_kept (s s' : Store) :
  order_rewritten s s' -> orders_kept s s'.
Proof.
  intros [Heq | (id0 & o0 & o1 & Ho0 & Hid & Heq)] id o Ho; rewrite Heq.
  - exists o. split; [exact Ho | apply sameOrderIdentity_refl].
  - destruct (decide (id = id0)) as [-> | Hne].
    + rewrite lookup_insert_eq. exists o1. split; [reflexivity |]. congruence.
    + rewrite lookup_insert_ne by done.
      exists o. split; [exact Ho | apply sameOrderIdentity_refl].
Qed.

Lemma orders_kept_insert_fresh (s s' : Store) (o : Order) :
  orders s' = <[fresh (dom (orders s)) := o]> (orders s) -> orders_kept s s'.
Proof.
  intros Heq id o0 Ho. rewrite Heq.
  assert (Hne : fresh (dom (orders s)) <> id).
  { intros <-. apply (is_fresh (dom (orders s))). apply elem_of_dom. eauto. }
  rewrite lookup_insert_ne by exact Hne.
  exists o0. split; [exact Ho | apply sameOrderIdentity_refl].
Qed.

Lemma checkout_orders (env : Env) (auth : Auth) (body : CheckoutBody)
    (s s' : Store) (r : Response) :
  checkout env auth body s = (r, s') -> orders_kept s s'.
Proof.
  intros E.
  destruct auth as [| | u]; simpl in E;
    try (injection E as <- <-; apply order_rewritten_kept; left; reflexivity).
  destruct (checkout_outcomes _ _ _ _ _ _ E)
    as [[_ ->] | [[_ Hd] | [(_ & -> & _) | [_ Hd]]]];
    try (apply order_rewritten_kept; left; reflexivity).
  - destruct Hd as (cid & cart & o & _ & _ & Ho & _).
    exact (orders_kept_insert_fresh _ _ _ Ho).
  - destruct Hd as (cid & cart & o & e & _ & _ & Hloop).
    destruct (sell_loop _ _ _ _ Hloop) as (_ & Ho & _).
    exact (orders_kept_insert_fresh _ _ _ Ho).
Qed.

Lemma cart_routes_only_carts (env : Env) (req : Request) (s s' : Store)
    (r : Response) :
  isCartRequest req = true -> handle env req s = (r, s') ->
  only_carts_written s s'.
Proof.
  intros Hreq. destruct req; try discriminate; simpl.
  - unfold cart_add. stable_apply stable_try_catch. only_carts_tac.
  - unfold cart_update. stable_apply stable_try_catch. only_carts_tac.
  - unfold cart_remove. stable_apply stable_try_catch. only_carts_tac.
  - unfold cart_clear. stable_apply stable_try_catch. only_carts_tac.
  - unfold cart_merge. stable_apply stable_authenticateJWT. intros u.
    stable_apply stable_try_catch. only_carts_tac.
Qed.

Lemma handle_keeps_orders (env : Env) (req : Request) (s s' : Store)
    (r : Response) :
  handle env req s = (r, s') -> orders_kept s s'.
Proof.
  intros E.
  destruct (isCartRequest req) eqn:Hc.
  { destruct (cart_routes_only_carts _ _ _ _ _ Hc E) as [_ Ho].
    apply order_rewritten_kept. left. exact Ho. }
  destruct req; try discriminate; simpl in E.
  - exact (checkout_orders _ _ _ _ _ _ E).
  - exact (order_rewritten_kept _ _ (cancel_orders _ _ _ _ _ _ E)).
  - exact (order_rewritten_kept _ _ (admin_status_orders _ _ _ _ _ _ _ E)).
  - exact (order_rewritten_kept _ _ (create_payment_intent_orders _ _ _ _ _ _ E)).
  - exact (order_rewritten_kept _ _ (confirm_payment_orders _ _ _ _ _ _ _ E)).
  - exact (order_rewritten_kept _ _ (refund_orders _ _ _ _ _ _ E)).
  - exact (order_rewritten_kept _ _ (webhook_orders _ _ _ _ _ _ E)).
Qed.

(** X15. No request deletes an order, and no request changes the number,
    the user, the lines, the addresses, the payment method or the notes of
    a stored order: these are written by the checkout that creates the
    order and by nothing else. *)
Theorem orders_are_kept (env : Env) (req : Request) (s : Store)
    (id : ObjectId) (o : Order) :
  orders s !! id = Some o ->
  exists o',
    orders (snd (handle env req s)) !! id = Some o'
    /\ order_orderNumber o' = order_orderNumber o
    /\ order_user o' = order_user o
    /\ order_items o' = order_items o
    /\ order_shippingAddress o' = order_shippingAddress o
    /\ order_billingAddress o' = order_billingAddress o
    /\ order_paymentMethod o' = order_paymentMethod o
    /\ order_notes o' = order_notes o.
Proof.
  intros Ho. destruct (handle env req s) as [r s'] eqn:E. cbn [snd].
  exact (handle_keeps_orders _ _ _ _ _ E _ _ Ho).
Qed.

Lemma orders_are_kept_witness :
  exists o',
    orders (snd (handle (envAt 2000%Z) (Refund (Token alice) refundReq) paid))
      !! 0%N = Some o'
    /\ order_user o' = 7%N
    /\ order_orderNumber o'
       = Some {| on_timestamp := 1000; on_random := "K3ZQ" |}.
Proof.
  assert (Ho : exists o, orders paid !! 0%N = Some o
                         /\ order_user o = 7%N
                         /\ order_orderNumber o
                            = Some {| on_timestamp := 1000; on_random := "K3ZQ" |}).
  { eexists. split; [vm_compute; reflexivity |]. split; reflexivity. }
  destruct Ho as (o & Ho & Hu & Hn).
  destruct (orders_are_kept (envAt 2000%Z) (Refund (Token alice) refundReq)
              paid 0%N o Ho) as (o' & Ho' & Hn' & Hu' & _).
  exists o'. split; [exact Ho' |]. split; congruence.
Defined.

(** ** Who may act on an order *)

(** X16. An order is invisible to the users it does not belong to: their
    requests to cancel it, to create a payment intent for it or to confirm
    its payment are answered with 404 and write nothing. *)
Theorem orders_are_private (env : Env) (u : JWTPayload) (orderId : ObjectId)
    (s : Store) (o : Order) :
  orders s !! orderId = Some o ->
  order_user o <> userId u ->
  cancel env (Token u) orderId s
  = (json 404 false "Order not found" NoData, s)
  /\ create_payment_intent env (Token u) (Some orderId) s
     = (json 404 false "Order not found" NoData, s)
  /\ (forall intent,
        intent <> "" ->
        confirm_payment env (Token u) (Some orderId) (Some intent) s
        = (json 404 false "Order not found" NoData, s)).
Proof.
  intros Ho Hu. split; [| split].
  - unfold cancel, authenticateJWT, try_catch, bind, Order_findOne.
    rewrite Ho, (bool_decide_eq_false_2 _ Hu). reflexivity.
  - unfold create_payment_intent, authenticateJWT, try_catch, bind,
      Order_findOne.
    rewrite Ho, (bool_decide_eq_false_2 _ Hu). reflexivity.
  - intros intent Hi.
    unfold confirm_payment, authenticateJWT, try_catch, bind, Order_findOne,
      or_null.
    apply truthy_str_Some in Hi. rewrite Hi.
    rewrite Ho, (bool_decide_eq_false_2 _ Hu). reflexivity.
Qed.

(** X17. The refund route does not look at who asks: the response and the
    store after a refund are the same for every valid token, so any
    authenticated user can refund the paid order of any other user. *)
Theorem refund_ignores_requester (env : Env) (u u' : JWTPayload)
    (body : RefundBody) (s : Store) :
  refund env (Token u) body s = refund env (Token u') body s.
Proof.
  unfold refund, authenticateJWT, try_catch, bind, Order_findOne_refund.
  destruct (orders s !! rf_orderId body) as [o |]; [| reflexivity].
  rewrite !orb_true_r. reflexivity.
Qed.

Lemma orders_are_private_witness :
  cancel (envAt 2000%Z) (Token bob) 0%N ordered
  = (json 404 false "Order not found" NoData, ordered).
Proof.
  assert (Ho : exists o, orders ordered !! 0%N = Some o /\ order_user o = 7%N).
  { eexists. split; [vm_compute; reflexivity | reflexivity]. }
  destruct Ho as (o & Ho & Hu).
  apply (orders_are_private (envAt 2000%Z) bob 0%N ordered o Ho).
  rewrite Hu. discriminate.
Defined.

(** ** Cancelled and refunded orders *)

(** X18. An order is cancelled at most once: after a cancel answered with
    200, a second cancel of the same order by the same user is answered with
    400 and writes nothing, so that the stock is given back once. *)
Theorem cancel_twice_is_rejected (env env' : Env) (u : JWTPayload)
    (orderId : ObjectId) (s : Store) :
  status (fst (cancel env (Token u) orderId s)) = 200%nat ->
  cancel env' (Token u) orderId (snd (cancel env (Token u) orderId s))
  = (json 400 false "Order cannot be cancelled at this stage" NoData,
     snd (cancel env (Token u) orderId s)).
Proof.
  destruct (cancel env (Token u) orderId s) as [r s'] eqn:E. cbn [fst snd].
  intros Hr.
  destruct (cancel_success _ _ _ _ _ _ E Hr) as (o & Ho & Hu & _ & Ho' & _).
  destruct (savedOrder_fields env false (with_orderStatus Cancelled o))
    as (Hu' & _ & _ & Hst & _).
  apply (cancel_illegal env' u orderId s'
           (savedOrder env false (with_orderStatus Cancelled o))).
  - rewrite Ho'. apply lookup_insert_eq.
  - rewrite Hu'. exact Hu.
  - rewrite Hst. simpl. intros Hin.
    apply elem_of_cons in Hin as [Hin | Hin]; [discriminate |].
    apply elem_of_cons in Hin as [Hin | Hin]; [discriminate |].
    inversion Hin.
Qed.

Lemma cancel_twice_is_rejected_witness :
  status (fst (cancel (envAt 3000%Z) (Token alice) 0%N
                 (snd (cancel (envAt 2000%Z) (Token alice) 0%N ordered))))
  = 400%nat.
Proof.
  assert (Hr : status (fst (cancel (envAt 2000%Z) (Token alice) 0%N ordered))
               = 200%nat) by (vm_compute; reflexivity).
  rewrite (cancel_twice_is_rejected (envAt 2000%Z) (envAt 3000%Z) alice 0%N
             ordered Hr).
  reflexivity.
Defined.

(** X19. A refund is final: after a refund answered with 200, another
    refund of the order, by whoever asks, is answered with 400 'Order has
    not been paid', and a cancel by its owner with 400 'Order cannot be
    cancelled at this stage'; neither writes anything. *)
Theorem refund_is_final (env env' : Env) (u u' : JWTPayload)
    (body body' : RefundBody) (s : Store) :
  status (fst (refund env (Token u) body s)) = 200%nat ->
  rf_orderId body' = rf_orderId body ->
  refund env' (Token u') body' (snd (refund env (Token u) body s))
  = (json 400 false "Order has not been paid" NoData,
     snd (refund env (Token u) body s))
  /\ (forall o,
        orders s !! rf_orderId body = Some o ->
        order_user o = userId u' ->
        cancel env' (Token u') (rf_orderId body)
          (snd (refund env (Token u) body s))
        = (json 400 false "Order cannot be cancelled at this stage" NoData,
           snd (refund env (Token u) body s))).
Proof.
  destruct (refund env (Token u) body s) as [r s'] eqn:E. cbn [fst snd].
  intros Hr Hid.
  destruct (orders s !! rf_orderId body) as [o |] eqn:Ho.
  2: { exfalso. unfold refund, authenticateJWT, try_catch, bind,
         Order_findOne_refund in E.
       rewrite Ho in E. simpl in E. injection E as <- <-. discriminate. }
  destruct (refund_success _ _ _ _ _ _ _ Ho E Hr)
    as (_ & o' & Ho' & Hps & Hos & _).
  split.
  - apply (refund_not_paid env' u' body' s' o').
    + rewrite Hid. exact Ho'.
    + rewrite Hps. discriminate.
  - intros o0 [= <-] Hu.
    destruct (order_rewritten_kept _ _ (refund_orders _ _ _ _ _ _ E) _ _ Ho)
      as (o'' & Ho'' & _ & Hu'' & _).
    rewrite Ho' in Ho''. injection Ho'' as <-.
    apply (cancel_illegal env' u' (rf_orderId body) s' o' Ho').
    + congruence.
    + rewrite Hos. intros Hin.
      apply elem_of_cons in Hin as [Hin | Hin]; [discriminate |].
      apply elem_of_cons in Hin as [Hin | Hin]; [discriminate |].
      inversion Hin.
Qed.

Lemma refund_is_final_witness :
  status (fst (refund (envAt 3000%Z) (Token bob) refundReq
                 (snd (refund (envAt 2000%Z) (Token alice) refundReq paid))))
  = 400%nat.
Proof.
  assert (Hr : status (fst (refund (envAt 2000%Z) (Token alice) refundReq paid))
               = 200%nat) by (vm_compute; reflexivity).
  destruct (refund_is_final (envAt 2000%Z) (envAt 3000%Z) alice bob refundReq
              refundReq paid Hr eq_refl) as [H _].
  rewrite H. reflexivity.
Defined.

Lemma orderStatus_of_string_nonempty (name : string) (st : OrderStatus) :
  orderStatus_of_string name = Some st -> truthy_str (Some name) = true.
Proof.
  intros H. apply truthy_str_Some. intros ->. discriminate.
Qed.

Lemma orderStatus_of_string_delivered (name : string) (st : OrderStatus) :
  orderStatus_of_string name = Some st ->
  (name = "delivered" <-> st = Delivered).
Proof.
  unfold orderStatus_of_string.
  repeat match goal with
         | |- context [String.eqb name ?x] =>
           destruct (String.eqb_spec name x) as [-> | ?]
         end; intros [= <-]; split; try discriminate; try reflexivity;
    intros; congruence.
Qed.

(** ** The admin status route *)

(** X20. The admin status route checks no transition: for an admin, a
    stored valid order and any of the six status names, the order is saved
    with that status whatever its status was, its payment status is left
    as it is, and the delivery date is stamped exactly when the status is
    'delivered'. *)
Theorem admin_sets_any_status (env : Env) (u : JWTPayload)
    (orderId : ObjectId) (body : StatusBody) (s : Store) (o : Order)
    (name : string) (st : OrderStatus) :
  role u = "admin" ->
  orders s !! orderId = Some o ->
  validOrder o = true ->
  st_orderStatus body = Some name ->
  orderStatus_of_string name = Some st ->
  st_paymentStatus body = None ->
  exists o',
    status (fst (admin_status env (Token u) orderId body s)) = 200%nat
    /\ orders (snd (admin_status env (Token u) orderId body s)) !! orderId
       = Some o'
    /\ order_orderStatus o' = st
    /\ order_paymentStatus o' = order_paymentStatus o
    /\ (st = Delivered -> order_deliveredAt o' = Some (now env))
    /\ (st <> Delivered -> order_deliveredAt o' = order_deliveredAt o).
Proof.
  intros Hrole Ho Hv Hname Hst Hpay.
  pose proof (orderStatus_of_string_nonempty _ _ Hst) as Hne.
  pose proof (orderStatus_of_string_delivered _ _ Hst) as Hdel.
  destruct (admin_status env (Token u) orderId body s) as [r s'] eqn:E.
  cbn [fst snd].
  unfold admin_status, authenticateJWT, assignEnum in E.
  rewrite Hrole, Hname, Hpay, Hne in E. simpl default in E. rewrite Hst in E.
  run_handler E.
  all: found_tac.
  all: try match goal with
           | H : validOrder ?x = false |- _ =>
             rewrite (validOrder_ext o x) in H by reflexivity; congruence
           end.
  all: try congruence.
  all: try match goal with
           | H : pair ?i <$> ?m !! ?i = None, H' : ?m !! ?i = Some _ |- _ =>
             rewrite H' in H; discriminate
           end.
  all: eexists; (split; [reflexivity |]); (split; [apply lookup_insert_eq |]);
    unfold savedOrder, orderNumberPreSave; destruct (_ && _); simpl;
    (split; [reflexivity |]); (split; [reflexivity |]).
  all: match goal with
       | H : bool_decide (Some _ = Some _) = true |- _ =>
         apply bool_decide_eq_true in H; injection H as H;
         apply Hdel in H; split; [reflexivity | contradiction]
       | H : bool_decide (Some _ = Some _) = false |- _ =>
         apply bool_decide_eq_false in H; split; [| reflexivity];
         intros Hd; apply Hdel in Hd; congruence
       end.
Qed.

Lemma admin_sets_any_status_witness :
  exists o',
    orders (snd (admin_status (envAt 3000%Z) (Token admin) 0%N
                   (statusReq "delivered") cancelled)) !! 0%N = Some o'
    /\ order_orderStatus o' = Delivered
    /\ order_deliveredAt o' = Some 3000%Z.
Proof.
  assert (Ho : exists o, orders cancelled !! 0%N = Some o
                         /\ validOrder o = true).
  { eexists. split; [vm_compute; reflexivity | vm_compute; reflexivity]. }
  destruct Ho as (o & Ho & Hv).
  destruct (admin_sets_any_status (envAt 3000%Z) admin 0%N
              (statusReq "delivered") cancelled o "delivered" Delivered
              eq_refl Ho Hv eq_refl eq_refl eq_refl)
    as (o' & _ & Ho' & Hst & _ & Hd & _).
  exists o'. split; [exact Ho' |]. split; [exact Hst | exact (Hd eq_refl)].
Defined.

(** X21. A status name outside the enumeration is refused by the
    validation of the order: the admin gets 500 and nothing is written. *)
Theorem admin_rejects_unknown_status (env : Env) (u : JWTPayload)
    (orderId : ObjectId) (body : StatusBody) (s : Store) (o : Order)
    (name : string) :
  role u = "admin" ->
  orders s !! orderId = Some o ->
  st_orderStatus body = Some name ->
  name <> "" ->
  orderStatus_of_string name = None ->
  admin_status env (Token u) orderId body s
  = (json 500 false "Error updating order"
          (ErrorData (ValidationFailed "Order")), s).
Proof.
  intros Hrole Ho Hname Hne Hst. apply truthy_str_Some in Hne.
  unfold admin_status, authenticateJWT, try_catch. rewrite Hrole.
  change (negb ("admin" =? "admin")%string) with false. cbv iota.
  unfold assignEnum, bind, Order_findById. rewrite Ho. cbn [fmap option_fmap option_map fst snd].
  rewrite Hname, Hne. simpl. rewrite Hst. reflexivity.
Qed.

Lemma admin_rejects_unknown_status_witness :
  admin_status (envAt 3000%Z) (Token admin) 0%N (statusReq "lost") ordered
  = (json 500 false "Error updating order"
          (ErrorData (ValidationFailed "Order")), ordered).
Proof.
  assert (Ho : exists o, orders ordered !! 0%N = Some o).
  { eexists. vm_compute. reflexivity. }
  destruct Ho as (o & Ho).
  apply (admin_rejects_unknown_status (envAt 3000%Z) admin 0%N
           (statusReq "lost") ordered o "lost" eq_refl Ho eq_refl).
  - discriminate.
  - reflexivity.
Defined.

(** ** The webhook *)

(** X22. A 'payment_intent.payment_failed' event marks the payment of its
    order failed whatever the order was, paid and refunded orders
    included, and leaves the order status and the payment date as they
    are. *)
Theorem failed_event_marks_any_order_failed (env : Env)
    (rawBody signature : string) (s : Store) (ev : StripeEvent)
    (oid : ObjectId) (o : Order) :
  handleStripeWebhook env rawBody signature = StripeOk ev ->
  ev_type ev = "payment_intent.payment_failed" ->
  pi_metadata_orderId (ev_object ev) = Some oid ->
  orders s !! oid = Some o ->
  validOrder o = true ->
  exists o',
    fst (webhook env rawBody signature s)
    = {| status := 200; success := true; message := Received; data := NoData |}
    /\ orders (snd (webhook env rawBody signature s)) !! oid = Some o'
    /\ order_paymentStatus o' = Failed
    /\ order_orderStatus o' = order_orderStatus o
    /\ order_paidAt o' = order_paidAt o.
Proof.
  intros Hev Hty Hid Ho Hv.
  assert (Hv' : validOrder (with_paymentStatus Failed o) = true)
    by (rewrite <- Hv; apply validOrder_ext; reflexivity).
  destruct (webhook env rawBody signature s) as [r s'] eqn:H. cbn [fst snd].
  unfold webhook, try_catch, bind in H. rewrite Hev, Hty in H. simpl in H.
  unfold onPaymentFailed, bind, Order_findById, Order_save in H.
  rewrite Hid in H. simpl in H. rewrite Ho in H. simpl in H.
  rewrite Hv' in H. simpl in H. injection H as <- <-.
  eexists. split; [reflexivity |]. split; [apply lookup_insert_eq |].
  destruct (savedOrder_fields env (bool_decide (orders s !! oid = None))
              (with_paymentStatus Failed o))
    as (_ & _ & -> & -> & -> & _).
  repeat split.
Qed.

Lemma failed_event_marks_any_order_failed_witness :
  exists o',
    orders (snd (webhook (envFailedAt 3000%Z) "evt_2" "sig_2" paid)) !! 0%N
    = Some o'
    /\ order_paymentStatus o' = Failed
    /\ order_orderStatus o' = Confirmed.
Proof.
  assert (Ho : exists o, orders paid !! 0%N = Some o
                         /\ validOrder o = true
                         /\ order_orderStatus o = Confirmed).
  { eexists. split; [vm_compute; reflexivity |].
    split; [vm_compute; reflexivity | reflexivity]. }
  destruct Ho as (o & Ho & Hv & Hst).
  destruct (failed_event_marks_any_order_failed (envFailedAt 3000%Z)
              "evt_2" "sig_2" paid _ 0%N o eq_refl eq_refl eq_refl Ho Hv)
    as (o' & _ & Ho' & Hp & Hos & _).
  exists o'. split; [exact Ho' |]. split; [exact Hp | congruence].
Defined.

(** X23. The webhook writes nothing when the provider rejects the
    signature (400), and acknowledges without writing (200) an event of
    another type, an event without order identifier and an event for an
    order that is not stored. *)
Theorem webhook_acknowledges_without_writing (env : Env)
    (rawBody signature : string) (s : Store) :
  (forall e,
     handleStripeWebhook env rawBody signature = StripeFail e ->
     webhook env rawBody signature s
     = (json 400 false "Webhook signature verification failed"
             (ProviderError e), s))
  /\ (forall ev,
        handleStripeWebhook env rawBody signature = StripeOk ev ->
        (ev_type ev <> "payment_intent.succeeded"
         /\ ev_type ev <> "payment_intent.payment_failed")
        \/ pi_metadata_orderId (ev_object ev) = None
        \/ (exists oid, pi_metadata_orderId (ev_object ev) = Some oid
                        /\ orders s !! oid = None) ->
        webhook env rawBody signature s
        = ({| status := 200; success := true; message := Received;
              data := NoData |}, s)).
Proof.
  split.
  - intros e He. unfold webhook, try_catch. rewrite He. reflexivity.
  - intros ev Hev Hcase. unfold webhook, try_catch, bind. rewrite Hev.
    unfold onPaymentSucceeded, onPaymentFailed, bind, Order_findById.
    destruct Hcase as [[Hs Hf] | [Hnone | (oid & Hid & Ho)]].
    + apply String.eqb_neq in Hs, Hf. rewrite Hs, Hf. reflexivity.
    + rewrite Hnone.
      destruct (String.eqb _ _); [reflexivity |].
      destruct (String.eqb _ _); reflexivity.
    + rewrite Hid.
      destruct (String.eqb _ _); [| destruct (String.eqb _ _)];
        simpl; rewrite ?Ho; reflexivity.
Qed.

Lemma webhook_acknowledges_without_writing_witness :
  webhook (envAt 3000%Z) "evt_1" "sig_1" catalog
  = ({| status := 200; success := true; message := Received; data := NoData |},
     catalog).
Proof.
  destruct (webhook_acknowledges_without_writing (envAt 3000%Z) "evt_1"
              "sig_1" catalog) as [_ H].
  apply (H _ eq_refl). right; right. exists 0%N. split; reflexivity.
Defined.

(** ** The payment routes *)

(** X24. The confirm route trusts the provider alone: when the provider
    reports the intent of the request as succeeded, the order of the user
    is saved paid and confirmed, with the payment date of the request,
    whatever its status was and whatever intent was stored for it; the
    stored intent is left as it is. *)
Theorem confirm_trusts_any_succeeded_intent (env : Env) (u : JWTPayload)
    (orderId : ObjectId) (intent : string) (s : Store) (o : Order)
    (d : ConfirmData) :
  intent <> "" ->
  orders s !! orderId = Some o ->
  order_user o = userId u ->
  validOrder o = true ->
  confirmPaymentIntent env intent = StripeOk d ->
  confirm_status d = "succeeded" ->
  exists o',
    status (fst (confirm_payment env (Token u) (Some orderId) (Some intent) s))
    = 200%nat
    /\ orders (snd (confirm_payment env (Token u) (Some orderId) (Some intent) s))
       !! orderId = Some o'
    /\ order_paymentStatus o' = Paid
    /\ order_orderStatus o' = Confirmed
    /\ order_paidAt o' = Some (now env)
    /\ order_paymentIntentId o' = order_paymentIntentId o.
Proof.
  intros Hne Ho Hu Hv Hd Hst. apply truthy_str_Some in Hne.
  assert (Hv' : validOrder (with_paidAt (Some (now env))
                              (with_orderStatus Confirmed
                                 (with_paymentStatus Paid o))) = true)
    by (rewrite <- Hv; apply validOrder_ext; reflexivity).
  destruct (confirm_payment env (Token u) (Some orderId) (Some intent) s)
    as [r s'] eqn:H. cbn [fst snd].
  unfold confirm_payment, authenticateJWT, try_catch, bind, Order_findOne,
    Order_save, or_null in H.
  rewrite Hne, Ho, (bool_decide_eq_true_2 _ Hu), Hd, Hst in H. simpl in H.
  rewrite Hv' in H. simpl in H. injection H as <- <-.
  eexists. split; [reflexivity |]. split; [apply lookup_insert_eq |].
  destruct (savedOrder_fields env (bool_decide (orders s !! orderId = None))
              (with_paidAt (Some (now env))
                 (with_orderStatus Confirmed (with_paymentStatus Paid o))))
    as (_ & _ & -> & -> & -> & _ & _ & ->).
  repeat split.
Qed.

Lemma confirm_trusts_any_succeeded_intent_witness :
  exists o',
    orders (snd (confirm_payment (envAt 3000%Z) (Token alice) (Some 0%N)
                   (Some "pi_of_someone_else") cancelled)) !! 0%N = Some o'
    /\ order_paymentStatus o' = Paid
    /\ order_orderStatus o' = Confirmed
    /\ order_paymentIntentId o' = None.
Proof.
  assert (Ho : exists o, orders cancelled !! 0%N = Some o
                         /\ order_user o = 7%N /\ validOrder o = true
                         /\ order_paymentIntentId o = None).
  { eexists. split; [vm_compute; reflexivity |]. split; [reflexivity |].
    split; [vm_compute; reflexivity | reflexivity]. }
  destruct Ho as (o & Ho & Hu & Hv & Hi).
  destruct (confirm_trusts_any_succeeded_intent (envAt 3000%Z) alice 0%N
              "pi_of_someone_else" cancelled o _
              ltac:(discriminate) Ho Hu Hv eq_refl eq_refl)
    as (o' & _ & Ho' & Hp & Hos & _ & Hi').
  exists o'. split; [exact Ho' |]. split; [exact Hp |].
  split; [exact Hos | congruence].
Defined.

(** X25. A payment intent is created for an order of the user whose
    payment is pending and for nothing else: on 200, the provider was asked
    for the stored total of that order in 'usd', and the order is saved with
    the identifier of the intent, trimmed, its two statuses unchanged. *)
Theorem payment_intent_is_for_a_pending_order (env : Env) (u : JWTPayload)
    (orderId : ObjectId) (s : Store) :
  status (fst (create_payment_intent env (Token u) (Some orderId) s))
  = 200%nat ->
  exists o d o',
    orders s !! orderId = Some o
    /\ order_user o = userId u
    /\ order_paymentStatus o = PayPending
    /\ createPaymentIntent env (total (order_totals o)) "usd"
         {| md_orderId := orderId;
            md_orderNumber := order_orderNumber o;
            md_userId := userId u |} = StripeOk d
    /\ orders (snd (create_payment_intent env (Token u) (Some orderId) s))
       !! orderId = Some o'
    /\ order_paymentIntentId o' = Some (trim (paymentIntentId d))
    /\ order_paymentStatus o' = PayPending
    /\ order_orderStatus o' = order_orderStatus o.
Proof.
  destruct (create_payment_intent env (Token u) (Some orderId) s)
    as [r s'] eqn:E. cbn [fst snd].
  intros Hr. unfold create_payment_intent in E.
  run_handler E; try discriminate.
  match goal with
  | Ho : orders _ !! _ = Some ?o, Hd : createPaymentIntent _ _ _ _ = StripeOk ?d,
    Hu : bool_decide (order_user _ = _) = true,
    Hp : negb (bool_decide _) = false |- _ =>
    exists o, d; eexists;
    apply bool_decide_eq_true in Hu;
    apply negb_false_iff, bool_decide_eq_true in Hp;
    (split; [reflexivity |]); (split; [exact Hu |]); (split; [exact Hp |]);
    (split; [exact Hd |]); (split; [apply lookup_insert_eq |]);
    destruct (savedOrder_fields env (bool_decide (orders s !! orderId = None))
                (with_paymentIntentId (Some (trim (paymentIntentId d))) o))
      as (_ & _ & -> & -> & _ & _ & _ & ->);
    simpl; repeat split; exact Hp
  end.
Qed.

Lemma payment_intent_is_for_a_pending_order_witness :
  exists o',
    orders (snd (create_payment_intent (envAt 1100%Z) (Token alice) (Some 0%N)
                   ordered)) !! 0%N = Some o'
    /\ order_paymentIntentId o' = Some "pi_1".
Proof.
  assert (Hr : status (fst (create_payment_intent (envAt 1100%Z) (Token alice)
                              (Some 0%N) ordered)) = 200%nat)
    by (vm_compute; reflexivity).
  destruct (payment_intent_is_for_a_pending_order _ _ _ _ Hr)
    as (o & d & o' & _ & _ & _ & Hd & Ho' & Hi & _).
  exists o'. split; [exact Ho' |].
  simpl in Hd. injection Hd as <-. exact Hi.
Defined.

(** ** Merging a cart with itself *)

Lemma forallb_Forall {A} (f : A -> bool) (l : list A) :
  forallb f l = true <-> Forall (fun x => f x = true) l.
Proof.
  rewrite forallb_forall, Forall_forall.
  split; intros H x Hx; apply H; apply list_elem_of_In; exact Hx.
Qed.

Lemma mergeItem_valid (items : list CartItem) (sessionItem : CartItem) :
  Forall (fun it => validCartItem it = true) items ->
  validCartItem sessionItem = true ->
  Forall (fun it => validCartItem it = true) (mergeItem items sessionItem).
Proof.
  intros Hitems Hs. unfold mergeItem.
  destruct (findIndex _ items) as [i |].
  - apply Forall_alter; [exact Hitems |].
    intros it _ Hit. revert Hit Hs.
    unfold validCartItem, min_ok. simpl.
    rewrite !andb_true_iff, !Qle_bool_iff.
    intros ((H1 & H2) & H3) ((H4 & H5) & H6).
    repeat split; [lra | exact H2 |].
    apply Qmult_le_0_compat; [lra | exact H2].
  - apply Forall_app. split; [exact Hitems |]. constructor; [exact Hs | constructor].
Qed.

Lemma fold_mergeItem_valid (sessionItems items : list CartItem) :
  Forall (fun it => validCartItem it = true) items ->
  Forall (fun it => validCartItem it = true) sessionItems ->
  Forall (fun it => validCartItem it = true)
         (fold_left mergeItem sessionItems items).
Proof.
  revert items. induction sessionItems as [| x l IH]; intros items Hi Hs; simpl.
  - exact Hi.
  - inversion Hs; subst. apply IH; [apply mergeItem_valid |]; assumption.
Qed.

Lemma findCart_unique (q : CartQuery) (m : gmap ObjectId Cart)
    (cid : ObjectId) (c : Cart) :
  m !! cid = Some c ->
  matchesCart q c = true ->
  (forall id c', m !! id = Some c' -> matchesCart q c' = true -> id = cid) ->
  findCart q m = Some (cid, c).
Proof.
  intros Hc Hm Huniq.
  destruct (findCart q m) as [[id c'] |] eqn:Hf.
  - apply findCart_Some in Hf as [Hl Hm']. cbn [fst snd] in Hl, Hm'.
    pose proof (Huniq _ _ Hl Hm') as ->.
    rewrite Hc in Hl. injection Hl as <-. reflexivity.
  - rewrite findCart_None in Hf. rewrite (Hf _ _ Hc) in Hm. discriminate.
Qed.

(** X26. A cart that carries both the user and the session identifier (an
    authenticated add that sends a session identifier creates one) is lost
    by a merge of that session: the cart is found as the session cart and
    as the user cart, saved with its quantities doubled, and then deleted
    as the session cart.  The response says 'Carts merged successfully' and
    carries no cart. *)
Theorem merge_of_own_session_deletes_the_cart (u : JWTPayload) (sid : string)
    (s : Store) (cid : ObjectId) (c : Cart) :
  sid <> "" ->
  carts s !! cid = Some c ->
  cart_user c = Some (userId u) ->
  cart_sessionId c = Some sid ->
  cart_items c <> [] ->
  validCart c = true ->
  (forall id c', carts s !! id = Some c' ->
                 cart_sessionId c' = Some sid -> id = cid) ->
  (forall id c', carts s !! id = Some c' ->
                 cart_user c' = Some (userId u) -> id = cid) ->
  fst (cart_merge (Token u) (Some sid) s)
  = json 200 true "Carts merged successfully" MissingData
  /\ carts (snd (cart_merge (Token u) (Some sid) s)) = delete cid (carts s).
Proof.
  intros Hsid Hc Hu Hs Hne Hv Huniq_s Huniq_u.
  apply truthy_str_Some in Hsid.
  assert (Hfs : findCart (BySession sid) (carts s) = Some (cid, c)).
  { apply findCart_unique; [exact Hc | simpl; apply bool_decide_eq_true_2, Hs |].
    intros id c' Hl Hm. simpl in Hm. apply bool_decide_eq_true in Hm. eauto. }
  assert (Hfu : findCart (ByUser (userId u)) (carts s) = Some (cid, c)).
  { apply findCart_unique; [exact Hc | simpl; apply bool_decide_eq_true_2, Hu |].
    intros id c' Hl Hm. simpl in Hm. apply bool_decide_eq_true in Hm. eauto. }
  set (merged := with_items (fold_left mergeItem (cart_items c) (cart_items c)) c).
  assert (Hvm : validCart merged = true).
  { unfold validCart in *. apply andb_true_iff in Hv as [Hi Ht].
    apply andb_true_iff. split; [| exact Ht].
    apply forallb_Forall. simpl. apply forallb_Forall in Hi.
    apply fold_mergeItem_valid; exact Hi. }
  assert (Hfd : findCart (BySession sid) (<[cid := cartPreSave merged]> (carts s))
                = Some (cid, cartPreSave merged)).
  { apply findCart_unique; [apply lookup_insert_eq | |].
    - simpl. apply bool_decide_eq_true_2. exact Hs.
    - intros id c' Hl Hm. simpl in Hm. apply bool_decide_eq_true in Hm.
      destruct (decide (id = cid)) as [-> | Hneq]; [reflexivity |].
      rewrite lookup_insert_ne in Hl by done. eauto. }
  destruct (cart_merge (Token u) (Some sid) s) as [r s'] eqn:E. cbn [fst snd].
  unfold cart_merge, authenticateJWT, try_catch, or_null in E.
  rewrite Hsid in E.
  unfold bind at 1 in E. unfold Cart_findOne at 1 in E. rewrite Hfs in E.
  cbn [fst snd] in E. rewrite (bool_decide_eq_false_2 _ Hne) in E.
  unfold bind at 1 in E. unfold Cart_findOne at 1 in E. rewrite Hfu in E.
  unfold bind at 1 in E. unfold ret at 1 in E. cbn [fst snd] in E.
  fold merged in E.
  unfold bind at 1 in E. unfold Cart_save at 1 in E. cbn [fst snd] in E.
  rewrite Hvm in E.
  unfold bind at 1 in E. unfold Cart_findOneAndDelete at 1 in E.
  cbn [carts set_carts] in E. rewrite Hfd in E. cbn [fst snd] in E.
  unfold bind, Cart_findById, ret in E. cbn [carts set_carts] in E.
  rewrite lookup_delete_eq in E. simpl in E. injection E as <- <-.
  split; [reflexivity |]. simpl. apply delete_insert_eq.
Qed.

Lemma merge_of_own_session_deletes_the_cart_witness :
  fst (cart_merge (Token alice) (Some "browser") withOwnSessionCart)
  = json 200 true "Carts merged successfully" MissingData
  /\ carts (snd (cart_merge (Token alice) (Some "browser") withOwnSessionCart))
     = ∅.
Proof.
  assert (Hc : exists c, carts withOwnSessionCart !! 0%N = Some c
                         /\ cart_user c = Some 7%N
                         /\ cart_sessionId c = Some "browser"
                         /\ cart_items c <> []
                         /\ validCart c = true
                         /\ carts withOwnSessionCart = {[ 0%N := c ]}).
  { eexists. split; [vm_compute; reflexivity |].
    split; [reflexivity |]. split; [reflexivity |].
    split; [discriminate |]. split; [vm_compute; reflexivity |].
    vm_compute. reflexivity. }
  destruct Hc as (c & Hc & Hu & Hs & Hne & Hv & Hall).
  assert (Huniq : forall id c', carts withOwnSessionCart !! id = Some c' ->
                                id = 0%N).
  { intros id c'. rewrite Hall. intros H.
    apply lookup_singleton_Some in H as [<- _]. reflexivity. }
  destruct (merge_of_own_session_deletes_the_cart alice "browser"
              withOwnSessionCart 0%N c ltac:(discriminate) Hc Hu Hs Hne Hv
              ltac:(intros; eapply Huniq; eassumption)
              ltac:(intros; eapply Huniq; eassumption)) as [Hr Hcarts].
  split; [exact Hr |]. rewrite Hcarts, Hall. apply delete_singleton_eq.
Defined.

(** ** Amounts sent to the payment provider *)







(** ** Checkout of a cart with an unavailable line *)

(** X28. No order is made from a cart with a line that cannot be sold: when
    the product of some line is missing, inactive, or tracked and short of
    the quantity of the line, the checkout is answered with 400 and writes
    nothing, whatever the other lines are. *)
Theorem checkout_refuses_unavailable_lines (env : Env) (u : JWTPayload)
    (body : CheckoutBody) (s : Store) (cid : ObjectId) (cart : Cart) :
  findCart (ByUser (userId u)) (carts s) = Some (cid, cart) ->
  Exists (fun item => ~ available (products s) item) (cart_items cart) ->
  status (fst (checkout env (Token u) body s)) = 400%nat
  /\ snd (checkout env (Token u) body s) = s.
Proof.
  intros Hcart Hex.
  assert (Hno : ~ Forall (available (products s)) (cart_items cart)).
  { intros Hall. apply Exists_exists in Hex as (item & Hin & Hna).
    rewrite Forall_forall in Hall. exact (Hna (Hall _ Hin)). }
  destruct (checkout env (Token u) body s) as [r s'] eqn:E. cbn [fst snd].
  destruct (checkout_outcomes _ _ _ _ _ _ E)
    as [[Hr Hs] | [[_ Hd] | [(_ & _ & Hd) | [_ Hd]]]].
  - split; assumption.
  - destruct Hd as (cid' & cart' & o & Hcart' & Hav & _).
    rewrite Hcart in Hcart'. injection Hcart' as <- <-. contradiction.
  - destruct Hd as (cid' & cart' & Hcart' & Hav).
    rewrite Hcart in Hcart'. injection Hcart' as <- <-. contradiction.
  - destruct Hd as (cid' & cart' & o & e & Hcart' & Hav & _).
    rewrite Hcart in Hcart'. injection Hcart' as <- <-. contradiction.
Qed.

Lemma checkout_refuses_unavailable_lines_witness :
  status (fst (checkout (envAt 1000%Z) (Token alice) checkoutReq onePenLeft))
  = 400%nat
  /\ snd (checkout (envAt 1000%Z) (Token alice) checkoutReq onePenLeft)
     = onePenLeft.
Proof.
  assert (Hc : exists cart,
             findCart (ByUser (userId alice)) (carts onePenLeft)
             = Some (0%N, cart)
             /\ cart_items cart = [ {| ci_product := 1%N; ci_quantity := 2;
                                       ci_price := 20; ci_total := 2 * 20 |} ]).
  { eexists. split; [vm_compute; reflexivity | reflexivity]. }
  destruct Hc as (cart & Hcart & Hitems).
  apply (checkout_refuses_unavailable_lines (envAt 1000%Z) alice checkoutReq
           onePenLeft 0%N cart Hcart).
  rewrite Hitems. apply Exists_cons_hd.
  intros (p & Hp & _ & Hins).
  vm_compute in Hp. injection Hp as <-. vm_compute in Hins. discriminate.
Defined.
